(** * EVI Dash: the dashboard front end, its API client, conversation
      threads and chart normaliser

    A shallow embedding of the React dashboard component
    ([EcommerceDashboard] and the [APIClient] class beside it).  JavaScript
    values are modelled as data, the asynchronous handlers as programs of a
    small state-and-exception monad that also records the network requests
    they issue, and the platform functions the code calls as executable
    definitions where their result matters and as parameters where only their
    presence does. *)

From Stdlib Require Import List ZArith NArith Bool String Ascii Lia.
Import ListNotations.

Local Open Scope string_scope.
Local Open Scope list_scope.
Local Set Warnings "-register-all".

(* ------------------------------------------------------------------------- *)
(** ** Strings *)

(** A JavaScript string is a sequence of UTF-16 code units. *)
Definition jsstring : Type := list N.

(** An ASCII literal of the source as a [jsstring]. *)
Definition lit (s : string) : jsstring :=
  map N_of_ascii (list_ascii_of_string s).

Fixpoint jsstring_eqb (a b : jsstring) : bool :=
  match a, b with
  | [], [] => true
  | x :: a', y :: b' => N.eqb x y && jsstring_eqb a' b'
  | _, _ => false
  end.

(** The code units [String.prototype.trim] strips: ECMAScript's WhiteSpace
    and LineTerminator productions. *)
Definition is_whitespace (c : N) : bool :=
  ((9 <=? c) && (c <=? 13) || (c =? 32) || (c =? 160) || (c =? 5760)
   || (8192 <=? c) && (c <=? 8202)
   || (c =? 8232) || (c =? 8233) || (c =? 8239) || (c =? 8287)
   || (c =? 12288) || (c =? 65279))%N.

Fixpoint trimStart (s : jsstring) : jsstring :=
  match s with
  | c :: s' => if is_whitespace c then trimStart s' else s
  | [] => []
  end.

Definition trimEnd (s : jsstring) : jsstring := rev (trimStart (rev s)).

Definition trim (s : jsstring) : jsstring := trimEnd (trimStart s).

(** [Array.prototype.join] on an array of strings. *)
Fixpoint join (sep : jsstring) (parts : list jsstring) : jsstring :=
  match parts with
  | [] => []
  | [p] => p
  | p :: rest => p ++ sep ++ join sep rest
  end.

(** [a.includes(s)] when every element of [a] is a string. *)
Definition includes (keys : list jsstring) (s : jsstring) : bool :=
  existsb (jsstring_eqb s) keys.

(* ------------------------------------------------------------------------- *)
(** ** Numbers *)

(** A JavaScript Number.  [Dec m e] is the double nearest to [m * 10^-e]; the
    model is exact for decimals of at most 15 significant digits within the
    range of normal doubles, which is where distinct decimals are distinct
    doubles and [Number::toString] gives the decimal back. *)
Inductive number : Type :=
| NaN
| Infinity (negative : bool)
| Dec (m : Z) (e : nat).

Definition isNaN (n : number) : bool :=
  match n with NaN => true | _ => false end.

(** [n > 0]. *)
Definition num_gt0 (n : number) : bool :=
  match n with
  | NaN => false
  | Infinity negative => negb negative
  | Dec m _ => (0 <? m)%Z
  end.

(** [Math.abs(n) >= k] for an integer constant [k]. *)
Definition num_abs_ge (n : number) (k : Z) : bool :=
  match n with
  | NaN => false
  | Infinity _ => true
  | Dec m e => (k * 10 ^ Z.of_nat e <=? Z.abs m)%Z
  end.

(** [n === 0] (either zero). *)
Definition num_is_zero (n : number) : bool :=
  match n with Dec m _ => (m =? 0)%Z | _ => false end.

Definition digit_unit (d : N) : N := (48 + d)%N.

Fixpoint digits_of_uint (u : Decimal.uint) : list N :=
  match u with
  | Decimal.Nil => []
  | Decimal.D0 u' => 0%N :: digits_of_uint u'
  | Decimal.D1 u' => 1%N :: digits_of_uint u'
  | Decimal.D2 u' => 2%N :: digits_of_uint u'
  | Decimal.D3 u' => 3%N :: digits_of_uint u'
  | Decimal.D4 u' => 4%N :: digits_of_uint u'
  | Decimal.D5 u' => 5%N :: digits_of_uint u'
  | Decimal.D6 u' => 6%N :: digits_of_uint u'
  | Decimal.D7 u' => 7%N :: digits_of_uint u'
  | Decimal.D8 u' => 8%N :: digits_of_uint u'
  | Decimal.D9 u' => 9%N :: digits_of_uint u'
  end.

(** The decimal digits of a natural number, most significant first; [0] has
    the single digit 0. *)
Definition digits (n : N) : list N := digits_of_uint (N.to_uint n).

Definition decimal_of_N (n : N) : jsstring := map digit_unit (digits n).

Fixpoint drop_zeros (ds : list N) : list N :=
  match ds with
  | 0%N :: ds' => drop_zeros ds'
  | _ => ds
  end.

(** [Number::toString] for radix 10 (ECMA-262, 6.1.6.1.20): with [s] the
    significand of [k] digits and [x = s * 10^(n-k)]. *)
Definition render_decimal (ds : list N) (n : Z) : jsstring :=
  let k := Z.of_nat (List.length ds) in
  let text := map digit_unit ds in
  if ((k <=? n) && (n <=? 21))%Z then
    text ++ repeat (digit_unit 0) (Z.to_nat (n - k))
  else if ((0 <? n) && (n <=? 21))%Z then
    firstn (Z.to_nat n) text ++ lit "." ++ skipn (Z.to_nat n) text
  else if ((-6 <? n) && (n <=? 0))%Z then
    lit "0." ++ repeat (digit_unit 0) (Z.to_nat (- n)) ++ text
  else
    let expo := (n - 1)%Z in
    let sign := if (expo <? 0)%Z then lit "-" else lit "+" in
    let tail := lit "e" ++ sign ++ decimal_of_N (Z.to_N (Z.abs expo)) in
    match text with
    | [d] => d :: tail
    | d :: rest => d :: lit "." ++ rest ++ tail
    | [] => tail
    end.

Definition numberToString (x : number) : jsstring :=
  match x with
  | NaN => lit "NaN"
  | Infinity negative => if negative then lit "-Infinity" else lit "Infinity"
  | Dec m e =>
      if (m =? 0)%Z then lit "0"
      else
        let all := digits (Z.to_N (Z.abs m)) in
        let s := rev (drop_zeros (rev all)) in
        let n := (Z.of_nat (List.length all) - Z.of_nat e)%Z in
        (if (m <? 0)%Z then lit "-" else []) ++ render_decimal s n
  end.

(* ------------------------------------------------------------------------- *)
(** ** Values *)

(** The values that cross the HTTP boundary (what [JSON.parse] can produce)
    and [undefined].  An object lists its own properties in property order,
    the order of [Object.keys], with distinct names. *)
Inductive jsval : Type :=
| JUndefined
| JNull
| JBool (b : bool)
| JNum (n : number)
| JStr (s : jsstring)
| JArr (items : list jsval)
| JObj (props : list (jsstring * jsval)).

(** ToBoolean: the test of [if (v)], [!v], [v && w], [v || w]. *)
Definition truthy (v : jsval) : bool :=
  match v with
  | JUndefined | JNull => false
  | JBool b => b
  | JNum n => negb (isNaN n || num_is_zero n)
  | JStr s => match s with [] => false | _ => true end
  | JArr _ | JObj _ => true
  end.

(** [a || b] on values. *)
Definition js_or (a b : jsval) : jsval := if truthy a then a else b.

(** ToString, as a template literal applies it to an interpolated value. *)
Fixpoint toStr (v : jsval) : jsstring :=
  match v with
  | JUndefined => lit "undefined"
  | JNull => lit "null"
  | JBool b => if b then lit "true" else lit "false"
  | JNum n => numberToString n
  | JStr s => s
  | JArr items =>
      join (lit ",")
        (map (fun x => match x with
                       | JUndefined | JNull => []
                       | _ => toStr x
                       end) items)
  | JObj _ => lit "[object Object]"
  end.

Fixpoint lookup (k : jsstring) (props : list (jsstring * jsval)) : jsval :=
  match props with
  | [] => JUndefined
  | (k', v) :: rest => if jsstring_eqb k k' then v else lookup k rest
  end.

Definition isArray (v : jsval) : bool :=
  match v with JArr _ => true | _ => false end.

Definition num_of_nat (n : nat) : number := Dec (Z.of_nat n) 0.

(** [a === b] where [b] is a string constant. *)
Definition is_string (v : jsval) (s : jsstring) : bool :=
  match v with JStr s' => jsstring_eqb s' s | _ => false end.

(* ------------------------------------------------------------------------- *)
(** ** Exceptions *)

Record jserror : Type := mkError { err_name : jsstring; message : jsstring }.

Definition TypeError (msg : jsstring) : jserror := mkError (lit "TypeError") msg.
Definition Error (msg : jsstring) : jserror := mkError (lit "Error") msg.

(** The completion of an evaluation: a value, or a thrown exception (for a
    promise: fulfilled, or rejected). *)
Inductive outcome (A : Type) : Type :=
| Return (a : A)
| Throw (e : jserror).
Arguments Return {A} a.
Arguments Throw {A} e.

(** The property read [v.k] for the names the dashboard reads.  Reading a
    property of [undefined] or [null] throws; arrays and strings have their
    [length]; on the other values the names read here are absent. *)
Definition get_prop (v : jsval) (k : jsstring) : outcome jsval :=
  match v with
  | JUndefined =>
      Throw (TypeError (lit "Cannot read properties of undefined (reading '"
                          ++ k ++ lit "')"))
  | JNull =>
      Throw (TypeError (lit "Cannot read properties of null (reading '"
                          ++ k ++ lit "')"))
  | JObj props => Return (lookup k props)
  | JArr items =>
      Return (if jsstring_eqb k (lit "length")
              then JNum (num_of_nat (List.length items)) else JUndefined)
  | JStr s =>
      Return (if jsstring_eqb k (lit "length")
              then JNum (num_of_nat (List.length s)) else JUndefined)
  | JBool _ | JNum _ => Return JUndefined
  end.

(** [a[i]] on an array. *)
Definition item (items : list jsval) (i : nat) : jsval :=
  nth i items JUndefined.

(* ------------------------------------------------------------------------- *)
(** ** URLSearchParams *)

Definition is_lead (c : N) : bool := ((55296 <=? c) && (c <=? 56319))%N.
Definition is_trail (c : N) : bool := ((56320 <=? c) && (c <=? 57343))%N.

(** The scalar values of a string; a lone surrogate becomes U+FFFD, as the
    conversion to a USVString does. *)
Fixpoint code_points (s : jsstring) : list N :=
  match s with
  | [] => []
  | c :: s' =>
      if is_lead c then
        match s' with
        | d :: s'' =>
            if is_trail d
            then (65536 + (c - 55296) * 1024 + (d - 56320))%N :: code_points s''
            else 65533%N :: code_points s'
        | [] => [65533%N]
        end
      else if is_trail c then 65533%N :: code_points s'
      else c :: code_points s'
  end.

Definition utf8 (cp : N) : list N :=
  (if cp <? 128 then [cp]
   else if cp <? 2048 then [192 + cp / 64; 128 + cp mod 64]
   else if cp <? 65536 then
     [224 + cp / 4096; 128 + (cp / 64) mod 64; 128 + cp mod 64]
   else
     [240 + cp / 262144; 128 + (cp / 4096) mod 64;
      128 + (cp / 64) mod 64; 128 + cp mod 64])%N.

Definition hex_unit (d : N) : N := (if d <? 10 then 48 + d else 55 + d)%N.

(** The application/x-www-form-urlencoded byte serialiser. *)
Definition urlencode_byte (b : N) : jsstring :=
  (if b =? 32 then [43]
   else if (b =? 42) || (b =? 45) || (b =? 46) || (b =? 95)
           || (48 <=? b) && (b <=? 57)
           || (65 <=? b) && (b <=? 90)
           || (97 <=? b) && (b <=? 122)
   then [b]
   else [37; hex_unit (b / 16); hex_unit (b mod 16)])%N.

Definition urlencode (s : jsstring) : jsstring :=
  flat_map urlencode_byte (flat_map utf8 (code_points s)).

(** A [URLSearchParams] object: its list of name-value pairs. *)
Definition URLSearchParams : Type := list (jsstring * jsstring).

Definition append (params : URLSearchParams) (name value : jsstring)
  : URLSearchParams :=
  params ++ [(name, value)].

(** [params.toString()]. *)
Definition params_toString (params : URLSearchParams) : jsstring :=
  join (lit "&")
    (map (fun p => urlencode (fst p) ++ lit "=" ++ urlencode (snd p)) params).

(* ------------------------------------------------------------------------- *)
(** ** The network and the component's state *)

(** What [fetch] is called with.  [req_body] is the value whose
    [JSON.stringify] text is the body ([JUndefined] for a GET); the
    Content-Type header is fixed and left out. *)
Record Request : Type := mkRequest {
  url : jsstring;
  method : jsstring;
  req_body : jsval
}.

(** What [response.json()] settles to. *)
Inductive JsonResult : Type :=
| JsonReject (e : jserror)
| JsonOk (v : jsval).

Record Response : Type := mkResponse {
  status : N;
  statusText : jsstring;
  body : JsonResult
}.

(** [response.ok]: the status is in the range 200-299. *)
Definition ok (r : Response) : bool :=
  ((200 <=? status r) && (status r <=? 299))%N.

(** What [fetch(...)] settles to. *)
Inductive FetchResult : Type :=
| FetchReject (e : jserror)
| FetchResponse (r : Response).

Inductive Role : Type := user | assistant.

(** A chat message object; [charts] is [JUndefined] where the object has no
    such property. *)
Record Message : Type := mkMessage {
  role : Role;
  content : jsval;
  timestamp : jsval;
  charts : jsval
}.

(** The state variables of [EcommerceDashboard] that the conversation
    threads use. *)
Record AppState : Type := mkAppState {
  currentPage : jsstring;
  chatMessages : list Message;
  chatInput : jsstring;
  chatLoading : bool;
  chatHistoryLoaded : bool;
  graphChatMessages : list Message;
  graphChatInput : jsstring;
  graphChatLoading : bool;
  graphChatHistoryLoaded : bool
}.

(** The component's state together with the requests issued so far (oldest
    first) and the number of times the clock has been read. *)
Record World : Type := mkWorld {
  app : AppState;
  sent : list Request;
  ticks : nat
}.

(** A computation that reads and updates the world and may throw. *)
Definition M (A : Type) : Type := World -> outcome A * World.

Definition ret {A} (a : A) : M A := fun w => (Return a, w).

Definition throw {A} (e : jserror) : M A := fun w => (Throw e, w).

Definition bind {A B} (m : M A) (k : A -> M B) : M B :=
  fun w =>
    match m w with
    | (Return a, w') => k a w'
    | (Throw e, w') => (Throw e, w')
    end.

(** [try { m } catch (e) { handler e }]: updates made before the throw stay. *)
Definition try_catch {A} (m : M A) (handler : jserror -> M A) : M A :=
  fun w =>
    match m w with
    | (Return a, w') => (Return a, w')
    | (Throw e, w') => handler e w'
    end.

Definition lift {A} (o : outcome A) : M A := fun w => (o, w).

Declare Scope js_scope.
Delimit Scope js_scope with js.
Notation "x <- m ;; k" := (bind m (fun x => k))
  (at level 100, m at next level, right associativity) : js_scope.
Notation "m ;; k" := (bind m (fun _ => k))
  (at level 100, right associativity) : js_scope.
Local Open Scope js_scope.

Definition getState : M AppState := fun w => (Return (app w), w).

Definition setState (f : AppState -> AppState) : M unit :=
  fun w => (Return tt, mkWorld (f (app w)) (sent w) (ticks w)).

Definition setChatMessages (f : list Message -> list Message) : M unit :=
  setState (fun s =>
    mkAppState (currentPage s) (f (chatMessages s)) (chatInput s)
      (chatLoading s) (chatHistoryLoaded s) (graphChatMessages s)
      (graphChatInput s) (graphChatLoading s) (graphChatHistoryLoaded s)).

Definition setChatInput (v : jsstring) : M unit :=
  setState (fun s =>
    mkAppState (currentPage s) (chatMessages s) v
      (chatLoading s) (chatHistoryLoaded s) (graphChatMessages s)
      (graphChatInput s) (graphChatLoading s) (graphChatHistoryLoaded s)).

Definition setChatLoading (v : bool) : M unit :=
  setState (fun s =>
    mkAppState (currentPage s) (chatMessages s) (chatInput s)
      v (chatHistoryLoaded s) (graphChatMessages s)
      (graphChatInput s) (graphChatLoading s) (graphChatHistoryLoaded s)).

Definition setChatHistoryLoaded (v : bool) : M unit :=
  setState (fun s =>
    mkAppState (currentPage s) (chatMessages s) (chatInput s)
      (chatLoading s) v (graphChatMessages s)
      (graphChatInput s) (graphChatLoading s) (graphChatHistoryLoaded s)).

Definition setGraphChatMessages (f : list Message -> list Message) : M unit :=
  setState (fun s =>
    mkAppState (currentPage s) (chatMessages s) (chatInput s)
      (chatLoading s) (chatHistoryLoaded s) (f (graphChatMessages s))
      (graphChatInput s) (graphChatLoading s) (graphChatHistoryLoaded s)).

Definition setGraphChatInput (v : jsstring) : M unit :=
  setState (fun s =>
    mkAppState (currentPage s) (chatMessages s) (chatInput s)
      (chatLoading s) (chatHistoryLoaded s) (graphChatMessages s)
      v (graphChatLoading s) (graphChatHistoryLoaded s)).

Definition setGraphChatLoading (v : bool) : M unit :=
  setState (fun s =>
    mkAppState (currentPage s) (chatMessages s) (chatInput s)
      (chatLoading s) (chatHistoryLoaded s) (graphChatMessages s)
      (graphChatInput s) v (graphChatHistoryLoaded s)).

Definition setGraphChatHistoryLoaded (v : bool) : M unit :=
  setState (fun s =>
    mkAppState (currentPage s) (chatMessages s) (chatInput s)
      (chatLoading s) (chatHistoryLoaded s) (graphChatMessages s)
      (graphChatInput s) (graphChatLoading s) v).

(** [await response.json()]. *)
Definition json (r : Response) : M jsval :=
  match body r with
  | JsonReject e => throw e
  | JsonOk v => ret v
  end.

(** The property read [v.k] inside a computation. *)
Definition prop (v : jsval) (k : string) : M jsval := lift (get_prop v (lit k)).

(** An object literal. *)
Definition obj (fields : list (string * jsval)) : jsval :=
  JObj (map (fun f => (lit (fst f), snd f)) fields).

(** The filters object [fetchDashboardData] is called with; a property the
    object does not have is [None]. *)
Record Filters : Type := mkFilters {
  regions : option (list jsstring);
  categories : option (list jsstring);
  customerTenure : option (list jsstring);
  customerRecency : option (list jsstring);
  totalTransactionsMin : option number;
  totalTransactionsMax : option number;
  discountMin : option number;
  discountMax : option number;
  timeFilter : option jsstring
}.

(** [if (list && list.length > 0) params.append(name, list.join(','))]. *)
Definition append_list (name : string) (field : option (list jsstring))
    (params : URLSearchParams) : URLSearchParams :=
  match field with
  | Some (x :: rest) => append params (lit name) (join (lit ",") (x :: rest))
  | _ => params
  end.

(** [if (n !== undefined && n > 0) params.append(name, n)]. *)
Definition append_number (name : string) (field : option number)
    (params : URLSearchParams) : URLSearchParams :=
  match field with
  | Some n =>
      if num_gt0 n then append params (lit name) (numberToString n) else params
  | None => params
  end.

(** [if (s && s !== 'all') params.append(name, s)]. *)
Definition append_timeFilter (field : option jsstring)
    (params : URLSearchParams) : URLSearchParams :=
  match field with
  | Some (c :: s) =>
      if negb (jsstring_eqb (c :: s) (lit "all"))
      then append params (lit "timeFilter") (c :: s) else params
  | _ => params
  end.

(** The query parameters [fetchDashboardData] builds (lines 13-22). *)
Definition dashboardParams (filters : Filters) : URLSearchParams :=
  let params := [] in
  let params := append_list "regions" (regions filters) params in
  let params := append_list "categories" (categories filters) params in
  let params := append_list "customerTenure" (customerTenure filters) params in
  let params := append_list "customerRecency" (customerRecency filters) params in
  let params :=
    append_number "totalTransactionsMin" (totalTransactionsMin filters) params in
  let params :=
    append_number "totalTransactionsMax" (totalTransactionsMax filters) params in
  let params := append_number "discountMin" (discountMin filters) params in
  let params := append_number "discountMax" (discountMax filters) params in
  append_timeFilter (timeFilter filters) params.

Section Client.

(** The configured base URL ([REACT_APP_API_URL], or the localhost default). *)
Variable API_BASE_URL : jsstring.

(** How the network answers a request. *)
Variable network : Request -> FetchResult.

(** [new Date().toISOString()] at the n-th reading of the clock. *)
Variable nowISO : nat -> jsstring.

(** [await fetch(url, options)]: the request goes out, then the promise
    settles. *)
Definition fetch (req : Request) : M Response :=
  fun w =>
    let w' := mkWorld (app w) (sent w ++ [req]) (ticks w) in
    match network req with
    | FetchReject e => (Throw e, w')
    | FetchResponse r => (Return r, w')
    end.

Definition newDateISO : M jsstring :=
  fun w => (Return (nowISO (ticks w)), mkWorld (app w) (sent w) (S (ticks w))).

Definition GET (u : jsstring) : Request := mkRequest u (lit "GET") JUndefined.

Definition POST (u : jsstring) (payload : jsval) : Request :=
  mkRequest u (lit "POST") payload.

Definition dashboardUrl (filters : Filters) : jsstring :=
  let query := params_toString (dashboardParams filters) in
  API_BASE_URL ++ lit "/data"
    ++ match query with [] => [] | _ => lit "?" ++ query end.

(** [APIClient.fetchDashboardData]; the [console.error] of the catch block
    has no effect on the state or the result and is left out. *)
Definition fetchDashboardData (filters : Filters) : M jsval :=
  try_catch
    (response <- fetch (GET (dashboardUrl filters)) ;;
     (if negb (ok response)
      then throw (Error (lit "API error: " ++ decimal_of_N (status response)
                           ++ lit " " ++ statusText response))
      else ret tt) ;;
     rawData <- json response ;;
     match rawData with
     | JArr items =>
         if Nat.eqb (List.length items) 0 then ret JNull
         else ret (item items 0)
     | _ => ret JNull
     end)
    (fun error => ret JNull).

(** [if (!response.ok) throw new Error(`API error: ${response.status}`)]. *)
Definition check_ok (response : Response) : M unit :=
  if negb (ok response)
  then throw (Error (lit "API error: " ++ decimal_of_N (status response)))
  else ret tt.

(** [APIClient.analyzeText]. *)
Definition analyzeText (userMessage : jsstring) : M jsval :=
  try_catch
    (response <- fetch (POST (API_BASE_URL ++ lit "/text/analyze")
                          (obj [("user_message", JStr userMessage)])) ;;
     check_ok response ;;
     data <- json response ;;
     success <- prop data "success" ;;
     if truthy success then
       summary <- prop data "summary" ;;
       ts <- prop data "timestamp" ;;
       ret (obj [("success", JBool true); ("summary", summary);
                 ("timestamp", ts)])
     else
       err <- prop data "error" ;;
       ret (obj [("success", JBool false);
                 ("error", js_or err (JStr (lit "Unknown error occurred")))]))
    (fun error =>
       ret (obj [("success", JBool false);
                 ("error", js_or (JStr (message error))
                             (JStr (lit "Failed to connect to API")))])).

(** [APIClient.fetchChatHistory]. *)
Definition fetchChatHistory : M jsval :=
  try_catch
    (response <- fetch (GET (API_BASE_URL ++ lit "/chat/history?limit=20")) ;;
     if negb (ok response) then ret (JArr [])
     else
       data <- json response ;;
       success <- prop data "success" ;;
       if truthy success then
         history <- prop data "history" ;;
         ret (js_or history (JArr []))
       else ret (JArr []))
    (fun _ => ret (JArr [])).

(** [APIClient.generateGraphs]. *)
Definition generateGraphs (userMessage : jsstring) : M jsval :=
  try_catch
    (response <- fetch (POST (API_BASE_URL ++ lit "/graphs/generate")
                          (obj [("user_message", JStr userMessage)])) ;;
     check_ok response ;;
     data <- json response ;;
     success <- prop data "success" ;;
     if truthy success then
       charts <- prop data "charts" ;;
       questions <- prop data "questions" ;;
       ts <- prop data "timestamp" ;;
       ret (obj [("success", JBool true);
                 ("charts", js_or charts (JArr []));
                 ("questions", js_or questions (JStr []));
                 ("timestamp", ts)])
     else
       err <- prop data "error" ;;
       ret (obj [("success", JBool false);
                 ("error", js_or err (JStr (lit "Unknown error occurred")))]))
    (fun error =>
       ret (obj [("success", JBool false);
                 ("error", js_or (JStr (message error))
                             (JStr (lit "Failed to connect to API")))])).

(** [v || new Date().toISOString()]: the clock is read only when [v] is
    falsy. *)
Definition or_now (v : jsval) : M jsval :=
  if truthy v then ret v else (now <- newDateISO ;; ret (JStr now)).

Definition is_empty (s : jsstring) : bool :=
  match s with [] => true | _ => false end.

(** [handleSendMessage] (lines 431-456), run to completion. *)
Definition handleSendMessage : M unit :=
  st <- getState ;;
  let text := trim (chatInput st) in
  if is_empty text || chatLoading st then ret tt
  else
    now <- newDateISO ;;
    let userMsg := mkMessage user (JStr text) (JStr now) JUndefined in
    setChatMessages (fun prev => prev ++ [userMsg]) ;;
    setChatInput [] ;;
    setChatLoading true ;;
    result <- analyzeText text ;;
    success <- prop result "success" ;;
    (if truthy success then
       summary <- prop result "summary" ;;
       ts <- prop result "timestamp" ;;
       ts <- or_now ts ;;
       setChatMessages (fun prev =>
         prev ++ [mkMessage assistant summary ts JUndefined])
     else
       err <- prop result "error" ;;
       now <- newDateISO ;;
       setChatMessages (fun prev =>
         prev ++ [mkMessage assistant
                    (JStr (lit "Sorry, I ran into an issue: " ++ toStr err))
                    (JStr now) JUndefined])) ;;
    setChatLoading false.

Definition quote : jsstring := [34%N].

(** [handleSendGraphMessage] (lines 477-517), run to completion. *)
Definition handleSendGraphMessage : M unit :=
  st <- getState ;;
  let text := trim (graphChatInput st) in
  if is_empty text || graphChatLoading st then ret tt
  else
    now <- newDateISO ;;
    let userMsg := mkMessage user (JStr text) (JStr now) JUndefined in
    setGraphChatMessages (fun prev => prev ++ [userMsg]) ;;
    setGraphChatInput [] ;;
    setGraphChatLoading true ;;
    try_catch
      (response <- fetch (POST (API_BASE_URL ++ lit "/graphs/generate")
                            (obj [("user_message", JStr text)])) ;;
       data <- json response ;;
       success <- prop data "success" ;;
       if truthy success then
         chartList <- prop data "charts" ;;
         ts <- prop data "timestamp" ;;
         ts <- or_now ts ;;
         setGraphChatMessages (fun prev =>
           prev ++ [mkMessage assistant
                      (JStr (lit "Here are your charts for: "
                               ++ quote ++ text ++ quote))
                      ts (js_or chartList (JArr []))])
       else
         err <- prop data "error" ;;
         now <- newDateISO ;;
         setGraphChatMessages (fun prev =>
           prev ++ [mkMessage assistant
                      (JStr (lit "Sorry, I ran into an issue: "
                               ++ toStr (js_or err (JStr (lit "Unknown error")))))
                      (JStr now) (JArr [])]))
      (fun err =>
         now <- newDateISO ;;
         setGraphChatMessages (fun prev =>
           prev ++ [mkMessage assistant
                      (JStr (lit "Connection error: " ++ message err))
                      (JStr now) (JArr [])])) ;;
    setGraphChatLoading false.

(** The runtime's StringToNumber (ECMA-262, 7.1.4.1.1). *)
Variable StringToNumber : jsstring -> number.

(** ToNumber. *)
Definition ToNumber (v : jsval) : number :=
  match v with
  | JUndefined => NaN
  | JNull => Dec 0 0
  | JBool b => if b then Dec 1 0 else Dec 0 0
  | JNum n => n
  | JStr s => StringToNumber s
  | JArr _ | JObj _ => StringToNumber (toStr v)
  end.

(** [v > 0]. *)
Definition js_gt0 (v : jsval) : bool := num_gt0 (ToNumber v).

(** The calls of [f] on the elements of an array in order, their results
    collected; the first throw ends the loop. *)
Fixpoint forRows (f : jsval -> M (list Message)) (rows : list jsval)
  : M (list Message) :=
  match rows with
  | [] => ret []
  | row :: rest =>
      ms <- f row ;;
      ms' <- forRows f rest ;;
      ret (ms ++ ms')
  end.

(** [rows.forEach(f)] and [rows.map(f)] on a value that may not be an array:
    no other value read from JSON has such a method. *)
Definition eachRow (callee : string) (f : jsval -> M (list Message))
    (rows : jsval) : M (list Message) :=
  match rows with
  | JArr items => forRows f items
  | _ => throw (TypeError (lit callee ++ lit " is not a function"))
  end.

(** The two messages pushed for a chat-history row (lines 326-327). *)
Definition chatRow (row : jsval) : M (list Message) :=
  question <- prop row "user_message" ;;
  asked <- prop row "created_at" ;;
  answer <- prop row "assistant_response" ;;
  answered <- prop row "created_at" ;;
  ret [mkMessage user question asked JUndefined;
       mkMessage assistant answer answered JUndefined].

(** The effect that loads the chat history when the text page is opened
    (lines 320-334): the call and its [then] callback, run to completion.
    A throw is a rejection of the promise the effect leaves unhandled. *)
Definition loadChatHistory : M unit :=
  st <- getState ;;
  if jsstring_eqb (currentPage st) (lit "text") && negb (chatHistoryLoaded st)
  then
    history <- fetchChatHistory ;;
    len <- prop history "length" ;;
    (if js_gt0 len then
       loaded <- eachRow "history.forEach" chatRow history ;;
       setChatMessages (fun _ => loaded)
     else ret tt) ;;
    setChatHistoryLoaded true
  else ret tt.

(** The user message a graph-history row maps to (lines 355-357). *)
Definition graphRow (row : jsval) : M (list Message) :=
  question <- prop row "user_message" ;;
  asked <- prop row "created_at" ;;
  ret [mkMessage user question asked JUndefined].

(** The chart emoji U+1F4CA as a surrogate pair. *)
Definition chart_emoji : jsstring := [55357%N; 56522%N].

(** The assistant message put after a loaded user message (line 362). *)
Definition placeholder (m : Message) : Message :=
  mkMessage assistant
    (JStr (chart_emoji
             ++ lit " Charts were generated for this question (re-ask to regenerate)."))
    (timestamp m) (JArr []).

(** The effect that loads the graph history when the graph page is opened
    (lines 347-370), run to completion. *)
Definition loadGraphHistory : M unit :=
  st <- getState ;;
  if jsstring_eqb (currentPage st) (lit "graphs")
     && negb (graphChatHistoryLoaded st)
  then
    try_catch
      (r <- fetch (GET (API_BASE_URL ++ lit "/graphs/history?limit=20")) ;;
       data <- json r ;;
       success <- prop data "success" ;;
       nonempty <-
         (if truthy success then
            history <- prop data "history" ;;
            if truthy history then
              len <- prop history "length" ;;
              ret (js_gt0 len)
            else ret false
          else ret false) ;;
       (if nonempty : bool then
          history <- prop data "history" ;;
          loaded <- eachRow "data.history.map" graphRow history ;;
          let msgs := flat_map (fun m => [m; placeholder m]) loaded in
          setGraphChatMessages (fun _ => msgs)
        else ret tt) ;;
       setGraphChatHistoryLoaded true)
      (fun _ => setGraphChatHistoryLoaded true)
  else ret tt.

End Client.

(** The conversation threads: the data-analysis chat and the chart chat. *)
Inductive Thread : Type := analysis | chartgen.

Definition messages_of (t : Thread) (s : AppState) : list Message :=
  match t with
  | analysis => chatMessages s
  | chartgen => graphChatMessages s
  end.

Definition input_of (t : Thread) (s : AppState) : jsstring :=
  match t with
  | analysis => chatInput s
  | chartgen => graphChatInput s
  end.

Definition sending (t : Thread) (s : AppState) : bool :=
  match t with
  | analysis => chatLoading s
  | chartgen => graphChatLoading s
  end.

Definition historyLoaded (t : Thread) (s : AppState) : bool :=
  match t with
  | analysis => chatHistoryLoaded s
  | chartgen => graphChatHistoryLoaded s
  end.

(** The send handler of a thread. *)
Definition send (API_BASE_URL : jsstring) (network : Request -> FetchResult)
    (nowISO : nat -> jsstring) (t : Thread) : M unit :=
  match t with
  | analysis => handleSendMessage API_BASE_URL network nowISO
  | chartgen => handleSendGraphMessage API_BASE_URL network nowISO
  end.

(** A string of white space only (the empty string included). *)
Definition whitespace_only (s : jsstring) : bool := forallb is_whitespace s.

(* ------------------------------------------------------------------------- *)
(** ** Date labels and the grouping of the chat messages *)

(** An element of the grouped list, of type 'divider' or 'message'; [idx] is
    the message index in its key ([divider-idx], [msg-idx]). *)
Inductive GroupItem : Type :=
| Divider (label : jsstring) (idx : nat)
| MessageItem (msg : Message) (idx : nat).

Section Dates.

(** [new Date(v).toDateString()]. *)
Variable toDateString : jsval -> jsstring.

(** [new Date(v).toLocaleDateString('en-GB',
     { day: 'numeric', month: 'short', year: 'numeric' })]. *)
Variable toLocaleDateString : jsval -> jsstring.

(** [new Date().toDateString()] during one computation of the grouping. *)
Variable today : jsstring.

(** [formatDate] (lines 170-177). *)
Definition formatDate (isoString : jsval) : jsstring :=
  if negb (truthy isoString) then []
  else if jsstring_eqb (toDateString isoString) today then lit "Today"
  else toLocaleDateString isoString.

(** [dateLabel !== lastDate], with [lastDate] initially [null]. *)
Definition differs (dateLabel : jsstring) (lastDate : option jsstring) : bool :=
  match lastDate with
  | None => true
  | Some d => negb (jsstring_eqb dateLabel d)
  end.

(** The body of the [forEach] callback: [groups] and [lastDate] are the
    variables it updates. *)
Definition groupStep (acc : list GroupItem * option jsstring)
    (msg : Message) (idx : nat) : list GroupItem * option jsstring :=
  let (groups, lastDate) := acc in
  let dateLabel := formatDate (timestamp msg) in
  let (groups, lastDate) :=
    if negb (is_empty dateLabel) && differs dateLabel lastDate
    then (groups ++ [Divider dateLabel idx], Some dateLabel)
    else (groups, lastDate) in
  (groups ++ [MessageItem msg idx], lastDate).

(** [msgs.forEach((msg, idx) => ...)] from index [idx] on. *)
Fixpoint forEachFrom (idx : nat) (msgs : list Message)
    (acc : list GroupItem * option jsstring)
  : list GroupItem * option jsstring :=
  match msgs with
  | [] => acc
  | msg :: rest => forEachFrom (S idx) rest (groupStep acc msg idx)
  end.

(** [chatGroupedMessages] (lines 520-532). *)
Definition chatGroupedMessages (chatMessages : list Message) : list GroupItem :=
  fst (forEachFrom 0 chatMessages ([], None)).

End Dates.

(* ------------------------------------------------------------------------- *)
(** ** The chart normaliser of the graph page *)

Definition andThen {A B} (o : outcome A) (k : A -> outcome B) : outcome B :=
  match o with
  | Return a => k a
  | Throw e => Throw e
  end.

Notation "'let!' x ':=' o 'in' k" := (andThen o (fun x => k))
  (at level 10, x name, o at level 100, k at level 200) : js_scope.

Definition index_keys (n : nat) : list jsstring :=
  map (fun i => decimal_of_N (N.of_nat i)) (seq 0 n).

(** [Object.keys(v)]. *)
Definition Object_keys (v : jsval) : outcome (list jsstring) :=
  match v with
  | JUndefined | JNull =>
      Throw (TypeError (lit "Cannot convert undefined or null to object"))
  | JObj props => Return (map fst props)
  | JArr items => Return (index_keys (List.length items))
  | JStr s => Return (index_keys (List.length s))
  | JBool _ | JNum _ => Return []
  end.

(** [allKeys[i]]. *)
Definition key_at (allKeys : list jsstring) (i : nat) : jsval :=
  match nth_error allKeys i with
  | Some k => JStr k
  | None => JUndefined
  end.

(** [allKeys.includes(v)]: only a string can equal an element. *)
Definition includes_value (allKeys : list jsstring) (v : jsval) : bool :=
  match v with
  | JStr s => includes allKeys s
  | _ => false
  end.

(** [provided && allKeys.includes(provided) ? provided : allKeys[i]]. *)
Definition chooseKey (provided : jsval) (allKeys : list jsstring) (i : nat)
  : jsval :=
  if truthy provided && includes_value allKeys provided
  then provided else key_at allKeys i.

(** The elements of an array value. *)
Definition elements (v : jsval) : list jsval :=
  match v with JArr items => items | _ => [] end.

(** [allKeys], [xKey] and [yKey] as lines 1036-1039 derive them. *)
Definition deriveKeys (chart : jsval)
  : outcome (list jsstring * jsval * jsval) :=
  let! data := get_prop chart (lit "data") in
  let firstRecord := item (elements data) 0 in
  let! allKeys := Object_keys firstRecord in
  let! xKey := get_prop chart (lit "xKey") in
  let! yKey := get_prop chart (lit "yKey") in
  Return (allKeys, chooseKey xKey allKeys 0, chooseKey yKey allKeys 1).

Record AxisProps : Type := mkAxis {
  dataKey : jsval;
  angle : Z;
  textAnchor : jsstring;
  height : Z
}.

(** The chart element built for a renderable chart. *)
Inductive RenderPlan : Type :=
| PiePlan (rows : list jsval) (valueKey nameKey : jsval)
| LinePlan (rows : list jsval) (xAxis : AxisProps) (lineKey : jsval)
| BarPlan (rows : list jsval) (xAxis : AxisProps) (barKey : jsval).

(** What the callback of [msg.charts.map] returns for a chart. *)
Inductive ChartView : Type :=
| ErrorCard (title error : jsval)
| NoDataCard (title : jsval)
| NoColumnsCard (title : jsval) (allKeys : list jsstring)
| ChartCard (title : jsval) (plan : RenderPlan).

(** The callback of [msg.charts.map] (lines 1013-1123). *)
Definition renderChart (chart : jsval) : outcome ChartView :=
  let! chart_type := get_prop chart (lit "chart_type") in
  let! title := get_prop chart (lit "title") in
  if is_string chart_type (lit "error") then
    let! error := get_prop chart (lit "error") in
    Return (ErrorCard title error)
  else
    let! data := get_prop chart (lit "data") in
    if negb (truthy data) || negb (isArray data)
       || Nat.eqb (List.length (elements data)) 0
    then Return (NoDataCard title)
    else
      let! keys := deriveKeys chart in
      let '(allKeys, xKey, yKey) := keys in
      if negb (truthy xKey) || negb (truthy yKey)
      then Return (NoColumnsCard title allKeys)
      else
        let chartType := js_or chart_type (JStr (lit "bar")) in
        let many := Nat.ltb 8 (List.length (elements data)) in
        let xAxisProps :=
          mkAxis xKey (if many then (-35)%Z else 0%Z)
            (if many then lit "end" else lit "middle")
            (if many then 60%Z else 30%Z) in
        if is_string chartType (lit "pie") then
          Return (ChartCard title (PiePlan (elements data) yKey xKey))
        else if is_string chartType (lit "line")
                || is_string chartType (lit "area") then
          Return (ChartCard title (LinePlan (elements data) xAxisProps yKey))
        else
          Return (ChartCard title (BarPlan (elements data) xAxisProps yKey)).

(** The text a tick formatter returns.  [TickFixed1 n d s] is the template
    literal [`${(n/d).toFixed(1)}s`] and [TickLocale n] is
    [n.toLocaleString()]; the digits both produce are the runtime's. *)
Inductive TickText : Type :=
| TickValue (v : number)
| TickFixed1 (n : number) (divisor : Z) (suffix : jsstring)
| TickLocale (n : number).

(** [yAxisProps.tickFormatter] (lines 1064-1070) on a tick value that is a
    Number, where [Number(v)] is [v]. *)
Definition tickFormatter (v : number) : TickText :=
  let n := v in
  if isNaN n then TickValue v
  else if num_abs_ge n 1000000 then TickFixed1 n 1000000 (lit "M")
  else if num_abs_ge n 1000 then TickFixed1 n 1000 (lit "K")
  else TickLocale n.

(** [n >= k] and [n < k] for an integer constant [k]. *)
Definition num_ge (n : number) (k : Z) : bool :=
  match n with
  | NaN => false
  | Infinity negative => negb negative
  | Dec m e => (k * 10 ^ Z.of_nat e <=? m)%Z
  end.

Definition num_lt (n : number) (k : Z) : bool :=
  match n with
  | NaN => false
  | Infinity negative => negative
  | Dec m e => (m <? k * 10 ^ Z.of_nat e)%Z
  end.

(* ------------------------------------------------------------------------- *)
(** ** Observations used in the statements *)

(** [params.get(name)]. *)
Fixpoint param (name : jsstring) (params : URLSearchParams) : option jsstring :=
  match params with
  | [] => None
  | (n, v) :: rest => if jsstring_eqb name n then Some v else param name rest
  end.

(** The value sent for a list filter, if any. *)
Definition sent_list (field : option (list jsstring)) : option jsstring :=
  match field with
  | Some (x :: rest) => Some (join (lit ",") (x :: rest))
  | _ => None
  end.

(** The value sent for a numeric bound, if any. *)
Definition sent_number (field : option number) : option jsstring :=
  match field with
  | Some n => if num_gt0 n then Some (numberToString n) else None
  | None => None
  end.

(** The value sent for the time filter, if any. *)
Definition sent_timeFilter (field : option jsstring) : option jsstring :=
  match field with
  | Some (c :: s) =>
      if jsstring_eqb (c :: s) (lit "all") then None else Some (c :: s)
  | _ => None
  end.

(** The rule as the specification words it, for the lower bound of the
    transaction count: the parameter is left out exactly when the bound is
    0. *)
Definition omitted_exactly_at_zero (filters : Filters) : Prop :=
  forall n, totalTransactionsMin filters = Some n ->
    (param (lit "totalTransactionsMin") (dashboardParams filters) = None
     <-> num_is_zero n = true).

(** The filter state with every field at the default of its type. *)
Definition defaultFilters : Filters :=
  mkFilters (Some []) (Some []) (Some []) (Some [])
    (Some (Dec 0 0)) (Some (Dec 0 0)) (Some (Dec 0 0)) (Some (Dec 0 0))
    (Some (lit "all")).

(** [{regions: ["West"], totalTransactionsMin: 5}], the other fields at
    their defaults. *)
Definition westFilters : Filters :=
  mkFilters (Some [lit "West"]) (Some []) (Some []) (Some [])
    (Some (Dec 5 0)) (Some (Dec 0 0)) (Some (Dec 0 0)) (Some (Dec 0 0))
    (Some (lit "all")).

(** The same object with only the two properties written out. *)
Definition westFiltersSparse : Filters :=
  mkFilters (Some [lit "West"]) None None None
    (Some (Dec 5 0)) None None None None.

(** Default filters but for a lower transaction bound of -1. *)
Definition negativeFilters : Filters :=
  mkFilters (Some []) (Some []) (Some []) (Some [])
    (Some (Dec (-1) 0)) (Some (Dec 0 0)) (Some (Dec 0 0)) (Some (Dec 0 0))
    (Some (lit "all")).

Definition localhost : jsstring := lit "http://localhost:5000/api".

(** The key derivation as the specification words it: the provided key if
    it is a property name of the first row, else the key at the position. *)
Definition chooseKeyBySpec (provided : jsval) (allKeys : list jsstring)
    (i : nat) : jsval :=
  if includes_value allKeys provided then provided else key_at allKeys i.

(** The key derivation of the code spelled by cases: a provided key counts
    when it is a non-empty string naming a property of the first row. *)
Definition resolvedKey (provided : jsval) (allKeys : list jsstring) (i : nat)
  : jsval :=
  match provided with
  | JStr (c :: s) =>
      if includes allKeys (c :: s) then JStr (c :: s) else key_at allKeys i
  | _ => key_at allKeys i
  end.

(** [{title: "Revenue", chart_type: "bar", data: [{month: "Jan", revenue: 100}]}]. *)
Definition monthlyChart : jsval :=
  obj [("title", JStr (lit "Revenue"));
       ("chart_type", JStr (lit "bar"));
       ("data", JArr [obj [("month", JStr (lit "Jan"));
                           ("revenue", JNum (Dec 100 0))]])].

(** [{title: "Revenue", chart_type: "bar", data: []}]. *)
Definition emptyChart : jsval :=
  obj [("title", JStr (lit "Revenue"));
       ("chart_type", JStr (lit "bar"));
       ("data", JArr [])].

(** A chart whose first row has a column with the empty name, which the
    chart names as its x column:
    [{title: "T", chart_type: "bar", data: [{"a": 1, "": 2}], xKey: ""}]. *)
Definition emptyNameChart : jsval :=
  obj [("title", JStr (lit "T"));
       ("chart_type", JStr (lit "bar"));
       ("data", JArr [JObj [(lit "a", JNum (Dec 1 0)); ([], JNum (Dec 2 0))]]);
       ("xKey", JStr [])].

(** A runtime calendar for 2 November 2026, with one timestamp of the day
    before and every other timestamp on the day itself. *)
Definition yesterdayISO : jsstring := lit "2026-11-01T09:00:00.000Z".
Definition morningISO : jsstring := lit "2026-11-02T09:00:00.000Z".
Definition noonISO : jsstring := lit "2026-11-02T12:00:00.000Z".

Definition sampleToDateString (v : jsval) : jsstring :=
  if is_string v yesterdayISO then lit "Sun Nov 01 2026"
  else lit "Mon Nov 02 2026".

Definition sampleToLocaleDateString (v : jsval) : jsstring :=
  if is_string v yesterdayISO then lit "1 Nov 2026" else lit "2 Nov 2026".

Definition sampleToday : jsstring := lit "Mon Nov 02 2026".

(** A question of today, a history row that came without [created_at], and
    an answer of today. *)
Definition datedQuestion : Message :=
  mkMessage user (JStr (lit "q1")) (JStr morningISO) JUndefined.
Definition undatedAnswer : Message :=
  mkMessage assistant (JStr (lit "a1")) JUndefined JUndefined.
Definition datedFollowUp : Message :=
  mkMessage user (JStr (lit "q2")) (JStr noonISO) JUndefined.
Definition oldQuestion : Message :=
  mkMessage user (JStr (lit "q0")) (JStr yesterdayISO) JUndefined.

(** The last non-empty label of a list of labels: the value of [lastDate]
    after the messages that carry them. *)
Fixpoint lastDated (labels : list jsstring) : option jsstring :=
  match labels with
  | [] => None
  | l :: rest =>
      match lastDated rest with
      | Some d => Some d
      | None => if is_empty l then None else Some l
      end
  end.

(** The messages of a grouped list, in order. *)
Fixpoint messagesIn (groups : list GroupItem) : list Message :=
  match groups with
  | [] => []
  | Divider _ _ :: rest => messagesIn rest
  | MessageItem m _ :: rest => m :: messagesIn rest
  end.

(** A clock for the examples: the n-th reading is the text [Tn]. *)
Definition sampleClock (n : nat) : jsstring :=
  lit "T" ++ decimal_of_N (N.of_nat n).

Definition emptyState (page : string) : AppState :=
  mkAppState (lit page) [] [] false false [] [] false false.

(** The graph page with a question typed in and nothing in flight. *)
Definition askingState : AppState :=
  mkAppState (lit "graphs") [] [] false false
    [] (lit " revenue by month ") false false.

(** The text page while an answer is awaited, with more text typed in. *)
Definition busyState : AppState :=
  mkAppState (lit "text")
    [mkMessage user (JStr (lit "q1")) (JStr morningISO) JUndefined]
    (lit "q2") true true [] [] false false.

Definition world (s : AppState) : World := mkWorld s [] 0.

Definition respond (code : N) (payload : jsval) : Request -> FetchResult :=
  fun _ => FetchResponse (mkResponse code (lit "") (JsonOk payload)).

Definition offline : Request -> FetchResult :=
  fun _ => FetchReject (TypeError (lit "Failed to fetch")).

(** A server answering every request with an application-level failure. *)
Definition timeoutServer : Request -> FetchResult :=
  respond 200 (obj [("success", JBool false);
                    ("error", JStr (lit "LLM timeout"))]).

(** A server answering with status 500 and a body that nevertheless reports
    success and one history row. *)
Definition confusedServer : Request -> FetchResult :=
  respond 500
    (obj [("success", JBool true);
          ("history", JArr [obj [("user_message", JStr (lit "q1"));
                                 ("created_at", JStr morningISO)]])]).

(** A server answering with status 200 and a history whose one row is
    [null]. *)
Definition nullRowServer : Request -> FetchResult :=
  respond 200 (obj [("success", JBool true); ("history", JArr [JNull])]).

(** The request [handleSendGraphMessage] issues for a question. *)
Definition graphRequest (base text : jsstring) : Request :=
  POST (base ++ lit "/graphs/generate") (obj [("user_message", JStr text)]).

(** The requests of the two history effects. *)
Definition chatHistoryRequest (base : jsstring) : Request :=
  GET (base ++ lit "/chat/history?limit=20").

Definition graphHistoryRequest (base : jsstring) : Request :=
  GET (base ++ lit "/graphs/history?limit=20").

(** The graph page with nothing but white space typed in: a space, a
    no-break space and a line feed. *)
Definition blankState : AppState :=
  mkAppState (lit "graphs") [] [] false false
    [] [32%N; 160%N; 10%N] false false.

(* ------------------------------------------------------------------------- *)
(** ** Further parts of the component *)

(** The text a currency formatter returns.  [MoneyFixed1 n d s] is the
    template literal [`$${(n/d).toFixed(1)}s`], [MoneyFixed2 n] is
    [`$${n.toFixed(2)}`] and [MoneyGrouped n] is [n.toLocaleString('en-US',
    ...)] with two fraction digits after a dollar sign; the digits are the
    runtime's. *)
Inductive MoneyText : Type :=
| MoneyFixed1 (n : number) (divisor : Z) (suffix : jsstring)
| MoneyFixed2 (n : number)
| MoneyGrouped (n : number).

Section Formatting.

(** The runtime's [parseFloat]. *)
Variable parseFloat : jsval -> number.

(** [typeof value === 'number' ? value : parseFloat(value) || 0]. *)
Definition toAmount (value : jsval) : number :=
  match value with
  | JNum n => n
  | _ =>
      let parsed := parseFloat value in
      if truthy (JNum parsed) then parsed else Dec 0 0
  end.

(** [formatCurrency] (lines 86-91). *)
Definition formatCurrency (value : jsval) : MoneyText :=
  let num := toAmount value in
  if num_ge num 1000000 then MoneyFixed1 num 1000000 (lit "M")
  else if num_ge num 1000 then MoneyFixed1 num 1000 (lit "K")
  else MoneyFixed2 num.

(** [formatCurrencyWithCommas] (lines 93-96). *)
Definition formatCurrencyWithCommas (value : jsval) : MoneyText :=
  MoneyGrouped (toAmount value).

End Formatting.

(** [handleKeyDown] (lines 458-463): what the key event leads to. *)
Definition handleKeyDown (API_BASE_URL : jsstring)
    (network : Request -> FetchResult) (nowISO : nat -> jsstring)
    (key : jsstring) (shiftKey : bool) : M unit :=
  if jsstring_eqb key (lit "Enter") && negb shiftKey
  then handleSendMessage API_BASE_URL network nowISO
  else ret tt.

(** [v?.k]. *)
Definition opt_prop (v : jsval) (k : string) : jsval :=
  match v with
  | JUndefined | JNull => JUndefined
  | _ => match get_prop v (lit k) with
         | Return x => x
         | Throw _ => JUndefined
         end
  end.

Module Dash.

(** The state variables of the dashboard page: the data, the nine filter
    variables and the two flags. *)
Record State : Type := mkState {
  aggregatedData : jsval;
  loading : bool;
  error : jsval;
  timeFilter : jsval;
  selectedRegions : jsval;
  selectedCategories : jsval;
  selectedTenure : jsval;
  selectedRecency : jsval;
  totalTransactionsMin : jsval;
  totalTransactionsMax : jsval;
  discountMin : jsval;
  discountMax : jsval
}.

(** The initial values of the [useState] calls (lines 278-310). *)
Definition initial : State :=
  mkState JNull true JNull (JStr (lit "all"))
    (JArr []) (JArr []) (JArr []) (JArr [])
    (JNum (Dec 0 0)) (JNum (Dec 50 0)) (JNum (Dec 0 0)) (JNum (Dec 1 0)).

Definition setAggregatedData (v : jsval) (s : State) : State :=
  mkState v (loading s) (error s) (timeFilter s)
    (selectedRegions s) (selectedCategories s) (selectedTenure s)
    (selectedRecency s) (totalTransactionsMin s) (totalTransactionsMax s)
    (discountMin s) (discountMax s).

Definition setLoading (v : bool) (s : State) : State :=
  mkState (aggregatedData s) v (error s) (timeFilter s)
    (selectedRegions s) (selectedCategories s) (selectedTenure s)
    (selectedRecency s) (totalTransactionsMin s) (totalTransactionsMax s)
    (discountMin s) (discountMax s).

Definition setError (v : jsval) (s : State) : State :=
  mkState (aggregatedData s) (loading s) v (timeFilter s)
    (selectedRegions s) (selectedCategories s) (selectedTenure s)
    (selectedRecency s) (totalTransactionsMin s) (totalTransactionsMax s)
    (discountMin s) (discountMax s).

Definition setTimeFilter (v : jsval) (s : State) : State :=
  mkState (aggregatedData s) (loading s) (error s) v
    (selectedRegions s) (selectedCategories s) (selectedTenure s)
    (selectedRecency s) (totalTransactionsMin s) (totalTransactionsMax s)
    (discountMin s) (discountMax s).

Definition setSelectedRegions (v : jsval) (s : State) : State :=
  mkState (aggregatedData s) (loading s) (error s) (timeFilter s)
    v (selectedCategories s) (selectedTenure s)
    (selectedRecency s) (totalTransactionsMin s) (totalTransactionsMax s)
    (discountMin s) (discountMax s).

Definition setSelectedCategories (v : jsval) (s : State) : State :=
  mkState (aggregatedData s) (loading s) (error s) (timeFilter s)
    (selectedRegions s) v (selectedTenure s)
    (selectedRecency s) (totalTransactionsMin s) (totalTransactionsMax s)
    (discountMin s) (discountMax s).

Definition setSelectedTenure (v : jsval) (s : State) : State :=
  mkState (aggregatedData s) (loading s) (error s) (timeFilter s)
    (selectedRegions s) (selectedCategories s) v
    (selectedRecency s) (totalTransactionsMin s) (totalTransactionsMax s)
    (discountMin s) (discountMax s).

Definition setSelectedRecency (v : jsval) (s : State) : State :=
  mkState (aggregatedData s) (loading s) (error s) (timeFilter s)
    (selectedRegions s) (selectedCategories s) (selectedTenure s)
    v (totalTransactionsMin s) (totalTransactionsMax s)
    (discountMin s) (discountMax s).

Definition setTotalTransactionsMin (v : jsval) (s : State) : State :=
  mkState (aggregatedData s) (loading s) (error s) (timeFilter s)
    (selectedRegions s) (selectedCategories s) (selectedTenure s)
    (selectedRecency s) v (totalTransactionsMax s)
    (discountMin s) (discountMax s).

Definition setTotalTransactionsMax (v : jsval) (s : State) : State :=
  mkState (aggregatedData s) (loading s) (error s) (timeFilter s)
    (selectedRegions s) (selectedCategories s) (selectedTenure s)
    (selectedRecency s) (totalTransactionsMin s) v
    (discountMin s) (discountMax s).

Definition setDiscountMin (v : jsval) (s : State) : State :=
  mkState (aggregatedData s) (loading s) (error s) (timeFilter s)
    (selectedRegions s) (selectedCategories s) (selectedTenure s)
    (selectedRecency s) (totalTransactionsMin s) (totalTransactionsMax s)
    v (discountMax s).

Definition setDiscountMax (v : jsval) (s : State) : State :=
  mkState (aggregatedData s) (loading s) (error s) (timeFilter s)
    (selectedRegions s) (selectedCategories s) (selectedTenure s)
    (selectedRecency s) (totalTransactionsMin s) (totalTransactionsMax s)
    (discountMin s) v.

(** [handleSelectAll] (lines 379-385). *)
Definition handleSelectAll (filterType : jsstring) (s : State) : State :=
  let filterLists := opt_prop (aggregatedData s) "filterLists" in
  if negb (truthy filterLists) then s
  else if jsstring_eqb filterType (lit "regions") then
    setSelectedRegions (js_or (opt_prop filterLists "regions") (JArr [])) s
  else if jsstring_eqb filterType (lit "categories") then
    setSelectedCategories
      (js_or (opt_prop filterLists "categories") (JArr [])) s
  else if jsstring_eqb filterType (lit "tenure") then
    setSelectedTenure (js_or (opt_prop filterLists "tenureList") (JArr [])) s
  else if jsstring_eqb filterType (lit "recency") then
    setSelectedRecency (js_or (opt_prop filterLists "recencyList") (JArr [])) s
  else s.

(** [handleClearFilter] (lines 387-392). *)
Definition handleClearFilter (filterType : jsstring) (s : State) : State :=
  if jsstring_eqb filterType (lit "regions") then
    setSelectedRegions (JArr []) s
  else if jsstring_eqb filterType (lit "categories") then
    setSelectedCategories (JArr []) s
  else if jsstring_eqb filterType (lit "tenure") then
    setSelectedTenure (JArr []) s
  else if jsstring_eqb filterType (lit "recency") then
    setSelectedRecency (JArr []) s
  else s.

(** [clearAllFilters] (lines 394-404). *)
Definition clearAllFilters (s : State) : State :=
  let filterLists := opt_prop (aggregatedData s) "filterLists" in
  mkState (aggregatedData s) (loading s) (error s) (JStr (lit "all"))
    (JArr []) (JArr []) (JArr []) (JArr [])
    (JNum (Dec 0 0))
    (js_or (opt_prop filterLists "transactionsMax") (JNum (Dec 50 0)))
    (JNum (Dec 0 0))
    (js_or (opt_prop filterLists "discountMax") (JNum (Dec 1 0))).

Section Effect.

Variable API_BASE_URL : jsstring.
Variable network : Request -> FetchResult.

(** The body of the [try] block of [fetchData] (lines 409-422), from the
    state [s] on; a throw carries the state as updated until then. *)
Definition fetchDataTry (filters : Filters) (s : State)
  : World -> outcome State * State * World :=
  fun w =>
    match fetchDashboardData API_BASE_URL network filters w with
    | (Throw e, w') => (Throw e, s, w')
    | (Return data, w') =>
        if negb (truthy data) then
          let s := setError (JStr (lit "No data returned from API")) s in
          let s := setAggregatedData JNull s in
          (Return s, s, w')
        else
          let s := setAggregatedData data s in
          match get_prop data (lit "filterLists") with
          | Throw e => (Throw e, s, w')
          | Return filterLists =>
              if truthy filterLists then
                match get_prop filterLists (lit "transactionsMax") with
                | Throw e => (Throw e, s, w')
                | Return tmax =>
                    let s := setTotalTransactionsMax tmax s in
                    match get_prop filterLists (lit "discountMax") with
                    | Throw e => (Throw e, s, w')
                    | Return dmax =>
                        let s := setDiscountMax dmax s in
                        let s := setError JNull s in
                        (Return s, s, w')
                    end
                end
              else
                let s := setError JNull s in
                (Return s, s, w')
          end
    end.

(** The effect that fetches the dashboard data (lines 406-428), run to
    completion with the filter values [filters] of the render that
    scheduled it: [try], [catch] and [finally]. *)
Definition fetchData (filters : Filters) (s : State) : World -> State * World :=
  fun w =>
    match fetchDataTry filters s w with
    | (Return s', _, w') => (setLoading false s', w')
    | (Throw err, s', w') =>
        let s' :=
          setError (js_or (JStr (message err))
                      (JStr (lit "Failed to fetch data"))) s' in
        let s' := setAggregatedData JNull s' in
        (setLoading false s', w')
    end.

End Effect.

End Dash.

(** The API client module beside the component (lines 1204-1328). *)
Module Api.

Section Client.

Variable API_BASE_URL : jsstring.
Variable network : Request -> FetchResult.
Variable nowISO : nat -> jsstring.

(** [APIClient.analyzeText] of the module (lines 1225-1264); the
    [console.error] of the catch block leaves no trace in the state. *)
Definition analyzeText (userMessage : jsstring) : M jsval :=
  try_catch
    (response <- fetch network
                   (POST (API_BASE_URL ++ lit "/text/analyze")
                      (obj [("user_message", JStr userMessage)])) ;;
     check_ok response ;;
     data <- json response ;;
     success <- prop data "success" ;;
     if truthy success then
       summary <- prop data "summary" ;;
       questions <- prop data "questions" ;;
       results <- prop data "results" ;;
       now <- newDateISO nowISO ;;
       ret (obj [("success", JBool true); ("summary", summary);
                 ("questions", js_or questions (JArr []));
                 ("results", js_or results (JArr []));
                 ("timestamp", JStr now)])
     else
       err <- prop data "error" ;;
       ret (obj [("success", JBool false);
                 ("error", js_or err (JStr (lit "Unknown error occurred")))]))
    (fun error =>
       ret (obj [("success", JBool false);
                 ("error", js_or (JStr (message error))
                             (JStr (lit "Failed to connect to API")))])).

(** [APIClient.generateGraphs] of the module (lines 1271-1309). *)
Definition generateGraphs (userMessage : jsstring) : M jsval :=
  try_catch
    (response <- fetch network
                   (POST (API_BASE_URL ++ lit "/graphs/generate")
                      (obj [("user_message", JStr userMessage)])) ;;
     check_ok response ;;
     data <- json response ;;
     success <- prop data "success" ;;
     if truthy success then
       chartList <- prop data "charts" ;;
       questions <- prop data "questions" ;;
       now <- newDateISO nowISO ;;
       ret (obj [("success", JBool true);
                 ("charts", js_or chartList (JArr []));
                 ("questions", js_or questions (JStr []));
                 ("timestamp", JStr now)])
     else
       err <- prop data "error" ;;
       ret (obj [("success", JBool false);
                 ("error", js_or err (JStr (lit "Unknown error occurred")))]))
    (fun error =>
       ret (obj [("success", JBool false);
                 ("error", js_or (JStr (message error))
                             (JStr (lit "Failed to connect to API")))])).

(** [APIClient.healthCheck] (lines 1315-1325). *)
Definition healthCheck : M bool :=
  try_catch
    (response <- fetch network (GET (API_BASE_URL ++ lit "/health")) ;;
     ret (ok response))
    (fun error => ret false).

End Client.

End Api.

(** The console helpers of [debug_frontend.js]; the lines they log leave no
    trace in the state, but the expressions logged are evaluated and may
    throw. *)
Module DEBUG_API.

(** [v?.length]. *)
Definition opt_length (v : jsval) : jsval := opt_prop v "length".

(** [v[0]]. *)
Definition first (v : jsval) : outcome jsval :=
  match v with
  | JUndefined =>
      Throw (TypeError (lit "Cannot read properties of undefined (reading '0')"))
  | JNull =>
      Throw (TypeError (lit "Cannot read properties of null (reading '0')"))
  | JArr items => Return (item items 0)
  | JStr (c :: _) => Return (JStr [c])
  | JStr [] => Return JUndefined
  | JObj props => Return (lookup (lit "0") props)
  | JBool _ | JNum _ => Return JUndefined
  end.

(** [s?.substring(0, 100) + '...']: the call throws when [s] is neither
    nullish nor a string. *)
Definition preview (s : jsval) : outcome jsstring :=
  match s with
  | JUndefined | JNull => Return (lit "undefined...")
  | JStr text => Return (firstn 100 text ++ lit "...")
  | _ => Throw (TypeError (lit "data.summary?.substring is not a function"))
  end.

Section Tests.

Variable network : Request -> FetchResult.
Variable StringToNumber : jsstring -> number.

(** [testDashboardData] (lines 5-26). *)
Definition testDashboardData : M jsval :=
  try_catch
    (response <- fetch network (GET (lit "http://localhost:5000/api/data")) ;;
     data <- json response ;;
     ret data)
    (fun e => ret JNull).

(** [testTextAnalysis] (lines 29-49). *)
Definition testTextAnalysis : M jsval :=
  try_catch
    (response <- fetch network
                   (POST (lit "http://localhost:5000/api/text/analyze")
                      (obj [("user_message",
                             JStr (lit "What are total sales?"))])) ;;
     data <- json response ;;
     _ <- prop data "success" ;;
     summary <- prop data "summary" ;;
     _ <- lift (preview summary) ;;
     ret data)
    (fun e => ret JNull).

(** [testGraphGeneration] (lines 52-78); of the three properties of the
    first chart that are logged, the first read decides whether reading
    throws. *)
Definition testGraphGeneration : M jsval :=
  try_catch
    (response <- fetch network
                   (POST (lit "http://localhost:5000/api/graphs/generate")
                      (obj [("user_message",
                             JStr (lit "Show me sales by category"))])) ;;
     data <- json response ;;
     _ <- prop data "success" ;;
     chartList <- prop data "charts" ;;
     (if js_gt0 StringToNumber (opt_length chartList) then
        chart <- lift (first chartList) ;;
        _ <- prop chart "title" ;;
        ret tt
      else ret tt) ;;
     ret data)
    (fun e => ret JNull).

(** [testHealth] (lines 81-97); of the two properties of the body that
    are logged, the first read decides whether reading throws. *)
Definition testHealth : M jsval :=
  try_catch
    (response <- fetch network (GET (lit "http://localhost:5000/api/health")) ;;
     data <- json response ;;
     _ <- prop data "database" ;;
     ret data)
    (fun e => ret JNull).

(** [runAllTests] (lines 100-119). *)
Definition runAllTests : M unit :=
  _ <- testHealth ;;
  _ <- testDashboardData ;;
  _ <- testTextAnalysis ;;
  _ <- testGraphGeneration ;;
  ret tt.

End Tests.

End DEBUG_API.

(* ------------------------------------------------------------------------- *)
(** ** Further observations *)

(** The labels of the dividers of a grouped list, in order. *)
Fixpoint labelsIn (groups : list GroupItem) : list jsstring :=
  match groups with
  | [] => []
  | Divider l _ :: rest => l :: labelsIn rest
  | MessageItem _ _ :: rest => labelsIn rest
  end.

(** No two neighbours of a list of labels are equal. *)
Fixpoint alternating (labels : list jsstring) : Prop :=
  match labels with
  | a :: ((b :: _) as rest) => a <> b /\ alternating rest
  | _ => True
  end.

(** The message items of a sequence of messages numbered from [idx]. *)
Fixpoint itemsFrom (idx : nat) (msgs : list Message) : list GroupItem :=
  match msgs with
  | [] => []
  | m :: rest => MessageItem m idx :: itemsFrom (S idx) rest
  end.

(** The two messages a chat-history row stands for. *)
Definition chatPair (row : list (jsstring * jsval)) : list Message :=
  [mkMessage user (lookup (lit "user_message") row)
     (lookup (lit "created_at") row) JUndefined;
   mkMessage assistant (lookup (lit "assistant_response") row)
     (lookup (lit "created_at") row) JUndefined].

(** The two messages a graph-history row stands for. *)
Definition graphPair (row : list (jsstring * jsval)) : list Message :=
  let question :=
    mkMessage user (lookup (lit "user_message") row)
      (lookup (lit "created_at") row) JUndefined in
  [question; placeholder question].

(** The nine parameter names in the order [fetchDashboardData] appends
    them. *)
Definition parameterNames : list jsstring :=
  map lit ["regions"; "categories"; "customerTenure"; "customerRecency";
           "totalTransactionsMin"; "totalTransactionsMax";
           "discountMin"; "discountMax"; "timeFilter"].

(** [a] can be obtained from [b] by leaving elements out. *)
Fixpoint subsequence (a b : list jsstring) : Prop :=
  match a, b with
  | [], _ => True
  | _ :: _, [] => False
  | x :: a', y :: b' =>
      (x = y /\ subsequence a' b') \/ subsequence a b'
  end.

(** A server that answers every request with status [code] and a body that
    is not JSON. *)
Definition htmlServer (code : N) : Request -> FetchResult :=
  fun _ =>
    FetchResponse
      (mkResponse code (lit "")
         (JsonReject (mkError (lit "SyntaxError")
                        (lit "Unexpected token '<'")))).

(** The text page with a question typed in and nothing in flight. *)
Definition typingState : AppState :=
  mkAppState (lit "text") [] (lit "  total revenue?  ") false true
    [] [] false false.

(** The name of a parameter if it is sent. *)
Definition present (o : option jsstring) (name : jsstring) : list jsstring :=
  match o with Some _ => [name] | None => [] end.

(** Every divider of a grouped list stands directly before a message item
    of the same index whose label it carries, and the label is not
    empty. *)
Fixpoint attached (label : Message -> jsstring) (groups : list GroupItem)
  : Prop :=
  match groups with
  | [] => True
  | MessageItem _ _ :: rest => attached label rest
  | Divider l i :: rest =>
      match rest with
      | MessageItem m j :: rest' =>
          l = label m /\ i = j /\ l <> [] /\ attached label rest'
      | _ => False
      end
  end.

(** The last element of a list of labels, if any. *)
Definition lastLabel (labels : list jsstring) : option jsstring :=
  match rev labels with
  | [] => None
  | l :: _ => Some l
  end.

(* ------------------------------------------------------------------------- *)
(** ** The handlers on either side of their [await] *)

Section Phases.

Variable API_BASE_URL : jsstring.
Variable network : Request -> FetchResult.
Variable nowISO : nat -> jsstring.
Variable StringToNumber : jsstring -> number.

(** [handleSendMessage] from the user's message to the raise of the
    in-flight flag (lines 435-438), for the trimmed text [text]. *)
Definition chatSendBefore (text : jsstring) : M unit :=
  now <- newDateISO nowISO ;;
  let userMsg := mkMessage user (JStr text) (JStr now) JUndefined in
  setChatMessages (fun prev => prev ++ [userMsg]) ;;
  setChatInput [] ;;
  setChatLoading true.

(** [handleSendMessage] from the request to the end (lines 440-455). *)
Definition chatSendAfter (text : jsstring) : M unit :=
  result <- analyzeText API_BASE_URL network text ;;
  success <- prop result "success" ;;
  (if truthy success then
     summary <- prop result "summary" ;;
     ts <- prop result "timestamp" ;;
     ts <- or_now nowISO ts ;;
     setChatMessages (fun prev =>
       prev ++ [mkMessage assistant summary ts JUndefined])
   else
     err <- prop result "error" ;;
     now <- newDateISO nowISO ;;
     setChatMessages (fun prev =>
       prev ++ [mkMessage assistant
                  (JStr (lit "Sorry, I ran into an issue: " ++ toStr err))
                  (JStr now) JUndefined])) ;;
  setChatLoading false.

(** [handleSendGraphMessage] from the user's message to the raise of the
    in-flight flag (lines 481-484), for the trimmed text [text]. *)
Definition graphSendBefore (text : jsstring) : M unit :=
  now <- newDateISO nowISO ;;
  let userMsg := mkMessage user (JStr text) (JStr now) JUndefined in
  setGraphChatMessages (fun prev => prev ++ [userMsg]) ;;
  setGraphChatInput [] ;;
  setGraphChatLoading true.

(** [handleSendGraphMessage] from the [try] to the end (lines 486-516). *)
Definition graphSendAfter (text : jsstring) : M unit :=
  try_catch
    (response <- fetch network
                   (POST (API_BASE_URL ++ lit "/graphs/generate")
                      (obj [("user_message", JStr text)])) ;;
     data <- json response ;;
     success <- prop data "success" ;;
     if truthy success then
       chartList <- prop data "charts" ;;
       ts <- prop data "timestamp" ;;
       ts <- or_now nowISO ts ;;
       setGraphChatMessages (fun prev =>
         prev ++ [mkMessage assistant
                    (JStr (lit "Here are your charts for: "
                             ++ quote ++ text ++ quote))
                    ts (js_or chartList (JArr []))])
     else
       err <- prop data "error" ;;
       now <- newDateISO nowISO ;;
       setGraphChatMessages (fun prev =>
         prev ++ [mkMessage assistant
                    (JStr (lit "Sorry, I ran into an issue: "
                             ++ toStr (js_or err (JStr (lit "Unknown error")))))
                    (JStr now) (JArr [])]))
    (fun err =>
       now <- newDateISO nowISO ;;
       setGraphChatMessages (fun prev =>
         prev ++ [mkMessage assistant
                    (JStr (lit "Connection error: " ++ message err))
                    (JStr now) (JArr [])])) ;;
  setGraphChatLoading false.

(** The call of [fetch] alone: the request goes out and the promise is
    still pending. *)
Definition request (req : Request) : M unit :=
  fun w => (Return tt, mkWorld (app w) (sent w ++ [req]) (ticks w)).

(** The body of the graph-history effect (lines 348-349): the guard and the
    call of [fetch].  The result tells whether a request went out. *)
Definition graphHistoryEffect : M bool :=
  st <- getState ;;
  if jsstring_eqb (currentPage st) (lit "graphs")
     && negb (graphChatHistoryLoaded st)
  then
    request (GET (API_BASE_URL ++ lit "/graphs/history?limit=20")) ;;
    ret true
  else ret false.

(** The [then] and [catch] callbacks of the graph-history effect (lines
    350-368), run when the promise of the request has settled with
    [answer]. *)
Definition graphHistorySettled (answer : FetchResult) : M unit :=
  try_catch
    (r <- lift (match answer with
                | FetchResponse r => Return r
                | FetchReject e => Throw e
                end) ;;
     data <- json r ;;
     success <- prop data "success" ;;
     nonempty <-
       (if truthy success then
          history <- prop data "history" ;;
          if truthy history then
            len <- prop history "length" ;;
            ret (js_gt0 StringToNumber len)
          else ret false
        else ret false) ;;
     (if nonempty : bool then
        history <- prop data "history" ;;
        loaded <- eachRow "data.history.map" graphRow history ;;
        let msgs := flat_map (fun m => [m; placeholder m]) loaded in
        setGraphChatMessages (fun _ => msgs)
      else ret tt) ;;
     setGraphChatHistoryLoaded true)
    (fun _ => setGraphChatHistoryLoaded true).

End Phases.

(** The graph page as it is first opened. *)
Definition graphPage : World := world (emptyState "graphs").
(* ========================================================================= *)
(** * Properties *)

(* ------------------------------------------------------------------------- *)
(** ** Strings: facts *)

Lemma jsstring_eqb_eq (a b : jsstring) : jsstring_eqb a b = true <-> a = b.
Proof.
  revert b; induction a as [|x a IH]; intros [|y b]; simpl;
    try (split; [discriminate | discriminate]); try tauto.
  rewrite andb_true_iff, N.eqb_eq, IH.
  split; [intros [-> ->]; reflexivity | intros H; inversion H; auto].
Qed.

Lemma jsstring_eqb_refl (a : jsstring) : jsstring_eqb a a = true.
Proof. apply jsstring_eqb_eq; reflexivity. Qed.

Lemma trimStart_whitespace (s : jsstring) :
  whitespace_only s = true -> trimStart s = [].
Proof.
  induction s as [|c s IH]; simpl; [reflexivity|].
  intros H; apply andb_true_iff in H as [Hc Hs].
  rewrite Hc; auto.
Qed.

Lemma trim_whitespace (s : jsstring) :
  whitespace_only s = true -> trim s = [].
Proof.
  intros H; unfold trim, trimEnd.
  rewrite (trimStart_whitespace s H); reflexivity.
Qed.

(* ------------------------------------------------------------------------- *)
(** ** The send handlers: the guard *)

(** C1.  For either thread, [send] while the thread's in-flight flag is set,
    or with an input that is empty or white space only, changes nothing: the
    world after the call is the world before it, so the thread's message
    list is the same and no request has been issued. *)
Theorem send_blocked_is_noop
    (base : jsstring) (network : Request -> FetchResult)
    (nowISO : nat -> jsstring) (t : Thread) (w : World) :
  sending t (app w) = true \/ whitespace_only (input_of t (app w)) = true ->
  send base network nowISO t w = (Return tt, w)
  /\ messages_of t (app (snd (send base network nowISO t w)))
     = messages_of t (app w)
  /\ sent (snd (send base network nowISO t w)) = sent w.
Proof.
  intros H.
  assert (E : send base network nowISO t w = (Return tt, w)).
  { destruct t; simpl in H |- *;
      unfold handleSendMessage, handleSendGraphMessage, bind, getState;
      destruct H as [H | H].
    - rewrite H, orb_true_r; reflexivity.
    - rewrite (trim_whitespace _ H); reflexivity.
    - rewrite H, orb_true_r; reflexivity.
    - rewrite (trim_whitespace _ H); reflexivity. }
  rewrite E; auto.
Qed.

Lemma send_blocked_is_noop_witness :
  send localhost offline sampleClock analysis (world busyState)
  = (Return tt, world busyState)
  /\ send localhost offline sampleClock chartgen (world blankState)
     = (Return tt, world blankState).
Proof.
  split.
  - apply (send_blocked_is_noop localhost offline sampleClock analysis
             (world busyState)).
    left; reflexivity.
  - apply (send_blocked_is_noop localhost offline sampleClock chartgen
             (world blankState)).
    right; reflexivity.
Defined.

(* ------------------------------------------------------------------------- *)
(** ** The query parameters of the dashboard fetch *)

Lemma param_append (name n v : jsstring) (params : URLSearchParams) :
  param name (append params n v) =
    match param name params with
    | Some x => Some x
    | None => if jsstring_eqb name n then Some v else None
    end.
Proof.
  unfold append; induction params as [|[n' v'] rest IH]; simpl.
  - reflexivity.
  - destruct (jsstring_eqb name n'); [reflexivity | exact IH].
Qed.

Lemma param_append_list (name : jsstring) (n : string)
    (field : option (list jsstring)) (params : URLSearchParams) :
  param name (append_list n field params) =
    match param name params with
    | Some x => Some x
    | None => if jsstring_eqb name (lit n) then sent_list field else None
    end.
Proof.
  unfold append_list, sent_list.
  destruct field as [[|x rest]|]; try rewrite param_append;
    destruct (param name params); try reflexivity;
    destruct (jsstring_eqb name (lit n)); reflexivity.
Qed.

Lemma param_append_number (name : jsstring) (n : string)
    (field : option number) (params : URLSearchParams) :
  param name (append_number n field params) =
    match param name params with
    | Some x => Some x
    | None => if jsstring_eqb name (lit n) then sent_number field else None
    end.
Proof.
  unfold append_number, sent_number.
  destruct field as [x|]; [destruct (num_gt0 x)|]; try rewrite param_append;
    destruct (param name params); try reflexivity;
    destruct (jsstring_eqb name (lit n)); reflexivity.
Qed.

Lemma param_append_timeFilter (name : jsstring) (field : option jsstring)
    (params : URLSearchParams) :
  param name (append_timeFilter field params) =
    match param name params with
    | Some x => Some x
    | None =>
        if jsstring_eqb name (lit "timeFilter") then sent_timeFilter field
        else None
    end.
Proof.
  unfold append_timeFilter, sent_timeFilter.
  destruct field as [[|c s]|];
    [| destruct (jsstring_eqb (c :: s) (lit "all")); simpl |];
    try rewrite param_append;
    destruct (param name params); try reflexivity;
    destruct (jsstring_eqb name (lit "timeFilter")); reflexivity.
Qed.

(** The parameter a name has in the query of a filter state. *)
Lemma param_dashboardParams (name : jsstring) (filters : Filters) :
  param name (dashboardParams filters) =
    if jsstring_eqb name (lit "regions") then sent_list (regions filters)
    else if jsstring_eqb name (lit "categories")
    then sent_list (categories filters)
    else if jsstring_eqb name (lit "customerTenure")
    then sent_list (customerTenure filters)
    else if jsstring_eqb name (lit "customerRecency")
    then sent_list (customerRecency filters)
    else if jsstring_eqb name (lit "totalTransactionsMin")
    then sent_number (totalTransactionsMin filters)
    else if jsstring_eqb name (lit "totalTransactionsMax")
    then sent_number (totalTransactionsMax filters)
    else if jsstring_eqb name (lit "discountMin")
    then sent_number (discountMin filters)
    else if jsstring_eqb name (lit "discountMax")
    then sent_number (discountMax filters)
    else if jsstring_eqb name (lit "timeFilter")
    then sent_timeFilter (timeFilter filters)
    else None.
Proof.
  unfold dashboardParams.
  rewrite param_append_timeFilter, !param_append_number, !param_append_list.
  simpl (param name []).
  destruct (jsstring_eqb name (lit "regions")) eqn:E1;
    [apply jsstring_eqb_eq in E1; subst name; cbn;
     destruct (sent_list _); reflexivity|].
  destruct (jsstring_eqb name (lit "categories")) eqn:E2;
    [apply jsstring_eqb_eq in E2; subst name; cbn;
     destruct (sent_list _); reflexivity|].
  destruct (jsstring_eqb name (lit "customerTenure")) eqn:E3;
    [apply jsstring_eqb_eq in E3; subst name; cbn;
     destruct (sent_list _); reflexivity|].
  destruct (jsstring_eqb name (lit "customerRecency")) eqn:E4;
    [apply jsstring_eqb_eq in E4; subst name; cbn;
     destruct (sent_list _); reflexivity|].
  destruct (jsstring_eqb name (lit "totalTransactionsMin")) eqn:E5;
    [apply jsstring_eqb_eq in E5; subst name; cbn;
     destruct (sent_number _); reflexivity|].
  destruct (jsstring_eqb name (lit "totalTransactionsMax")) eqn:E6;
    [apply jsstring_eqb_eq in E6; subst name; cbn;
     destruct (sent_number _); reflexivity|].
  destruct (jsstring_eqb name (lit "discountMin")) eqn:E7;
    [apply jsstring_eqb_eq in E7; subst name; cbn;
     destruct (sent_number _); reflexivity|].
  destruct (jsstring_eqb name (lit "discountMax")) eqn:E8;
    [apply jsstring_eqb_eq in E8; subst name; cbn;
     destruct (sent_number _); reflexivity|].
  reflexivity.
Qed.

(** C2, as the code has it.  For every filters object, each of the nine
    parameters is present in the query exactly when [fetchDashboardData]'s
    guard for it holds, and then carries the value the guard appends: a list
    filter when the list is not empty, with its elements joined by commas; a
    numeric bound when it is greater than 0 (so not for 0, nor for a negative
    bound or NaN), as its decimal text; the time filter when it is neither
    empty nor "all".  A property the object lacks is left out.  For
    [{regions: ["West"], totalTransactionsMin: 5}], with the other fields at
    their defaults or absent, the query string is
    [regions=West&totalTransactionsMin=5]. *)
Theorem dashboardParams_sent (filters : Filters) :
  let params := dashboardParams filters in
  (param (lit "regions") params = sent_list (regions filters)
   /\ param (lit "categories") params = sent_list (categories filters)
   /\ param (lit "customerTenure") params = sent_list (customerTenure filters)
   /\ param (lit "customerRecency") params
      = sent_list (customerRecency filters))
  /\ (param (lit "totalTransactionsMin") params
        = sent_number (totalTransactionsMin filters)
      /\ param (lit "totalTransactionsMax") params
         = sent_number (totalTransactionsMax filters)
      /\ param (lit "discountMin") params = sent_number (discountMin filters)
      /\ param (lit "discountMax") params = sent_number (discountMax filters))
  /\ param (lit "timeFilter") params = sent_timeFilter (timeFilter filters)
  /\ params_toString (dashboardParams westFilters)
     = lit "regions=West&totalTransactionsMin=5"
  /\ params_toString (dashboardParams westFiltersSparse)
     = lit "regions=West&totalTransactionsMin=5"
  /\ dashboardUrl localhost westFilters
     = lit "http://localhost:5000/api/data?regions=West&totalTransactionsMin=5".
Proof.
  cbv zeta.
  repeat split; try (rewrite param_dashboardParams; reflexivity);
    vm_compute; reflexivity.
Qed.

(** C2 as stated fails: with a lower transaction bound of -1, which is not
    the default 0, the parameter is left out all the same. *)
Lemma negative_bound_is_omitted : ~ omitted_exactly_at_zero negativeFilters.
Proof.
  intros H.
  specialize (H (Dec (-1) 0) eq_refl).
  destruct H as [H _].
  discriminate (H eq_refl).
Qed.

(* ------------------------------------------------------------------------- *)
(** ** The dashboard fetch *)

(** C3.  [fetchDashboardData] always resolves: whatever the filters, the
    network and the world, it returns a value and never throws.  The value
    is the first element of the body when the status is 2xx and the body
    parses as a non-empty array, and [null] in every other case: a rejected
    fetch, another status, a body that does not parse, a body that is not an
    array, an empty array. *)
Theorem fetchDashboardData_resolves
    (base : jsstring) (network : Request -> FetchResult)
    (filters : Filters) (w : World) :
  fst (fetchDashboardData base network filters w) =
    Return
      match network (GET (dashboardUrl base filters)) with
      | FetchReject _ => JNull
      | FetchResponse r =>
          if ok r then
            match body r with
            | JsonOk (JArr (first :: _)) => first
            | _ => JNull
            end
          else JNull
      end.
Proof.
  unfold fetchDashboardData, try_catch, bind, fetch, json.
  destruct (network (GET (dashboardUrl base filters))) as [e | r];
    [reflexivity|].
  destruct (ok r); simpl; [|reflexivity].
  destruct (body r) as [e | v]; simpl; [reflexivity|].
  destruct v as [ | | | | | [|first rest] | ]; reflexivity.
Qed.

(* ------------------------------------------------------------------------- *)
(** ** The chart normaliser *)

(** C4.  For every chart object whose [chart_type] is not "error" and whose
    [data] is missing, not an array, or an empty array, the renderer returns
    the "No data returned" card carrying the chart's title: it does not
    throw and builds no chart. *)
Theorem renderChart_no_data (props : list (jsstring * jsval)) :
  is_string (lookup (lit "chart_type") props) (lit "error") = false ->
  lookup (lit "data") props = JUndefined
  \/ isArray (lookup (lit "data") props) = false
  \/ lookup (lit "data") props = JArr [] ->
  renderChart (JObj props) = Return (NoDataCard (lookup (lit "title") props)).
Proof.
  intros Htype Hdata.
  unfold renderChart; simpl.
  rewrite Htype.
  destruct Hdata as [H | [H | H]].
  - rewrite H; reflexivity.
  - rewrite H, orb_true_r; reflexivity.
  - rewrite H; reflexivity.
Qed.

Lemma renderChart_no_data_witness :
  renderChart emptyChart = Return (NoDataCard (JStr (lit "Revenue"))).
Proof.
  apply (renderChart_no_data
           [(lit "title", JStr (lit "Revenue"));
            (lit "chart_type", JStr (lit "bar"));
            (lit "data", JArr [])]).
  - reflexivity.
  - right; right; reflexivity.
Defined.

Lemma chooseKey_resolvedKey (provided : jsval) (allKeys : list jsstring)
    (i : nat) :
  chooseKey provided allKeys i = resolvedKey provided allKeys i.
Proof.
  unfold chooseKey, resolvedKey, includes_value.
  destruct provided as [ | | b | n | [|c s] | items | fields ]; simpl;
    rewrite ?andb_false_r; reflexivity.
Qed.

(** C5, as the code has it.  For every chart object whose data is a
    non-empty array with a record as first row, the keys are derived
    without a throw: [allKeys] are the property names of the first row, the
    resolved x key is the provided [xKey] if that is a non-empty string
    naming a property of the first row and the first of [allKeys] otherwise
    ([undefined] if there is none), and the resolved y key is the provided
    [yKey] under the same condition and the second of [allKeys] otherwise.
    A provided key that is absent, or not the empty string, is resolved as
    the specification words it. *)
Theorem deriveKeys_resolution
    (props row : list (jsstring * jsval)) (rest : list jsval) :
  lookup (lit "data") props = JArr (JObj row :: rest) ->
  let allKeys := map fst row in
  let xKey := lookup (lit "xKey") props in
  let yKey := lookup (lit "yKey") props in
  deriveKeys (JObj props)
  = Return (allKeys, resolvedKey xKey allKeys 0, resolvedKey yKey allKeys 1)
  /\ (forall i provided, provided <> JStr [] ->
        resolvedKey provided allKeys i = chooseKeyBySpec provided allKeys i).
Proof.
  intros Hdata allKeys xKey yKey; split.
  - unfold deriveKeys; simpl.
    rewrite Hdata; simpl.
    rewrite !chooseKey_resolvedKey; reflexivity.
  - intros i provided Hne.
    unfold resolvedKey, chooseKeyBySpec, includes_value.
    destruct provided as [ | | b | n | [|c s] | items | fields ];
      try reflexivity.
    contradiction Hne; reflexivity.
Qed.

(** The chart [data: [{month: "Jan", revenue: 100}]] without explicit keys
    resolves to [xKey = "month"] and [yKey = "revenue"]. *)
Lemma deriveKeys_resolution_witness :
  deriveKeys monthlyChart
  = Return ([lit "month"; lit "revenue"],
            JStr (lit "month"), JStr (lit "revenue")).
Proof.
  exact (proj1 (deriveKeys_resolution
                  [(lit "title", JStr (lit "Revenue"));
                   (lit "chart_type", JStr (lit "bar"));
                   (lit "data", JArr [obj [("month", JStr (lit "Jan"));
                                           ("revenue", JNum (Dec 100 0))]])]
                  [(lit "month", JStr (lit "Jan"));
                   (lit "revenue", JNum (Dec 100 0))]
                  [] eq_refl)).
Defined.

(** C5 as stated fails: the chart names the empty string as its x column,
    the first row has a column of that name, and the resolved x key is the
    first column "a" all the same. *)
Lemma empty_xKey_is_not_kept :
  deriveKeys emptyNameChart
  = Return ([lit "a"; []], JStr (lit "a"), JStr [])
  /\ chooseKeyBySpec (JStr []) [lit "a"; []] 0 = JStr []
  /\ JStr (lit "a") <> chooseKeyBySpec (JStr []) [lit "a"; []] 0.
Proof.
  split; [reflexivity|]. split; [reflexivity|]. discriminate.
Qed.

(* ------------------------------------------------------------------------- *)
(** ** The tick formatter *)

(** C8, as the code has it.  The formatter goes by the magnitude of the
    value: every number [n] with [|n| >= 1,000,000] becomes
    [(n/1000000).toFixed(1)] followed by M, every [n] with
    [1,000 <= |n| < 1,000,000] becomes [(n/1000).toFixed(1)] followed by K,
    and every [n] with [|n| < 1,000] becomes [n.toLocaleString()].  So a
    value of at least 1,000,000 takes the M form, a value from 1,000 up to
    1,000,000 the K form, and large negative values take the M and K forms
    too. *)
Theorem tickFormatter_by_magnitude (m : Z) (e : nat) :
  let n := Dec m e in
  let unit := (10 ^ Z.of_nat e)%Z in
  ((1000000 * unit <= Z.abs m)%Z ->
     tickFormatter n = TickFixed1 n 1000000 (lit "M"))
  /\ ((1000 * unit <= Z.abs m < 1000000 * unit)%Z ->
        tickFormatter n = TickFixed1 n 1000 (lit "K"))
  /\ ((Z.abs m < 1000 * unit)%Z -> tickFormatter n = TickLocale n)
  /\ (num_ge n 1000000 = true ->
        tickFormatter n = TickFixed1 n 1000000 (lit "M"))
  /\ (num_ge n 1000 = true -> num_lt n 1000000 = true ->
        tickFormatter n = TickFixed1 n 1000 (lit "K")).
Proof.
  cbv zeta; unfold tickFormatter, num_abs_ge, num_ge, num_lt; simpl isNaN.
  cbv iota.
  assert (Hu : (0 < 10 ^ Z.of_nat e)%Z) by (apply Z.pow_pos_nonneg; lia).
  repeat split; intros.
  - replace (1000000 * 10 ^ Z.of_nat e <=? Z.abs m)%Z with true
      by (symmetry; apply Z.leb_le; lia).
    reflexivity.
  - replace (1000000 * 10 ^ Z.of_nat e <=? Z.abs m)%Z with false
      by (symmetry; apply Z.leb_gt; lia).
    replace (1000 * 10 ^ Z.of_nat e <=? Z.abs m)%Z with true
      by (symmetry; apply Z.leb_le; lia).
    reflexivity.
  - replace (1000000 * 10 ^ Z.of_nat e <=? Z.abs m)%Z with false
      by (symmetry; apply Z.leb_gt; lia).
    replace (1000 * 10 ^ Z.of_nat e <=? Z.abs m)%Z with false
      by (symmetry; apply Z.leb_gt; lia).
    reflexivity.
  - replace (1000000 * 10 ^ Z.of_nat e <=? Z.abs m)%Z with true
      by (symmetry; apply Z.leb_le; apply Z.leb_le in H; lia).
    reflexivity.
  - apply Z.leb_le in H. apply Z.ltb_lt in H0.
    replace (1000000 * 10 ^ Z.of_nat e <=? Z.abs m)%Z with false
      by (symmetry; apply Z.leb_gt; lia).
    replace (1000 * 10 ^ Z.of_nat e <=? Z.abs m)%Z with true
      by (symmetry; apply Z.leb_le; lia).
    reflexivity.
Qed.

Lemma tickFormatter_by_magnitude_witness :
  tickFormatter (Dec 2500000 0) = TickFixed1 (Dec 2500000 0) 1000000 (lit "M")
  /\ tickFormatter (Dec 12345 1) = TickFixed1 (Dec 12345 1) 1000 (lit "K")
  /\ tickFormatter (Dec 99950 2) = TickLocale (Dec 99950 2).
Proof.
  split; [|split].
  - apply (proj1 (tickFormatter_by_magnitude 2500000 0)); simpl; lia.
  - apply (proj1 (proj2 (tickFormatter_by_magnitude 12345 1))); simpl; lia.
  - apply (proj1 (proj2 (proj2 (tickFormatter_by_magnitude 99950 2))));
      simpl; lia.
Defined.

(** C8 as stated fails: -2,000,000 is neither at least 1,000,000 nor within
    1,000 and 1,000,000, and it is formatted in the M form, not as a
    locale-grouped number. *)
Lemma negative_million_is_abbreviated :
  num_ge (Dec (-2000000) 0) 1000 = false
  /\ tickFormatter (Dec (-2000000) 0)
     = TickFixed1 (Dec (-2000000) 0) 1000000 (lit "M")
  /\ tickFormatter (Dec (-2000000) 0) <> TickLocale (Dec (-2000000) 0).
Proof.
  split; [reflexivity|]. split; [reflexivity|]. discriminate.
Qed.

(* ------------------------------------------------------------------------- *)
(** ** The chart thread: a send that fails *)

(** Runs the monadic operations of a handler on the world in the goal. *)
Ltac run_handler :=
  cbv [bind newDateISO or_now setChatMessages setChatInput setChatLoading
       setChatHistoryLoaded setGraphChatMessages setGraphChatInput
       setGraphChatLoading setGraphChatHistoryLoaded setState getState
       try_catch fetch json prop lift ret throw check_ok];
  cbn [app sent ticks].

(** A send on the chart thread that the guard lets through is the part of
    the handler before the request followed by the part after it. *)
Lemma handleSendGraphMessage_split
    (base : jsstring) (network : Request -> FetchResult)
    (nowISO : nat -> jsstring) (w : World) :
  let text := trim (graphChatInput (app w)) in
  is_empty text = false ->
  graphChatLoading (app w) = false ->
  handleSendGraphMessage base network nowISO w
  = graphSendAfter base network nowISO text
      (snd (graphSendBefore nowISO text w)).
Proof.
  intros text Htext Hidle.
  unfold handleSendGraphMessage.
  unfold bind at 1; unfold getState at 1.
  fold text; rewrite Htext, Hidle; cbv [orb].
  reflexivity.
Qed.

(** The same on the analysis thread. *)
Lemma handleSendMessage_split
    (base : jsstring) (network : Request -> FetchResult)
    (nowISO : nat -> jsstring) (w : World) :
  let text := trim (chatInput (app w)) in
  is_empty text = false ->
  chatLoading (app w) = false ->
  handleSendMessage base network nowISO w
  = chatSendAfter base network nowISO text
      (snd (chatSendBefore nowISO text w)).
Proof.
  intros text Htext Hidle.
  unfold handleSendMessage.
  unfold bind at 1; unfold getState at 1.
  fold text; rewrite Htext, Hidle; cbv [orb].
  reflexivity.
Qed.

(** C6.  When the chart-generation request is answered with the body
    [{success: false, error: "LLM timeout"}], a send on the chart thread
    appends the user's message and then exactly one assistant message whose
    content is "Sorry, I ran into an issue: LLM timeout" and whose charts
    are the empty array, and the thread's in-flight flag is false when the
    handler has finished.  The flag is true in the state [raised] the
    handler is in when it issues the request (line 484), and the handler
    ends as its part after the raise does from that state; from every state
    in which the flag is true that part appends the assistant message and
    leaves the flag false (line 516). *)
Theorem graph_send_application_failure
    (base : jsstring) (network : Request -> FetchResult)
    (nowISO : nat -> jsstring) (w : World) (r : Response) :
  let text := trim (graphChatInput (app w)) in
  is_empty text = false ->
  graphChatLoading (app w) = false ->
  network (graphRequest base text) = FetchResponse r ->
  body r = JsonOk (obj [("success", JBool false);
                        ("error", JStr (lit "LLM timeout"))]) ->
  let run := handleSendGraphMessage base network nowISO w in
  let raised := snd (graphSendBefore nowISO text w) in
  fst run = Return tt
  /\ graphChatMessages (app (snd run))
     = graphChatMessages (app w)
       ++ [mkMessage user (JStr text) (JStr (nowISO (ticks w))) JUndefined;
           mkMessage assistant
             (JStr (lit "Sorry, I ran into an issue: LLM timeout"))
             (JStr (nowISO (S (ticks w)))) (JArr [])]
  /\ graphChatLoading (app (snd run)) = false
  /\ sent (snd run) = sent w ++ [graphRequest base text]
  /\ graphChatLoading (app raised) = true
  /\ run = graphSendAfter base network nowISO text raised
  /\ forall busy : World,
       graphChatLoading (app busy) = true ->
       let rest := graphSendAfter base network nowISO text busy in
       fst rest = Return tt
       /\ graphChatMessages (app (snd rest))
          = graphChatMessages (app busy)
            ++ [mkMessage assistant
                  (JStr (lit "Sorry, I ran into an issue: LLM timeout"))
                  (JStr (nowISO (ticks busy))) (JArr [])]
       /\ graphChatLoading (app (snd rest)) = false.
Proof.
  intros text Htext Hidle Hnet Hbody run raised.
  assert (Hrest : forall busy : World,
    graphSendAfter base network nowISO text busy
    = (Return tt,
       mkWorld
         (mkAppState (currentPage (app busy)) (chatMessages (app busy))
            (chatInput (app busy)) (chatLoading (app busy))
            (chatHistoryLoaded (app busy))
            (graphChatMessages (app busy)
               ++ [mkMessage assistant
                     (JStr (lit "Sorry, I ran into an issue: LLM timeout"))
                     (JStr (nowISO (ticks busy))) (JArr [])])
            (graphChatInput (app busy)) false
            (graphChatHistoryLoaded (app busy)))
         (sent busy ++ [graphRequest base text]) (S (ticks busy)))).
  { intros busy. unfold graphSendAfter, graphRequest in *.
    run_handler.
    rewrite Hnet, Hbody; cbn.
    reflexivity. }
  assert (E : run = graphSendAfter base network nowISO text raised)
    by (apply handleSendGraphMessage_split; assumption).
  assert (Hraised : raised
    = mkWorld
        (mkAppState (currentPage (app w)) (chatMessages (app w))
           (chatInput (app w)) (chatLoading (app w))
           (chatHistoryLoaded (app w))
           (graphChatMessages (app w)
              ++ [mkMessage user (JStr text) (JStr (nowISO (ticks w)))
                    JUndefined])
           [] true (graphChatHistoryLoaded (app w)))
        (sent w) (S (ticks w))) by reflexivity.
  split; [rewrite E, Hrest; reflexivity|].
  split; [rewrite E, Hrest, Hraised; cbn; rewrite <- app_assoc; reflexivity|].
  split; [rewrite E, Hrest; reflexivity|].
  split; [rewrite E, Hrest, Hraised; reflexivity|].
  split; [rewrite Hraised; reflexivity|].
  split; [exact E|].
  intros busy _ rest; subst rest.
  rewrite Hrest; cbn. repeat split; reflexivity.
Qed.

Lemma graph_send_application_failure_witness :
  graphChatMessages
    (app (snd (handleSendGraphMessage localhost timeoutServer sampleClock
                 (world askingState))))
  = [mkMessage user (JStr (lit "revenue by month")) (JStr (lit "T0"))
       JUndefined;
     mkMessage assistant
       (JStr (lit "Sorry, I ran into an issue: LLM timeout"))
       (JStr (lit "T1")) (JArr [])].
Proof.
  exact (proj1 (proj2
    (graph_send_application_failure localhost timeoutServer sampleClock
       (world askingState)
       (mkResponse 200 (lit "")
          (JsonOk (obj [("success", JBool false);
                        ("error", JStr (lit "LLM timeout"))])))
       eq_refl eq_refl eq_refl eq_refl))).
Defined.

(** C10.  When the chart-generation request itself fails, because the fetch
    rejects or the body of the response does not parse as JSON, a send on
    the chart thread appends the user's message and then exactly one
    assistant message whose content is "Connection error: " followed by the
    message of the error and whose charts are the empty array; the content
    does not begin with the "Sorry, I ran into an issue:" of an
    application-level failure; and the thread's in-flight flag is false
    when the handler has finished.  The flag is true in the state [raised]
    the handler is in when it issues the request (line 484), and the
    handler ends as its part after the raise does from that state; from
    every state in which the flag is true that part appends the assistant
    message and leaves the flag false (line 516). *)
Theorem graph_send_connection_error
    (base : jsstring) (network : Request -> FetchResult)
    (nowISO : nat -> jsstring) (w : World) (e : jserror) :
  let text := trim (graphChatInput (app w)) in
  is_empty text = false ->
  graphChatLoading (app w) = false ->
  network (graphRequest base text) = FetchReject e
  \/ (exists r, network (graphRequest base text) = FetchResponse r
                /\ body r = JsonReject e) ->
  let run := handleSendGraphMessage base network nowISO w in
  let reply := lit "Connection error: " ++ message e in
  let raised := snd (graphSendBefore nowISO text w) in
  fst run = Return tt
  /\ graphChatMessages (app (snd run))
     = graphChatMessages (app w)
       ++ [mkMessage user (JStr text) (JStr (nowISO (ticks w))) JUndefined;
           mkMessage assistant (JStr reply)
             (JStr (nowISO (S (ticks w)))) (JArr [])]
  /\ firstn 27 reply <> lit "Sorry, I ran into an issue:"
  /\ graphChatLoading (app (snd run)) = false
  /\ sent (snd run) = sent w ++ [graphRequest base text]
  /\ graphChatLoading (app raised) = true
  /\ run = graphSendAfter base network nowISO text raised
  /\ forall busy : World,
       graphChatLoading (app busy) = true ->
       let rest := graphSendAfter base network nowISO text busy in
       fst rest = Return tt
       /\ graphChatMessages (app (snd rest))
          = graphChatMessages (app busy)
            ++ [mkMessage assistant (JStr reply)
                  (JStr (nowISO (ticks busy))) (JArr [])]
       /\ graphChatLoading (app (snd rest)) = false.
Proof.
  intros text Htext Hidle Hfail run reply raised.
  assert (Hrest : forall busy : World,
    graphSendAfter base network nowISO text busy
    = (Return tt,
       mkWorld
         (mkAppState (currentPage (app busy)) (chatMessages (app busy))
            (chatInput (app busy)) (chatLoading (app busy))
            (chatHistoryLoaded (app busy))
            (graphChatMessages (app busy)
               ++ [mkMessage assistant (JStr reply)
                     (JStr (nowISO (ticks busy))) (JArr [])])
            (graphChatInput (app busy)) false
            (graphChatHistoryLoaded (app busy)))
         (sent busy ++ [graphRequest base text]) (S (ticks busy)))).
  { intros busy. unfold graphSendAfter, graphRequest in *.
    run_handler.
    destruct Hfail as [Hnet | [r [Hnet Hbody]]].
    - rewrite Hnet; cbn. reflexivity.
    - rewrite Hnet, Hbody; cbn. reflexivity. }
  assert (E : run = graphSendAfter base network nowISO text raised)
    by (apply handleSendGraphMessage_split; assumption).
  assert (Hraised : raised
    = mkWorld
        (mkAppState (currentPage (app w)) (chatMessages (app w))
           (chatInput (app w)) (chatLoading (app w))
           (chatHistoryLoaded (app w))
           (graphChatMessages (app w)
              ++ [mkMessage user (JStr text) (JStr (nowISO (ticks w)))
                    JUndefined])
           [] true (graphChatHistoryLoaded (app w)))
        (sent w) (S (ticks w))) by reflexivity.
  split; [rewrite E, Hrest; reflexivity|].
  split; [rewrite E, Hrest, Hraised; cbn; rewrite <- app_assoc; reflexivity|].
  split; [subst reply; discriminate|].
  split; [rewrite E, Hrest; reflexivity|].
  split; [rewrite E, Hrest, Hraised; reflexivity|].
  split; [rewrite Hraised; reflexivity|].
  split; [exact E|].
  intros busy _ rest; subst rest.
  rewrite Hrest; cbn. repeat split; reflexivity.
Qed.

Lemma graph_send_connection_error_witness :
  graphChatMessages
    (app (snd (handleSendGraphMessage localhost offline sampleClock
                 (world askingState))))
  = [mkMessage user (JStr (lit "revenue by month")) (JStr (lit "T0"))
       JUndefined;
     mkMessage assistant (JStr (lit "Connection error: Failed to fetch"))
       (JStr (lit "T1")) (JArr [])].
Proof.
  exact (proj1 (proj2
    (graph_send_connection_error localhost offline sampleClock
       (world askingState) (TypeError (lit "Failed to fetch"))
       eq_refl eq_refl (or_introl eq_refl)))).
Defined.

(* ------------------------------------------------------------------------- *)
(** ** The grouping of the chat messages *)

Section Grouping.

Variable toDateString : jsval -> jsstring.
Variable toLocaleDateString : jsval -> jsstring.
Variable today : jsstring.

Let label (m : Message) : jsstring :=
  formatDate toDateString toLocaleDateString today (timestamp m).
Let run := forEachFrom toDateString toLocaleDateString today.
Let grouped := chatGroupedMessages toDateString toLocaleDateString today.

Lemma forEachFrom_app (a b : list Message) :
  forall idx acc,
    run idx (a ++ b) acc = run (idx + List.length a) b (run idx a acc).
Proof.
  induction a as [|m a IH]; intros idx acc; simpl.
  - rewrite Nat.add_0_r; reflexivity.
  - unfold run in *; cbn [forEachFrom List.length app]; rewrite IH.
    replace (S idx + List.length a) with (idx + S (List.length a)) by lia.
    reflexivity.
Qed.

(** [lastDate] after a run: the last non-empty label met, or the one the
    run started with. *)
Lemma forEachFrom_lastDate (msgs : list Message) :
  forall idx groups lastDate,
    snd (run idx msgs (groups, lastDate)) =
      match lastDated (map label msgs) with
      | Some d => Some d
      | None => lastDate
      end.
Proof.
  induction msgs as [|m msgs IH]; intros idx groups lastDate.
  - reflexivity.
  - unfold run in *; cbn [forEachFrom map lastDated].
    unfold groupStep; fold (label m).
    destruct (negb (is_empty (label m)) && differs (label m) lastDate)
      eqn:E; rewrite IH; destruct (lastDated (map label msgs));
      try reflexivity.
    + apply andb_true_iff in E as [E _].
      apply negb_true_iff in E; rewrite E; reflexivity.
    + destruct (is_empty (label m)); [reflexivity|].
      destruct lastDate as [d|]; [|discriminate].
      simpl in E; apply negb_false_iff, jsstring_eqb_eq in E.
      rewrite E; reflexivity.
Qed.

Lemma forEachFrom_prefix (msgs : list Message) :
  forall idx groups lastDate,
    fst (run idx msgs (groups, lastDate))
    = groups ++ fst (run idx msgs ([], lastDate)).
Proof.
  induction msgs as [|m msgs IH]; intros idx groups lastDate.
  - simpl; rewrite app_nil_r; reflexivity.
  - unfold run in *; cbn [forEachFrom].
    unfold groupStep; fold (label m).
    destruct (negb (is_empty (label m)) && differs (label m) lastDate);
      rewrite IH; symmetry; rewrite IH; simpl;
      rewrite <- ?app_assoc; reflexivity.
Qed.

(** What the grouping of a sequence extended by one message is. *)
Lemma grouped_snoc (msgs : list Message) (m : Message) :
  grouped (msgs ++ [m]) =
    grouped msgs
    ++ (if negb (is_empty (label m))
           && differs (label m) (lastDated (map label msgs))
        then [Divider (label m) (List.length msgs)] else [])
    ++ [MessageItem m (List.length msgs)].
Proof.
  unfold grouped, chatGroupedMessages.
  fold run. rewrite forEachFrom_app; simpl.
  pose proof (forEachFrom_lastDate msgs 0 [] None) as Hlast.
  destruct (run 0 msgs ([], None)) as [groups lastDate]; simpl in *.
  subst lastDate.
  replace (match lastDated (map label msgs) with
           | Some d => Some d
           | None => None
           end) with (lastDated (map label msgs))
    by (destruct (lastDated (map label msgs)); reflexivity).
  unfold run; cbn [forEachFrom]. unfold groupStep; fold (label m).
  destruct (negb (is_empty (label m))
            && differs (label m) (lastDated (map label msgs)));
    simpl; rewrite <- ?app_assoc; reflexivity.
Qed.

Lemma messagesIn_app (a b : list GroupItem) :
  messagesIn (a ++ b) = messagesIn a ++ messagesIn b.
Proof.
  induction a as [|[l i | m i] a IH]; simpl; rewrite ?IH; reflexivity.
Qed.

Lemma messagesIn_grouped (msgs : list Message) :
  messagesIn (grouped msgs) = msgs.
Proof.
  induction msgs as [|m msgs IH] using rev_ind.
  - reflexivity.
  - rewrite grouped_snoc, !messagesIn_app, IH.
    destruct (negb (is_empty (label m))
              && differs (label m) (lastDated (map label msgs)));
      reflexivity.
Qed.

Lemma lastDated_snoc (labels : list jsstring) (l : jsstring) :
  is_empty l = false -> lastDated (labels ++ [l]) = Some l.
Proof.
  intros H; induction labels as [|x labels IH]; simpl.
  - rewrite H; reflexivity.
  - rewrite IH; reflexivity.
Qed.

(** C9, as the code has it.  The grouping is a function of the message
    sequence alone.  It contains every message exactly once, in the original
    order and under its index.  A date divider is put before a message
    exactly when the message has a formatted date (its timestamp is not
    missing) and that date differs from the formatted date of the nearest
    earlier message that has one, or no earlier message has one; a message
    without a timestamp gets no divider and leaves the date to compare with
    as it was.  Where a message and the one before it both have a formatted
    date, the divider is there exactly when the two dates differ.  The
    label is "Today" for a timestamp of today and the en-GB day, month and
    year otherwise. *)
Theorem chatGroupedMessages_dividers :
  grouped [] = []
  /\ (forall msgs m,
        grouped (msgs ++ [m]) =
          grouped msgs
          ++ (if negb (is_empty (label m))
                 && differs (label m) (lastDated (map label msgs))
              then [Divider (label m) (List.length msgs)] else [])
          ++ [MessageItem m (List.length msgs)])
  /\ (forall msgs, messagesIn (grouped msgs) = msgs)
  /\ (forall msgs prev m,
        is_empty (label prev) = false -> is_empty (label m) = false ->
        grouped (msgs ++ [prev; m]) =
          grouped (msgs ++ [prev])
          ++ (if jsstring_eqb (label m) (label prev) then []
              else [Divider (label m) (S (List.length msgs))])
          ++ [MessageItem m (S (List.length msgs))])
  /\ (forall m,
        label m =
          if negb (truthy (timestamp m)) then []
          else if jsstring_eqb (toDateString (timestamp m)) today
               then lit "Today"
               else toLocaleDateString (timestamp m)).
Proof.
  split; [reflexivity|].
  split; [exact grouped_snoc|].
  split; [exact messagesIn_grouped|].
  split; [|reflexivity].
  intros msgs prev m Hprev Hm.
  replace (msgs ++ [prev; m]) with ((msgs ++ [prev]) ++ [m])
    by (rewrite <- app_assoc; reflexivity).
  rewrite grouped_snoc.
  rewrite map_app; simpl map.
  rewrite (lastDated_snoc _ _ Hprev), Hm.
  rewrite length_app; simpl List.length.
  rewrite Nat.add_1_r.
  simpl.
  destruct (jsstring_eqb (label m) (label prev)); reflexivity.
Qed.

End Grouping.

Lemma chatGroupedMessages_dividers_witness :
  chatGroupedMessages sampleToDateString sampleToLocaleDateString sampleToday
    [oldQuestion; datedQuestion; datedFollowUp]
  = [Divider (lit "1 Nov 2026") 0; MessageItem oldQuestion 0;
     Divider (lit "Today") 1; MessageItem datedQuestion 1;
     MessageItem datedFollowUp 2].
Proof.
  pose proof (proj1 (proj2 (proj2 (proj2
    (chatGroupedMessages_dividers
       sampleToDateString sampleToLocaleDateString sampleToday))))
    [oldQuestion] datedQuestion datedFollowUp eq_refl eq_refl) as H.
  exact H.
Defined.

(** C9 as stated fails: of three messages the second has no timestamp, so
    the formatted date of the third ("Today") differs from that of the
    message before it (the empty text), and no divider is put before the
    third message. *)
Lemma undated_message_hides_no_divider :
  formatDate sampleToDateString sampleToLocaleDateString sampleToday
    (timestamp datedFollowUp)
  <> formatDate sampleToDateString sampleToLocaleDateString sampleToday
       (timestamp undatedAnswer)
  /\ chatGroupedMessages sampleToDateString sampleToLocaleDateString
       sampleToday [datedQuestion; undatedAnswer; datedFollowUp]
     = [Divider (lit "Today") 0; MessageItem datedQuestion 0;
        MessageItem undatedAnswer 1; MessageItem datedFollowUp 2]
  /\ (forall l,
        ~ In (Divider l 2)
            (chatGroupedMessages sampleToDateString sampleToLocaleDateString
               sampleToday [datedQuestion; undatedAnswer; datedFollowUp])).
Proof.
  split; [discriminate|]. split; [reflexivity|].
  intros l H; vm_compute in H.
  repeat (destruct H as [H | H]; [discriminate H|]).
  exact H.
Qed.

(* ------------------------------------------------------------------------- *)
(** ** History hydration *)

Section Hydration.

Variable base : jsstring.
Variable network : Request -> FetchResult.
Variable StringToNumber : jsstring -> number.

(** [fetchChatHistory] resolves to the empty array when the fetch rejects or
    the status is not 2xx. *)
Lemma fetchChatHistory_failure (w : World) :
  (exists e, network (chatHistoryRequest base) = FetchReject e)
  \/ (exists r, network (chatHistoryRequest base) = FetchResponse r /\ ok r = false) ->
  fst (fetchChatHistory base network w) = Return (JArr []).
Proof.
  unfold chatHistoryRequest, fetchChatHistory, try_catch, bind, fetch.
  intros [[e H] | [r [H Hok]]]; rewrite H; simpl;
    rewrite ?Hok; reflexivity.
Qed.

(** A chat-history fetch that fails leaves the thread empty and marks the
    history as loaded, without a throw. *)
Lemma loadChatHistory_failure (w : World) :
  currentPage (app w) = lit "text" ->
  chatHistoryLoaded (app w) = false ->
  (exists e, network (chatHistoryRequest base) = FetchReject e)
  \/ (exists r, network (chatHistoryRequest base) = FetchResponse r /\ ok r = false) ->
  let run := loadChatHistory base network StringToNumber w in
  fst run = Return tt
  /\ chatMessages (app (snd run)) = chatMessages (app w)
  /\ chatHistoryLoaded (app (snd run)) = true.
Proof.
  intros Hpage Hnot Hfail run.
  unfold chatHistoryRequest in Hfail.
  eassert (E : run = _).
  { subst run; unfold loadChatHistory.
    unfold bind at 1; unfold getState at 1.
    rewrite Hpage, Hnot; simpl (_ && _).
    unfold fetchChatHistory.
    run_handler.
    destruct Hfail as [[e H] | [r [H Hok]]]; rewrite H; cbn;
      rewrite ?Hok; cbn; reflexivity. }
  rewrite E; cbn; auto.
Qed.

(** Reading the rows of a history does not change the world. *)
Lemma forRows_world (f : jsval -> M (list Message)) :
  (forall row w, snd (f row w) = w) ->
  forall rows w, snd (forRows f rows w) = w.
Proof.
  intros Hf rows; induction rows as [|row rows IH]; intros w.
  - reflexivity.
  - simpl; unfold bind.
    specialize (Hf row w).
    destruct (f row w) as [[ms | e] w1]; simpl in Hf; subst w1;
      [|reflexivity].
    specialize (IH w).
    destruct (forRows f rows w) as [[ms' | e] w2]; simpl in IH; subst w2;
      reflexivity.
Qed.

Lemma graphRow_world (row : jsval) (w : World) : snd (graphRow row w) = w.
Proof.
  unfold graphRow, bind, prop, lift, ret.
  destruct (get_prop row (lit "user_message")); [|reflexivity].
  destruct (get_prop row (lit "created_at")); reflexivity.
Qed.

(** The graph-history effect never throws and always ends with the history
    marked as loaded. *)
Lemma loadGraphHistory_marks_loaded (w : World) :
  currentPage (app w) = lit "graphs" ->
  graphChatHistoryLoaded (app w) = false ->
  exists w',
    loadGraphHistory base network StringToNumber w = (Return tt, w')
    /\ graphChatHistoryLoaded (app w') = true.
Proof.
  intros Hpage Hnot.
  unfold loadGraphHistory.
  unfold bind at 1; unfold getState at 1.
  rewrite Hpage, Hnot; simpl (_ && _); cbv iota.
  run_handler.
  destruct (network _) as [e | r]; [eexists; split; reflexivity|].
  destruct (body r) as [e | data]; [eexists; split; reflexivity|].
  destruct (get_prop data (lit "success")) as [success | e];
    [|eexists; split; reflexivity].
  destruct (truthy success); [|eexists; split; reflexivity].
  destruct (get_prop data (lit "history")) as [history | e];
    [|eexists; split; reflexivity].
  destruct (truthy history); [|eexists; split; reflexivity].
  destruct (get_prop history (lit "length")) as [len | e];
    [|eexists; split; reflexivity].
  destruct (js_gt0 StringToNumber len); [|eexists; split; reflexivity].
  unfold eachRow.
  destruct history as [ | | | | | rows | ];
    try (eexists; split; reflexivity).
  match goal with
  | |- context [forRows graphRow rows ?w1] =>
      pose proof (forRows_world graphRow graphRow_world rows w1) as Hw;
      destruct (forRows graphRow rows w1) as [[loaded | e] w2];
      simpl in Hw; subst w2; eexists; split; reflexivity
  end.
Qed.

(** A graph-history fetch that rejects, or whose body does not parse,
    leaves the thread as it was. *)
Lemma loadGraphHistory_failure (w : World) (e : jserror) :
  currentPage (app w) = lit "graphs" ->
  graphChatHistoryLoaded (app w) = false ->
  network (graphHistoryRequest base) = FetchReject e
  \/ (exists r, network (graphHistoryRequest base) = FetchResponse r
                /\ body r = JsonReject e) ->
  let run := loadGraphHistory base network StringToNumber w in
  fst run = Return tt
  /\ graphChatMessages (app (snd run)) = graphChatMessages (app w)
  /\ graphChatHistoryLoaded (app (snd run)) = true.
Proof.
  intros Hpage Hnot Hfail run.
  unfold graphHistoryRequest in Hfail.
  eassert (E : run = _).
  { subst run; unfold loadGraphHistory.
    unfold bind at 1; unfold getState at 1.
    rewrite Hpage, Hnot; simpl (_ && _); cbv iota.
    run_handler.
    destruct Hfail as [H | [r [H Hbody]]]; rewrite H; cbn;
      rewrite ?Hbody; cbn; reflexivity. }
  rewrite E; cbn; auto.
Qed.

End Hydration.

(** C7, where the code falls short of it.  (1) The graph-history effect
    does not look at the status: answered with status 500 and a body that
    reports success and one row, it fills the chart thread with two
    messages, where the chat-history path, which checks [response.ok],
    leaves its thread empty on the same answer.  (2) The chat-history
    effect has no rejection handler: answered with a history whose row is
    [null], its callback throws and the history is never marked as loaded,
    where the graph-history path, which ends in a [catch], marks it. *)
Theorem history_hydration_defects (StringToNumber : jsstring -> number) :
  let graphRun :=
    loadGraphHistory localhost confusedServer StringToNumber
      (world (emptyState "graphs")) in
  let chatOnSame :=
    loadChatHistory localhost confusedServer StringToNumber
      (world (emptyState "text")) in
  let chatRun :=
    loadChatHistory localhost nullRowServer StringToNumber
      (world (emptyState "text")) in
  let graphOnSame :=
    loadGraphHistory localhost nullRowServer StringToNumber
      (world (emptyState "graphs")) in
  (graphChatMessages (app (snd graphRun))
   = [mkMessage user (JStr (lit "q1")) (JStr morningISO) JUndefined;
      placeholder
        (mkMessage user (JStr (lit "q1")) (JStr morningISO) JUndefined)]
   /\ chatMessages (app (snd chatOnSame)) = []
   /\ chatHistoryLoaded (app (snd chatOnSame)) = true)
  /\ (fst chatRun
      = Throw (TypeError
                 (lit "Cannot read properties of null (reading 'user_message')"))
      /\ chatHistoryLoaded (app (snd chatRun)) = false
      /\ fst graphOnSame = Return tt
      /\ graphChatHistoryLoaded (app (snd graphOnSame)) = true).
Proof.
  cbv zeta; repeat split; reflexivity.
Qed.

(* ========================================================================= *)
(** * Further properties *)

(* ------------------------------------------------------------------------- *)
(** ** The API client *)

Lemma js_or_truthy (a b : jsval) : truthy b = true -> truthy (js_or a b) = true.
Proof.
  intros Hb; unfold js_or; destruct (truthy a) eqn:Ha; assumption.
Qed.

(** A property read of a truthy value does not throw. *)
Lemma get_prop_truthy (v : jsval) (k : jsstring) :
  truthy v = true -> exists x, get_prop v k = Return x.
Proof.
  destruct v; simpl; intros H; try discriminate; eexists; reflexivity.
Qed.

(** Runs a handler and splits on everything the network may answer. *)
Ltac split_answers :=
  repeat match goal with
  | |- context [match ?net ?req with FetchReject _ => _ | FetchResponse _ => _ end] =>
      let H := fresh "Hnet" in destruct (net req) eqn:H; cbn
  | |- context [ok ?r] =>
      let H := fresh "Hok" in destruct (ok r) eqn:H; cbn
  | |- context [body ?r] =>
      let H := fresh "Hbody" in destruct (body r) eqn:H; cbn
  | |- context [get_prop ?v ?k] =>
      let H := fresh "Hget" in destruct (get_prop v k) eqn:H; cbn
  | |- context [truthy ?v] =>
      let H := fresh "Htruthy" in destruct (truthy v) eqn:H; cbn
  end.

(** [APIClient.analyzeText] never throws.  It resolves to an object whose
    [success] is [true] only when the status was 2xx and the parsed body had
    a truthy [success], and to an object whose [success] is [false] and
    whose [error] is truthy in every other case; it issues exactly one
    request and leaves the component's state alone. *)
Theorem analyzeText_contract
    (base : jsstring) (network : Request -> FetchResult)
    (userMessage : jsstring) (w : World) :
  let req := POST (base ++ lit "/text/analyze")
               (obj [("user_message", JStr userMessage)]) in
  exists result,
    analyzeText base network userMessage w
    = (Return (JObj result), mkWorld (app w) (sent w ++ [req]) (ticks w))
    /\ ((lookup (lit "success") result = JBool true
         /\ exists r data flag,
              network req = FetchResponse r /\ ok r = true
              /\ body r = JsonOk data
              /\ get_prop data (lit "success") = Return flag
              /\ truthy flag = true
              /\ get_prop data (lit "summary")
                 = Return (lookup (lit "summary") result))
        \/ (lookup (lit "success") result = JBool false
            /\ truthy (lookup (lit "error") result) = true)).
Proof.
  intros req; subst req.
  unfold analyzeText; run_handler.
  split_answers;
    eexists; (split; [reflexivity|]); cbn;
    try (right; split; [reflexivity|];
         first [reflexivity | apply js_or_truthy; reflexivity]).
  all: try (left; split; [reflexivity|]; do 3 eexists; repeat split; eauto).
Qed.

(** [APIClient.generateGraphs] never throws.  It resolves to an object
    whose [success] is [true] only when the status was 2xx and the parsed
    body had a truthy [success], and then its [charts] is truthy (the
    body's, or the empty array); in every other case [success] is [false]
    and [error] is truthy.  It issues exactly one request. *)
Theorem generateGraphs_contract
    (base : jsstring) (network : Request -> FetchResult)
    (userMessage : jsstring) (w : World) :
  let req := POST (base ++ lit "/graphs/generate")
               (obj [("user_message", JStr userMessage)]) in
  exists result,
    generateGraphs base network userMessage w
    = (Return (JObj result), mkWorld (app w) (sent w ++ [req]) (ticks w))
    /\ ((lookup (lit "success") result = JBool true
         /\ truthy (lookup (lit "charts") result) = true
         /\ exists r data flag,
              network req = FetchResponse r /\ ok r = true
              /\ body r = JsonOk data
              /\ get_prop data (lit "success") = Return flag
              /\ truthy flag = true)
        \/ (lookup (lit "success") result = JBool false
            /\ truthy (lookup (lit "error") result) = true)).
Proof.
  intros req; subst req.
  unfold generateGraphs; run_handler.
  split_answers;
    eexists; (split; [reflexivity|]); cbn;
    try (right; split; [reflexivity|];
         first [reflexivity | apply js_or_truthy; reflexivity]).
  all: try (left; split; [reflexivity|];
            split; [apply js_or_truthy; reflexivity|];
            do 3 eexists; repeat split; eauto).
Qed.

(** [APIClient.fetchChatHistory] never throws and never resolves to a falsy
    value, so that its caller can read [length] of the result.  The result
    is the empty array unless the status was 2xx and the parsed body had a
    truthy [success] and a [history]; and whenever the status was 2xx and
    the parsed body had a truthy [success] and a truthy [history], the
    result is that [history] as it is. *)
Theorem fetchChatHistory_contract
    (base : jsstring) (network : Request -> FetchResult) (w : World) :
  exists history,
    fetchChatHistory base network w
    = (Return history,
       mkWorld (app w) (sent w ++ [chatHistoryRequest base]) (ticks w))
    /\ truthy history = true
    /\ (history = JArr []
        \/ exists r data flag,
             network (chatHistoryRequest base) = FetchResponse r
             /\ ok r = true /\ body r = JsonOk data
             /\ get_prop data (lit "success") = Return flag
             /\ truthy flag = true
             /\ get_prop data (lit "history") = Return history)
    /\ (forall r data flag rows,
          network (chatHistoryRequest base) = FetchResponse r ->
          ok r = true ->
          body r = JsonOk data ->
          get_prop data (lit "success") = Return flag ->
          truthy flag = true ->
          get_prop data (lit "history") = Return rows ->
          truthy rows = true ->
          history = rows).
Proof.
  unfold fetchChatHistory, chatHistoryRequest; run_handler.
  unfold js_or.
  split_answers;
    eexists; (split; [reflexivity|]); cbn;
    (split; [first [reflexivity | assumption]|]);
    (split;
     [first [left; reflexivity | right; do 3 eexists; repeat split; eauto]|]);
    intros r' data' flag' rows' H1 H2 H3 H4 H5 H6 H7; cbn in *; congruence.
Qed.

Lemma fetchChatHistory_contract_witness :
  fst (fetchChatHistory localhost confusedServer (world (emptyState "text")))
  = Return (JArr [])
  /\ fst (fetchChatHistory localhost
            (respond 200 (obj [("success", JBool true);
                               ("history", JArr [JNull])]))
            (world (emptyState "text")))
     = Return (JArr [JNull]).
Proof.
  split.
  - destruct (fetchChatHistory_contract localhost confusedServer
                (world (emptyState "text")))
      as (history & Hrun & _ & [Hempty | (r & data & flag & Hnet & Hok & _)]
          & _).
    + rewrite Hrun, Hempty; reflexivity.
    + inversion Hnet; subst r; discriminate Hok.
  - destruct (fetchChatHistory_contract localhost
                (respond 200 (obj [("success", JBool true);
                                   ("history", JArr [JNull])]))
                (world (emptyState "text")))
      as (history & Hrun & _ & _ & Hforce).
    rewrite Hrun.
    rewrite (Hforce _ _ (JBool true) (JArr [JNull])
               eq_refl eq_refl eq_refl eq_refl eq_refl eq_refl eq_refl).
    reflexivity.
Defined.

(** [healthCheck] of the API module never throws: it resolves to [true]
    exactly when the server answered with a 2xx status, and to [false] for
    any other status and when the request failed. *)
Theorem healthCheck_contract
    (base : jsstring) (network : Request -> FetchResult) (w : World) :
  let req := GET (base ++ lit "/health") in
  exists healthy,
    Api.healthCheck base network w
    = (Return healthy, mkWorld (app w) (sent w ++ [req]) (ticks w))
    /\ (healthy = true
        <-> exists r, network req = FetchResponse r /\ ok r = true).
Proof.
  intros req; subst req.
  unfold Api.healthCheck; run_handler.
  destruct (network _) as [e | r] eqn:Hnet; cbn.
  - exists false; split; [reflexivity|].
    split; [discriminate | intros [r [H _]]; discriminate].
  - exists (ok r); split; [reflexivity|].
    split.
    + intros H; exists r; auto.
    + intros [r' [H Hok]]; inversion H; subst; assumption.
Qed.

(** [analyzeText] of the API module never throws.  On success the
    [timestamp] it reports is the client's clock at that moment, whatever
    timestamp the server sent, and [questions] and [results] are truthy; on
    failure the clock is not read and [error] is truthy. *)
Theorem Api_analyzeText_contract
    (base : jsstring) (network : Request -> FetchResult)
    (nowISO : nat -> jsstring) (userMessage : jsstring) (w : World) :
  let req := POST (base ++ lit "/text/analyze")
               (obj [("user_message", JStr userMessage)]) in
  exists result w',
    Api.analyzeText base network nowISO userMessage w
    = (Return (JObj result), w')
    /\ app w' = app w /\ sent w' = sent w ++ [req]
    /\ ((lookup (lit "success") result = JBool true
         /\ lookup (lit "timestamp") result = JStr (nowISO (ticks w))
         /\ ticks w' = S (ticks w)
         /\ truthy (lookup (lit "questions") result) = true
         /\ truthy (lookup (lit "results") result) = true
         /\ exists r, network req = FetchResponse r /\ ok r = true)
        \/ (lookup (lit "success") result = JBool false
            /\ truthy (lookup (lit "error") result) = true
            /\ ticks w' = ticks w)).
Proof.
  intros req; subst req.
  unfold Api.analyzeText; run_handler.
  split_answers;
    do 2 eexists; (split; [reflexivity|]); cbn;
    (split; [reflexivity|]); (split; [reflexivity|]);
    try (right; split; [reflexivity|]; split; [|reflexivity];
         first [reflexivity | apply js_or_truthy; reflexivity]).
  all: try (left; split; [reflexivity|]; split; [reflexivity|];
            split; [reflexivity|];
            split; [apply js_or_truthy; reflexivity|];
            split; [apply js_or_truthy; reflexivity|];
            eexists; split; eauto).
Qed.

(* ------------------------------------------------------------------------- *)
(** ** The query of the dashboard fetch *)

Lemma names_append_list (n : string) (field : option (list jsstring))
    (params : URLSearchParams) :
  map fst (append_list n field params)
  = map fst params ++ present (sent_list field) (lit n).
Proof.
  unfold append_list, append, sent_list, present.
  destruct field as [[|x rest]|]; rewrite ?map_app, ?app_nil_r; reflexivity.
Qed.

Lemma names_append_number (n : string) (field : option number)
    (params : URLSearchParams) :
  map fst (append_number n field params)
  = map fst params ++ present (sent_number field) (lit n).
Proof.
  unfold append_number, append, sent_number, present.
  destruct field as [x|]; [destruct (num_gt0 x)|];
    rewrite ?map_app, ?app_nil_r; reflexivity.
Qed.

Lemma names_append_timeFilter (field : option jsstring)
    (params : URLSearchParams) :
  map fst (append_timeFilter field params)
  = map fst params ++ present (sent_timeFilter field) (lit "timeFilter").
Proof.
  unfold append_timeFilter, append, sent_timeFilter, present.
  destruct field as [[|c s]|];
    [| destruct (jsstring_eqb (c :: s) (lit "all")); simpl negb; cbv iota |];
    rewrite ?map_app, ?app_nil_r; reflexivity.
Qed.

Lemma subsequence_skip (a b : list jsstring) (y : jsstring) :
  subsequence a b -> subsequence a (y :: b).
Proof. destruct a; simpl; auto. Qed.

Lemma subsequence_present (o : option jsstring) (n : jsstring)
    (rest names : list jsstring) :
  subsequence rest names -> subsequence (present o n ++ rest) (n :: names).
Proof.
  intros H; destruct o; simpl.
  - left; auto.
  - apply subsequence_skip; assumption.
Qed.

Lemma subsequence_In (b : list jsstring) :
  forall a x, subsequence a b -> In x a -> In x b.
Proof.
  induction b as [|y b IH]; intros [|z a] x Hs Hin; simpl in *;
    try contradiction.
  destruct Hs as [[-> Hs] | Hs].
  - destruct Hin as [-> | Hin]; [left; reflexivity | right; eauto].
  - right; apply (IH (z :: a)); simpl; auto.
Qed.

Lemma subsequence_NoDup (b : list jsstring) :
  forall a, subsequence a b -> NoDup b -> NoDup a.
Proof.
  induction b as [|y b IH]; intros [|z a] Hs Hb; simpl in *;
    try constructor; try contradiction.
  - inversion Hb as [|? ? Hnotin Hb']; subst.
    destruct Hs as [[-> Hs] | Hs].
    + intros Hin; apply Hnotin; eapply subsequence_In; eauto.
    + intros Hin.
      assert (Hd : NoDup (z :: a)) by (apply IH; assumption).
      inversion Hd; contradiction.
  - inversion Hb as [|? ? Hnotin Hb']; subst.
    destruct Hs as [[-> Hs] | Hs].
    + apply IH; assumption.
    + assert (Hd : NoDup (z :: a)) by (apply IH; assumption).
      inversion Hd; assumption.
Qed.

Lemma parameterNames_NoDup : NoDup parameterNames.
Proof.
  unfold parameterNames; simpl map.
  repeat (constructor;
          [simpl; intros H;
           repeat (destruct H as [H | H]; [discriminate H|]); exact H|]).
  constructor.
Qed.

(** The query never names a parameter twice, and the parameters it has
    come in the order regions, categories, customerTenure, customerRecency,
    totalTransactionsMin, totalTransactionsMax, discountMin, discountMax,
    timeFilter, whatever the filters are. *)
Theorem dashboardParams_names (filters : Filters) :
  subsequence (map fst (dashboardParams filters)) parameterNames
  /\ NoDup (map fst (dashboardParams filters)).
Proof.
  assert (H : subsequence (map fst (dashboardParams filters)) parameterNames).
  { unfold dashboardParams.
    rewrite names_append_timeFilter, !names_append_number,
      !names_append_list.
    simpl (map fst []); rewrite app_nil_l, <- !app_assoc.
    unfold parameterNames; simpl map.
    repeat apply subsequence_present.
    rewrite <- (app_nil_r (present _ _)).
    apply subsequence_present; exact I. }
  split; [exact H|].
  exact (subsequence_NoDup _ _ H parameterNames_NoDup).
Qed.

Lemma join_nonempty (sep p : jsstring) (rest : list jsstring) :
  p <> [] -> join sep (p :: rest) <> [].
Proof.
  intros Hp; destruct rest as [|q rest]; simpl; [assumption|].
  destruct p; [contradiction | discriminate].
Qed.

Lemma params_toString_nonempty (params : URLSearchParams) :
  params <> [] -> params_toString params <> [].
Proof.
  destruct params as [|[n v] rest]; [contradiction|]; intros _.
  unfold params_toString; simpl map.
  apply join_nonempty.
  destruct (urlencode n); discriminate.
Qed.

Lemma append_list_absent (n : string) (field : option (list jsstring))
    (params : URLSearchParams) :
  sent_list field = None -> append_list n field params = params.
Proof.
  unfold sent_list, append_list.
  destruct field as [[|x rest]|]; [reflexivity | discriminate | reflexivity].
Qed.

Lemma append_number_absent (n : string) (field : option number)
    (params : URLSearchParams) :
  sent_number field = None -> append_number n field params = params.
Proof.
  unfold sent_number, append_number.
  destruct field as [x|]; [|reflexivity].
  destruct (num_gt0 x); [discriminate | reflexivity].
Qed.

Lemma append_timeFilter_absent (field : option jsstring)
    (params : URLSearchParams) :
  sent_timeFilter field = None -> append_timeFilter field params = params.
Proof.
  unfold sent_timeFilter, append_timeFilter.
  destruct field as [[|c s]|]; [reflexivity | | reflexivity].
  destruct (jsstring_eqb (c :: s) (lit "all")); [reflexivity | discriminate].
Qed.

Lemma present_nil_param (filters : Filters) :
  dashboardParams filters = [] ->
  forall name, param name (dashboardParams filters) = None.
Proof. intros H name; rewrite H; reflexivity. Qed.

(** The URL of the dashboard fetch is the bare [/data] endpoint exactly
    when no filter is active: every list is empty or absent, no bound is
    greater than 0 and the time filter is "all", empty or absent.  With any
    active filter the URL continues with [?] and a non-empty query. *)
Theorem dashboardUrl_bare (base : jsstring) (filters : Filters) :
  (dashboardUrl base filters = base ++ lit "/data"
   <-> sent_list (regions filters) = None
       /\ sent_list (categories filters) = None
       /\ sent_list (customerTenure filters) = None
       /\ sent_list (customerRecency filters) = None
       /\ sent_number (totalTransactionsMin filters) = None
       /\ sent_number (totalTransactionsMax filters) = None
       /\ sent_number (discountMin filters) = None
       /\ sent_number (discountMax filters) = None
       /\ sent_timeFilter (timeFilter filters) = None)
  /\ (dashboardUrl base filters = base ++ lit "/data"
      \/ exists query,
           query <> []
           /\ dashboardUrl base filters = base ++ lit "/data?" ++ query).
Proof.
  assert (Hq : params_toString (dashboardParams filters) = []
               <-> dashboardParams filters = []).
  { split.
    - intros H; destruct (dashboardParams filters) eqn:E; [reflexivity|].
      exfalso; revert H; apply params_toString_nonempty; discriminate.
    - intros ->; reflexivity. }
  split.
  - split.
    + intros H.
      assert (Hnil : dashboardParams filters = []).
      { apply Hq. unfold dashboardUrl in H.
        destruct (params_toString (dashboardParams filters)) eqn:E;
          [reflexivity|].
        exfalso.
        apply app_inv_head in H.
        rewrite <- (app_nil_r (lit "/data")) in H at 2.
        apply app_inv_head in H; discriminate. }
      pose proof (present_nil_param filters Hnil) as Hnone.
      repeat split;
        match goal with
        | |- sent_list (regions _) = _ => rewrite <- (Hnone (lit "regions"))
        | |- sent_list (categories _) = _ =>
            rewrite <- (Hnone (lit "categories"))
        | |- sent_list (customerTenure _) = _ =>
            rewrite <- (Hnone (lit "customerTenure"))
        | |- sent_list (customerRecency _) = _ =>
            rewrite <- (Hnone (lit "customerRecency"))
        | |- sent_number (totalTransactionsMin _) = _ =>
            rewrite <- (Hnone (lit "totalTransactionsMin"))
        | |- sent_number (totalTransactionsMax _) = _ =>
            rewrite <- (Hnone (lit "totalTransactionsMax"))
        | |- sent_number (discountMin _) = _ =>
            rewrite <- (Hnone (lit "discountMin"))
        | |- sent_number (discountMax _) = _ =>
            rewrite <- (Hnone (lit "discountMax"))
        | |- sent_timeFilter _ = _ => rewrite <- (Hnone (lit "timeFilter"))
        end;
        rewrite param_dashboardParams; reflexivity.
    + intros (H1 & H2 & H3 & H4 & H5 & H6 & H7 & H8 & H9).
      unfold dashboardUrl, dashboardParams.
      rewrite !(append_list_absent _ _ _ H1), !(append_list_absent _ _ _ H2),
        !(append_list_absent _ _ _ H3), !(append_list_absent _ _ _ H4),
        !(append_number_absent _ _ _ H5), !(append_number_absent _ _ _ H6),
        !(append_number_absent _ _ _ H7), !(append_number_absent _ _ _ H8),
        !(append_timeFilter_absent _ _ H9).
      reflexivity.
  - unfold dashboardUrl.
    destruct (params_toString (dashboardParams filters)) as [|c q] eqn:E.
    + left; reflexivity.
    + right; exists (c :: q); split; [discriminate|].
      reflexivity.
Qed.

(* ------------------------------------------------------------------------- *)
(** ** The send handlers: a round trip *)

(** The part of [handleSendMessage] after the raise of the in-flight flag,
    from any state and whatever the network answers: it ends without a
    throw, has appended exactly one assistant message, has issued exactly
    one request and has lowered the flag; what else there is in the state
    is left as it was. *)
Lemma chatSendAfter_run
    (base : jsstring) (network : Request -> FetchResult)
    (nowISO : nat -> jsstring) (text : jsstring) (busy : World) :
  exists reply time w',
    chatSendAfter base network nowISO text busy = (Return tt, w')
    /\ app w'
       = mkAppState (currentPage (app busy))
           (chatMessages (app busy)
              ++ [mkMessage assistant reply time JUndefined])
           (chatInput (app busy)) false (chatHistoryLoaded (app busy))
           (graphChatMessages (app busy)) (graphChatInput (app busy))
           (graphChatLoading (app busy)) (graphChatHistoryLoaded (app busy))
    /\ sent w'
       = sent busy ++ [POST (base ++ lit "/text/analyze")
                         (obj [("user_message", JStr text)])].
Proof.
  unfold chatSendAfter, analyzeText; run_handler.
  split_answers;
    do 3 eexists; (split; [reflexivity|]); cbn; split; reflexivity.
Qed.

(** The same for [handleSendGraphMessage]; the charts of the assistant
    message are never a falsy value. *)
Lemma graphSendAfter_run
    (base : jsstring) (network : Request -> FetchResult)
    (nowISO : nat -> jsstring) (text : jsstring) (busy : World) :
  exists reply time chartList w',
    graphSendAfter base network nowISO text busy = (Return tt, w')
    /\ app w'
       = mkAppState (currentPage (app busy)) (chatMessages (app busy))
           (chatInput (app busy)) (chatLoading (app busy))
           (chatHistoryLoaded (app busy))
           (graphChatMessages (app busy)
              ++ [mkMessage assistant (JStr reply) time chartList])
           (graphChatInput (app busy)) false
           (graphChatHistoryLoaded (app busy))
    /\ truthy chartList = true
    /\ sent w' = sent busy ++ [graphRequest base text].
Proof.
  unfold graphSendAfter, graphRequest; run_handler.
  split_answers;
    do 4 eexists; (split; [reflexivity|]); cbn;
    (split; [reflexivity|]);
    (split; [first [reflexivity | apply js_or_truthy; reflexivity]|]);
    reflexivity.
Qed.

(** Whatever the network answers, a send on the analysis thread that the
    guard lets through ends without a throw and has appended exactly two
    messages: the user's, whose content is the trimmed input and whose time
    is the client's, and one assistant message.  It has emptied the input,
    cleared the in-flight flag, issued exactly one request, and left the
    page, the history flag and the chart thread as they were.  The flag is
    true in the state [raised] the handler is in when it calls
    [APIClient.analyzeText] (line 438), the handler ends as its part after
    the raise does from that state, and from every state in which the flag
    is true that part ends with the flag false (line 455). *)
Theorem handleSendMessage_round_trip
    (base : jsstring) (network : Request -> FetchResult)
    (nowISO : nat -> jsstring) (w : World) :
  let text := trim (chatInput (app w)) in
  let req := POST (base ++ lit "/text/analyze")
               (obj [("user_message", JStr text)]) in
  is_empty text = false ->
  chatLoading (app w) = false ->
  exists reply time w' raised,
    handleSendMessage base network nowISO w = (Return tt, w')
    /\ chatMessages (app w')
       = chatMessages (app w)
         ++ [mkMessage user (JStr text) (JStr (nowISO (ticks w))) JUndefined;
             mkMessage assistant reply time JUndefined]
    /\ chatInput (app w') = []
    /\ chatLoading (app w') = false
    /\ sent w' = sent w ++ [req]
    /\ currentPage (app w') = currentPage (app w)
    /\ chatHistoryLoaded (app w') = chatHistoryLoaded (app w)
    /\ graphChatMessages (app w') = graphChatMessages (app w)
    /\ graphChatInput (app w') = graphChatInput (app w)
    /\ graphChatLoading (app w') = graphChatLoading (app w)
    /\ chatSendBefore nowISO text w = (Return tt, raised)
    /\ chatLoading (app raised) = true
    /\ chatSendAfter base network nowISO text raised = (Return tt, w')
    /\ forall busy : World,
         chatLoading (app busy) = true ->
         exists done,
           chatSendAfter base network nowISO text busy = (Return tt, done)
           /\ chatLoading (app done) = false.
Proof.
  intros text req Htext Hidle; subst req.
  rewrite (handleSendMessage_split base network nowISO w Htext Hidle).
  fold text.
  destruct (chatSendAfter_run base network nowISO text
              (snd (chatSendBefore nowISO text w)))
    as (reply & time & w' & Hrun & Happ & Hsent).
  exists reply, time, w', (snd (chatSendBefore nowISO text w)).
  split; [exact Hrun|].
  rewrite Happ, Hsent; cbn.
  rewrite <- app_assoc.
  repeat split; try reflexivity; try exact Hrun.
  intros busy _.
  destruct (chatSendAfter_run base network nowISO text busy)
    as (reply' & time' & done & Hrun' & Happ' & _).
  exists done; split; [exact Hrun'|].
  rewrite Happ'; reflexivity.
Qed.

Lemma handleSendMessage_round_trip_witness :
  exists reply time w',
    handleSendMessage localhost offline sampleClock (world typingState)
    = (Return tt, w')
    /\ chatMessages (app w')
       = [mkMessage user (JStr (lit "total revenue?")) (JStr (lit "T0"))
            JUndefined;
          mkMessage assistant reply time JUndefined].
Proof.
  destruct (handleSendMessage_round_trip localhost offline sampleClock
              (world typingState) eq_refl eq_refl)
    as (reply & time & w' & raised & H & Hm & _).
  exists reply, time, w'; split; [exact H | exact Hm].
Defined.

(** The same holds on the chart thread, whatever the network answers and
    whatever the body is: exactly the user's message and one assistant
    message are appended, the input is emptied, the in-flight flag is
    cleared, one request is issued, and the analysis thread is left as it
    was.  The flag is true in the state [raised] the handler is in when it
    issues the request (line 484), the handler ends as its part after the
    raise does from that state, and from every state in which the flag is
    true that part ends with the flag false (line 516). *)
Theorem handleSendGraphMessage_round_trip
    (base : jsstring) (network : Request -> FetchResult)
    (nowISO : nat -> jsstring) (w : World) :
  let text := trim (graphChatInput (app w)) in
  is_empty text = false ->
  graphChatLoading (app w) = false ->
  exists reply time chartList w' raised,
    handleSendGraphMessage base network nowISO w = (Return tt, w')
    /\ graphChatMessages (app w')
       = graphChatMessages (app w)
         ++ [mkMessage user (JStr text) (JStr (nowISO (ticks w))) JUndefined;
             mkMessage assistant (JStr reply) time chartList]
    /\ truthy chartList = true
    /\ graphChatInput (app w') = []
    /\ graphChatLoading (app w') = false
    /\ sent w' = sent w ++ [graphRequest base text]
    /\ currentPage (app w') = currentPage (app w)
    /\ graphChatHistoryLoaded (app w') = graphChatHistoryLoaded (app w)
    /\ chatMessages (app w') = chatMessages (app w)
    /\ chatInput (app w') = chatInput (app w)
    /\ chatLoading (app w') = chatLoading (app w)
    /\ graphSendBefore nowISO text w = (Return tt, raised)
    /\ graphChatLoading (app raised) = true
    /\ graphSendAfter base network nowISO text raised = (Return tt, w')
    /\ forall busy : World,
         graphChatLoading (app busy) = true ->
         exists done,
           graphSendAfter base network nowISO text busy = (Return tt, done)
           /\ graphChatLoading (app done) = false.
Proof.
  intros text Htext Hidle.
  rewrite (handleSendGraphMessage_split base network nowISO w Htext Hidle).
  fold text.
  destruct (graphSendAfter_run base network nowISO text
              (snd (graphSendBefore nowISO text w)))
    as (reply & time & chartList & w' & Hrun & Happ & Hcharts & Hsent).
  exists reply, time, chartList, w', (snd (graphSendBefore nowISO text w)).
  split; [exact Hrun|].
  rewrite Happ, Hsent; cbn.
  rewrite <- app_assoc.
  repeat split; try reflexivity; try exact Hrun; try exact Hcharts.
  intros busy _.
  destruct (graphSendAfter_run base network nowISO text busy)
    as (reply' & time' & charts' & done & Hrun' & Happ' & _).
  exists done; split; [exact Hrun'|].
  rewrite Happ'; reflexivity.
Qed.

Lemma handleSendGraphMessage_round_trip_witness :
  exists reply time chartList w',
    handleSendGraphMessage localhost (htmlServer 502) sampleClock
      (world askingState)
    = (Return tt, w')
    /\ graphChatMessages (app w')
       = [mkMessage user (JStr (lit "revenue by month")) (JStr (lit "T0"))
            JUndefined;
          mkMessage assistant (JStr reply) time chartList].
Proof.
  destruct (handleSendGraphMessage_round_trip localhost (htmlServer 502)
              sampleClock (world askingState) eq_refl eq_refl)
    as (reply & time & chartList & w' & raised & H & Hm & _).
  exists reply, time, chartList, w'; split; [exact H | exact Hm].
Defined.

(** On the analysis thread a status outside 200-299 is reported by its
    number, whatever the body of the response says: the assistant message
    reads "Sorry, I ran into an issue: API error: " followed by the
    status. *)
Theorem handleSendMessage_status_error
    (base : jsstring) (network : Request -> FetchResult)
    (nowISO : nat -> jsstring) (w : World) (r : Response) :
  let text := trim (chatInput (app w)) in
  is_empty text = false ->
  chatLoading (app w) = false ->
  network (POST (base ++ lit "/text/analyze")
             (obj [("user_message", JStr text)])) = FetchResponse r ->
  ok r = false ->
  exists w',
    handleSendMessage base network nowISO w = (Return tt, w')
    /\ chatMessages (app w')
       = chatMessages (app w)
         ++ [mkMessage user (JStr text) (JStr (nowISO (ticks w))) JUndefined;
             mkMessage assistant
               (JStr (lit "Sorry, I ran into an issue: API error: "
                        ++ decimal_of_N (status r)))
               (JStr (nowISO (S (ticks w)))) JUndefined]
    /\ chatLoading (app w') = false.
Proof.
  intros text Htext Hidle Hnet Hok.
  unfold handleSendMessage.
  unfold bind at 1; unfold getState at 1.
  fold text; rewrite Htext, Hidle; cbv [orb].
  unfold analyzeText; run_handler.
  rewrite Hnet, Hok; cbn.
  eexists; split; [reflexivity|]; cbn.
  rewrite <- app_assoc; split; reflexivity.
Qed.

Lemma handleSendMessage_status_error_witness :
  exists w',
    handleSendMessage localhost confusedServer sampleClock (world typingState)
    = (Return tt, w')
    /\ chatMessages (app w')
       = [mkMessage user (JStr (lit "total revenue?")) (JStr (lit "T0"))
            JUndefined;
          mkMessage assistant
            (JStr (lit "Sorry, I ran into an issue: API error: 500"))
            (JStr (lit "T1")) JUndefined].
Proof.
  destruct (handleSendMessage_status_error localhost confusedServer
              sampleClock (world typingState)
              (mkResponse 500 (lit "")
                 (JsonOk
                    (obj [("success", JBool true);
                          ("history",
                           JArr [obj [("user_message", JStr (lit "q1"));
                                      ("created_at", JStr morningISO)]])])))
              eq_refl eq_refl eq_refl eq_refl)
    as (w' & H & Hm & _).
  exists w'; split; [exact H | exact Hm].
Defined.

(* ------------------------------------------------------------------------- *)
(** ** The text that is sent *)

Lemma trimStart_split (s : jsstring) :
  exists pre,
    s = pre ++ trimStart s /\ whitespace_only pre = true
    /\ (forall c rest, trimStart s = c :: rest -> is_whitespace c = false).
Proof.
  induction s as [|c s (pre & Hs & Hpre & Hhead)]; simpl.
  - exists []; repeat split; [discriminate].
  - destruct (is_whitespace c) eqn:Hc.
    + exists (c :: pre); simpl; rewrite Hc, Hpre, <- Hs.
      repeat split; assumption.
    + exists []; simpl; repeat split.
      intros c' rest H; inversion H; subst; assumption.
Qed.

Lemma whitespace_only_rev (s : jsstring) :
  whitespace_only (rev s) = whitespace_only s.
Proof.
  unfold whitespace_only; induction s as [|c s IH]; simpl; [reflexivity|].
  rewrite forallb_app, IH; simpl.
  rewrite andb_true_r, andb_comm; reflexivity.
Qed.

(** The text a send handler works with is the typed input without the
    white space at its two ends, and nothing else is removed: the input is
    white space, then the text, then white space, and a non-empty text
    neither begins nor ends with a white-space character. *)
Theorem trim_keeps_the_middle (input : jsstring) :
  exists pre post,
    input = pre ++ trim input ++ post
    /\ whitespace_only pre = true /\ whitespace_only post = true
    /\ (forall c rest, trim input = c :: rest -> is_whitespace c = false)
    /\ (forall rest c, trim input = rest ++ [c] -> is_whitespace c = false).
Proof.
  destruct (trimStart_split input) as (pre & Hs & Hpre & Hhead).
  destruct (trimStart_split (rev (trimStart input)))
    as (tsop & Hr & Hpost & Hlast).
  exists pre, (rev tsop).
  assert (Hmid : trimStart input = trim input ++ rev tsop).
  { unfold trim, trimEnd.
    rewrite <- rev_app_distr, <- Hr, rev_involutive; reflexivity. }
  repeat split.
  - rewrite <- Hmid; exact Hs.
  - exact Hpre.
  - rewrite whitespace_only_rev; exact Hpost.
  - intros c rest H.
    rewrite H in Hmid; simpl in Hmid.
    exact (Hhead c _ Hmid).
  - intros rest c H.
    unfold trim, trimEnd in H.
    apply (f_equal (@rev N)) in H.
    rewrite rev_involutive, rev_app_distr in H; simpl in H.
    exact (Hlast c _ H).
Qed.

(* ------------------------------------------------------------------------- *)
(** ** History hydration: what is loaded *)

Lemma forRows_chatRow (rows : list (list (jsstring * jsval))) (w : World) :
  forRows chatRow (map JObj rows) w = (Return (flat_map chatPair rows), w).
Proof.
  induction rows as [|row rows IH]; [reflexivity|].
  simpl map; cbn [forRows]; unfold bind at 1.
  change (chatRow (JObj row) w) with (Return (chatPair row), w).
  cbv iota beta.
  unfold bind at 1; rewrite IH; reflexivity.
Qed.

Lemma forRows_graphRow (rows : list (list (jsstring * jsval))) (w : World) :
  forRows graphRow (map JObj rows) w
  = (Return (map (fun row =>
                    mkMessage user (lookup (lit "user_message") row)
                      (lookup (lit "created_at") row) JUndefined) rows), w).
Proof.
  induction rows as [|row rows IH]; [reflexivity|].
  simpl map; cbn [forRows]; unfold bind at 1.
  change (graphRow (JObj row) w)
    with (Return [mkMessage user (lookup (lit "user_message") row)
                    (lookup (lit "created_at") row) JUndefined], w).
  cbv iota beta.
  unfold bind at 1; rewrite IH; reflexivity.
Qed.

Lemma chatPair_length (rows : list (list (jsstring * jsval))) :
  List.length (flat_map chatPair rows) = 2 * List.length rows.
Proof.
  induction rows as [|x l IH]; [reflexivity|].
  change (flat_map chatPair (x :: l)) with (chatPair x ++ flat_map chatPair l).
  rewrite length_app, IH; simpl; lia.
Qed.

Lemma num_gt0_length {A} (x : A) (l : list A) :
  num_gt0 (num_of_nat (List.length (x :: l))) = true.
Proof. unfold num_of_nat, num_gt0; apply Z.ltb_lt; simpl List.length; lia. Qed.

(** When the chat history arrives with a 2xx status, a truthy [success]
    and a non-empty array of row objects, the analysis thread becomes the
    expansion of the rows in order, each row giving the user's question and
    then the assistant's answer with the row's [created_at] as the time of
    both: twice as many messages as rows, replacing what the thread held.
    The history is marked as loaded and nothing throws. *)
Theorem loadChatHistory_expands_rows
    (base : jsstring) (network : Request -> FetchResult)
    (StringToNumber : jsstring -> number) (w : World) (r : Response)
    (data : list (jsstring * jsval))
    (row : list (jsstring * jsval)) (rows : list (list (jsstring * jsval))) :
  currentPage (app w) = lit "text" ->
  chatHistoryLoaded (app w) = false ->
  network (chatHistoryRequest base) = FetchResponse r ->
  ok r = true ->
  body r = JsonOk (JObj data) ->
  truthy (lookup (lit "success") data) = true ->
  lookup (lit "history") data = JArr (map JObj (row :: rows)) ->
  exists w',
    loadChatHistory base network StringToNumber w = (Return tt, w')
    /\ chatMessages (app w') = flat_map chatPair (row :: rows)
    /\ List.length (chatMessages (app w')) = 2 * List.length (row :: rows)
    /\ chatHistoryLoaded (app w') = true
    /\ sent w' = sent w ++ [chatHistoryRequest base].
Proof.
  intros Hpage Hnot Hnet Hok Hbody Hsuccess Hhistory.
  unfold chatHistoryRequest in *.
  unfold loadChatHistory.
  unfold bind at 1; unfold getState at 1.
  rewrite Hpage, Hnot; simpl (_ && _); cbv iota.
  unfold fetchChatHistory; run_handler.
  rewrite Hnet, Hok; cbn -[map]; rewrite Hbody; cbn -[map].
  rewrite Hsuccess, Hhistory; cbn -[map forRows flat_map].
  change (jsstring_eqb (lit "length") (lit "length")) with true; cbv iota.
  unfold js_gt0, ToNumber; rewrite length_map, num_gt0_length.
  unfold eachRow; rewrite forRows_chatRow.
  eexists; split; [reflexivity|]; cbn -[flat_map].
  repeat split; try reflexivity.
  apply chatPair_length.
Qed.

Lemma loadChatHistory_expands_rows_witness :
  exists w',
    loadChatHistory localhost
      (respond 200
         (obj [("success", JBool true);
               ("history",
                JArr [obj [("user_message", JStr (lit "q1"));
                           ("assistant_response", JStr (lit "a1"));
                           ("created_at", JStr morningISO)]])]))
      (fun _ => NaN) (world (emptyState "text"))
    = (Return tt, w')
    /\ chatMessages (app w')
       = [mkMessage user (JStr (lit "q1")) (JStr morningISO) JUndefined;
          mkMessage assistant (JStr (lit "a1")) (JStr morningISO) JUndefined].
Proof.
  destruct (loadChatHistory_expands_rows localhost
              (respond 200
                 (obj [("success", JBool true);
                       ("history",
                        JArr [obj [("user_message", JStr (lit "q1"));
                                   ("assistant_response", JStr (lit "a1"));
                                   ("created_at", JStr morningISO)]])]))
              (fun _ => NaN) (world (emptyState "text"))
              _ _ _ [] eq_refl eq_refl eq_refl eq_refl eq_refl eq_refl
              eq_refl)
    as (w' & H & Hm & _).
  exists w'; split; [exact H | exact Hm].
Defined.

Lemma graphPair_interleaved (rows : list (list (jsstring * jsval))) :
  flat_map (fun m => [m; placeholder m])
    (map (fun row =>
            mkMessage user (lookup (lit "user_message") row)
              (lookup (lit "created_at") row) JUndefined) rows)
  = flat_map graphPair rows.
Proof.
  induction rows as [|x l IH]; [reflexivity|].
  simpl; rewrite IH; reflexivity.
Qed.

(** When the graph history arrives with a truthy [success] and a non-empty
    array of row objects, the chart thread becomes, row by row, the user's
    question followed by the "Charts were generated" placeholder, both with
    the row's [created_at] as their time and the placeholder with an empty
    array of charts.  The history is marked as loaded. *)
Theorem loadGraphHistory_expands_rows
    (base : jsstring) (network : Request -> FetchResult)
    (StringToNumber : jsstring -> number) (w : World) (r : Response)
    (data : list (jsstring * jsval))
    (row : list (jsstring * jsval)) (rows : list (list (jsstring * jsval))) :
  currentPage (app w) = lit "graphs" ->
  graphChatHistoryLoaded (app w) = false ->
  network (graphHistoryRequest base) = FetchResponse r ->
  body r = JsonOk (JObj data) ->
  truthy (lookup (lit "success") data) = true ->
  lookup (lit "history") data = JArr (map JObj (row :: rows)) ->
  exists w',
    loadGraphHistory base network StringToNumber w = (Return tt, w')
    /\ graphChatMessages (app w') = flat_map graphPair (row :: rows)
    /\ graphChatHistoryLoaded (app w') = true
    /\ sent w' = sent w ++ [graphHistoryRequest base].
Proof.
  intros Hpage Hnot Hnet Hbody Hsuccess Hhistory.
  unfold graphHistoryRequest in *.
  unfold loadGraphHistory.
  unfold bind at 1; unfold getState at 1.
  rewrite Hpage, Hnot; simpl (_ && _); cbv iota.
  run_handler.
  rewrite Hnet; cbn -[map]; rewrite Hbody; cbn -[map].
  rewrite Hsuccess, Hhistory; cbn -[map forRows flat_map].
  change (jsstring_eqb (lit "length") (lit "length")) with true; cbv iota.
  unfold js_gt0, ToNumber; rewrite length_map, num_gt0_length.
  unfold eachRow; rewrite forRows_graphRow.
  eexists; split; [reflexivity|]; cbn -[flat_map map].
  repeat split; try reflexivity.
  apply graphPair_interleaved.
Qed.

Lemma loadGraphHistory_expands_rows_witness :
  exists w',
    loadGraphHistory localhost
      (respond 200
         (obj [("success", JBool true);
               ("history",
                JArr [obj [("user_message", JStr (lit "q1"));
                           ("created_at", JStr morningISO)]])]))
      (fun _ => NaN) (world (emptyState "graphs"))
    = (Return tt, w')
    /\ graphChatMessages (app w')
       = [mkMessage user (JStr (lit "q1")) (JStr morningISO) JUndefined;
          placeholder
            (mkMessage user (JStr (lit "q1")) (JStr morningISO) JUndefined)].
Proof.
  destruct (loadGraphHistory_expands_rows localhost
              (respond 200
                 (obj [("success", JBool true);
                       ("history",
                        JArr [obj [("user_message", JStr (lit "q1"));
                                   ("created_at", JStr morningISO)]])]))
              (fun _ => NaN) (world (emptyState "graphs"))
              _ _ _ [] eq_refl eq_refl eq_refl eq_refl eq_refl eq_refl)
    as (w' & H & Hm & _).
  exists w'; split; [exact H | exact Hm].
Defined.

Lemma loadChatHistory_skips
    (base : jsstring) (network : Request -> FetchResult)
    (StringToNumber : jsstring -> number) (w : World) :
  currentPage (app w) <> lit "text" \/ chatHistoryLoaded (app w) = true ->
  loadChatHistory base network StringToNumber w = (Return tt, w).
Proof.
  intros H; unfold loadChatHistory; unfold bind at 1; unfold getState at 1.
  destruct H as [H | H].
  - destruct (jsstring_eqb (currentPage (app w)) (lit "text")) eqn:E;
      [apply jsstring_eqb_eq in E; contradiction | reflexivity].
  - rewrite H, andb_false_r; reflexivity.
Qed.

Lemma loadGraphHistory_skips
    (base : jsstring) (network : Request -> FetchResult)
    (StringToNumber : jsstring -> number) (w : World) :
  currentPage (app w) <> lit "graphs"
  \/ graphChatHistoryLoaded (app w) = true ->
  loadGraphHistory base network StringToNumber w = (Return tt, w).
Proof.
  intros H; unfold loadGraphHistory; unfold bind at 1; unfold getState at 1.
  destruct H as [H | H].
  - destruct (jsstring_eqb (currentPage (app w)) (lit "graphs")) eqn:E;
      [apply jsstring_eqb_eq in E; contradiction | reflexivity].
  - rewrite H, andb_false_r; reflexivity.
Qed.

(** The history effects are guarded: on another page, or once the history
    is marked as loaded, they do nothing at all, and issue no request. *)
Theorem history_effects_guarded
    (base : jsstring) (network : Request -> FetchResult)
    (StringToNumber : jsstring -> number) (w : World) :
  (currentPage (app w) <> lit "text" \/ chatHistoryLoaded (app w) = true ->
   loadChatHistory base network StringToNumber w = (Return tt, w))
  /\ (currentPage (app w) <> lit "graphs"
      \/ graphChatHistoryLoaded (app w) = true ->
      loadGraphHistory base network StringToNumber w = (Return tt, w)).
Proof.
  split; [apply loadChatHistory_skips | apply loadGraphHistory_skips].
Qed.

Lemma history_effects_guarded_witness :
  loadChatHistory localhost confusedServer (fun _ => NaN) (world busyState)
  = (Return tt, world busyState)
  /\ loadGraphHistory localhost confusedServer (fun _ => NaN)
       (world busyState)
     = (Return tt, world busyState).
Proof.
  split.
  - apply (proj1 (history_effects_guarded localhost confusedServer
                    (fun _ => NaN) (world busyState))).
    right; reflexivity.
  - apply (proj2 (history_effects_guarded localhost confusedServer
                    (fun _ => NaN) (world busyState))).
    left; discriminate.
Defined.

(** The callbacks of the graph-history request, from any state and for any
    answer: they end without a throw, issue no request, leave the page as it
    is and set the flag. *)
Lemma graphHistorySettled_run
    (StringToNumber : jsstring -> number) (answer : FetchResult)
    (busy : World) :
  exists settled,
    graphHistorySettled StringToNumber answer busy = (Return tt, settled)
    /\ graphChatHistoryLoaded (app settled) = true
    /\ currentPage (app settled) = currentPage (app busy)
    /\ sent settled = sent busy.
Proof.
  unfold graphHistorySettled; run_handler.
  destruct answer as [e | r];
    [eexists; split; [reflexivity|]; repeat split|].
  destruct (body r) as [e | data];
    [eexists; split; [reflexivity|]; repeat split|].
  destruct (get_prop data (lit "success")) as [success | e];
    [|eexists; split; [reflexivity|]; repeat split].
  destruct (truthy success);
    [|eexists; split; [reflexivity|]; repeat split].
  destruct (get_prop data (lit "history")) as [history | e];
    [|eexists; split; [reflexivity|]; repeat split].
  destruct (truthy history);
    [|eexists; split; [reflexivity|]; repeat split].
  destruct (get_prop history (lit "length")) as [len | e];
    [|eexists; split; [reflexivity|]; repeat split].
  destruct (js_gt0 StringToNumber len);
    [|eexists; split; [reflexivity|]; repeat split].
  unfold eachRow.
  destruct history as [ | | | | | rows | ];
    try (eexists; split; [reflexivity|]; repeat split).
  match goal with
  | |- context [forRows graphRow rows ?w1] =>
      pose proof (forRows_world graphRow graphRow_world rows w1) as Hw;
      destruct (forRows graphRow rows w1) as [[loaded | e] w2];
      simpl in Hw; subst w2;
      (eexists; split; [reflexivity|]; repeat split)
  end.
Qed.

(** The graph-history effect sets its flag in the callbacks of the request
    (lines 366 and 368), not when it issues the request.  On the graph page
    with the flag unset, the body of the effect issues the request and
    leaves the state as it was, so that the effect run again before the
    answer has been handled issues the request a second time.  Whatever the
    answer, the callbacks end without a throw with the flag set, and the
    effect run after them issues no request.  The effect run to completion
    is its body followed by the callbacks on the network's answer. *)
Theorem graphHistory_flag_set_on_answer
    (base : jsstring) (network : Request -> FetchResult)
    (StringToNumber : jsstring -> number) (w : World) :
  let req := graphHistoryRequest base in
  currentPage (app w) = lit "graphs" ->
  graphChatHistoryLoaded (app w) = false ->
  exists pending again,
    graphHistoryEffect base w = (Return true, pending)
    /\ app pending = app w
    /\ sent pending = sent w ++ [req]
    /\ graphHistoryEffect base pending = (Return true, again)
    /\ sent again = sent w ++ [req; req]
    /\ (forall (answer : FetchResult) (busy : World),
          exists settled,
            graphHistorySettled StringToNumber answer busy
            = (Return tt, settled)
            /\ graphChatHistoryLoaded (app settled) = true
            /\ sent settled = sent busy
            /\ graphHistoryEffect base settled = (Return false, settled))
    /\ loadGraphHistory base network StringToNumber w
       = graphHistorySettled StringToNumber (network req) pending.
Proof.
  intros req Hpage Hnot; subst req; unfold graphHistoryRequest.
  assert (Hopen : forall v : World,
            app v = app w ->
            graphHistoryEffect base v
            = (Return true,
               mkWorld (app v)
                 (sent v ++ [GET (base ++ lit "/graphs/history?limit=20")])
                 (ticks v))).
  { intros v Hv. rewrite <- Hv in Hpage, Hnot.
    unfold graphHistoryEffect.
    unfold bind at 1; unfold getState at 1.
    rewrite Hpage, Hnot; simpl (_ && _); cbv iota.
    reflexivity. }
  eexists; eexists.
  split; [apply Hopen; reflexivity|].
  split; [reflexivity|].
  split; [reflexivity|].
  split; [apply Hopen; reflexivity|].
  split; [cbn; rewrite <- app_assoc; reflexivity|].
  split.
  - intros answer busy.
    destruct (graphHistorySettled_run StringToNumber answer busy)
      as (settled & Hrun & Hflag & _ & Hsent).
    exists settled; repeat split; try assumption.
    unfold graphHistoryEffect.
    unfold bind at 1; unfold getState at 1.
    rewrite Hflag, andb_false_r; reflexivity.
  - unfold loadGraphHistory, graphHistorySettled.
    unfold bind at 1; unfold getState at 1.
    rewrite Hpage, Hnot; simpl (_ && _); cbv iota.
    unfold try_catch, bind at 1 6, fetch, lift at 1.
    destruct (network _) as [e | r]; reflexivity.
Qed.

Lemma graphHistory_flag_set_on_answer_witness :
  exists pending again,
    graphHistoryEffect localhost graphPage = (Return true, pending)
    /\ graphHistoryEffect localhost pending = (Return true, again)
    /\ sent again
       = [graphHistoryRequest localhost; graphHistoryRequest localhost].
Proof.
  destruct (graphHistory_flag_set_on_answer localhost offline (fun _ => NaN)
              graphPage eq_refl eq_refl)
    as (pending & again & H1 & _ & _ & H2 & H3 & _).
  exists pending, again; repeat split; assumption.
Defined.

(* ------------------------------------------------------------------------- *)
(** ** The chart normaliser: the other outcomes *)

(** The renderer throws on a chart object in one case only: the chart is
    not of type "error" and its data is a non-empty array whose first row
    is [null] (or [undefined]), of which [Object.keys] cannot be taken.  In
    every other case it returns a card. *)
Theorem renderChart_throws_iff (props : list (jsstring * jsval)) :
  (exists e, renderChart (JObj props) = Throw e)
  <-> is_string (lookup (lit "chart_type") props) (lit "error") = false
      /\ exists first rest,
           lookup (lit "data") props = JArr (first :: rest)
           /\ (first = JNull \/ first = JUndefined).
Proof.
  split.
  - intros [e H].
    unfold renderChart in H; simpl in H.
    destruct (is_string (lookup (lit "chart_type") props) (lit "error"));
      [discriminate|].
    split; [reflexivity|].
    destruct (lookup (lit "data") props) as [ | | b | n | s | items | o ]
      eqn:Hdata; simpl in H; rewrite ?orb_true_r in H; try discriminate.
    destruct items as [|first rest]; simpl in H; [discriminate|].
    unfold deriveKeys in H; simpl in H; rewrite Hdata in H; simpl in H.
    exists first, rest; split; [reflexivity|].
    destruct first; simpl in H; auto;
      repeat match type of H with
             | context [if ?c then _ else _] => destruct c
             end; discriminate.
  - intros [Htype (first & rest & Hdata & Hfirst)].
    unfold renderChart; simpl; rewrite Htype, Hdata; simpl.
    unfold deriveKeys; simpl; rewrite Hdata; simpl.
    destruct Hfirst as [-> | ->]; simpl; eexists; reflexivity.
Qed.

(** A row with fewer than two columns cannot be charted unless the chart
    names a y column of the row: when [chart_type] is not "error", the
    first row is a record of at most one column and [yKey] is not the name
    of one, the renderer returns the "could not determine chart columns"
    card listing the row's columns. *)
Theorem renderChart_too_few_columns
    (props row : list (jsstring * jsval)) (rest : list jsval) :
  is_string (lookup (lit "chart_type") props) (lit "error") = false ->
  lookup (lit "data") props = JArr (JObj row :: rest) ->
  List.length row <= 1 ->
  includes_value (map fst row) (lookup (lit "yKey") props) = false ->
  renderChart (JObj props)
  = Return (NoColumnsCard (lookup (lit "title") props) (map fst row)).
Proof.
  intros Htype Hdata Hlen Hy.
  unfold renderChart; simpl; rewrite Htype, Hdata; simpl.
  unfold deriveKeys; simpl; rewrite Hdata; simpl.
  unfold chooseKey at 2; rewrite Hy, andb_false_r.
  assert (Hk : key_at (map fst row) 1 = JUndefined).
  { destruct row as [|kv [|kv' row]]; simpl in Hlen; try reflexivity; lia. }
  rewrite Hk; simpl; rewrite orb_true_r; reflexivity.
Qed.

Lemma renderChart_too_few_columns_witness :
  renderChart
    (obj [("title", JStr (lit "Total"));
          ("chart_type", JStr (lit "bar"));
          ("data", JArr [obj [("total", JNum (Dec 42 0))]])])
  = Return (NoColumnsCard (JStr (lit "Total")) [lit "total"]).
Proof.
  apply (renderChart_too_few_columns
           [(lit "title", JStr (lit "Total"));
            (lit "chart_type", JStr (lit "bar"));
            (lit "data", JArr [obj [("total", JNum (Dec 42 0))]])]
           [(lit "total", JNum (Dec 42 0))] []);
    [reflexivity | reflexivity | simpl; lia | reflexivity].
Defined.

(** A chart whose [chart_type] is not "error", whose first row has two
    named columns and which names no columns itself is drawn with the first
    column as x and the second as y.
    The kind of chart depends on [chart_type] only through three names:
    "pie" gives a pie chart, "line" and "area" alike give a line chart, and
    everything else, a missing or unknown type included, gives a bar chart.
    The x-axis labels are turned by 35 degrees exactly when there are more
    than 8 rows. *)
Theorem renderChart_plan
    (props row : list (jsstring * jsval)) (rest : list jsval)
    (x y : jsstring) (vx vy : jsval) :
  is_string (lookup (lit "chart_type") props) (lit "error") = false ->
  lookup (lit "data") props = JArr (JObj ((x, vx) :: (y, vy) :: row) :: rest) ->
  lookup (lit "xKey") props = JUndefined ->
  lookup (lit "yKey") props = JUndefined ->
  is_empty x = false -> is_empty y = false ->
  let kind := js_or (lookup (lit "chart_type") props) (JStr (lit "bar")) in
  let rows := JObj ((x, vx) :: (y, vy) :: row) :: rest in
  let many := Nat.ltb 8 (List.length rows) in
  let axis :=
    mkAxis (JStr x) (if many then (-35)%Z else 0%Z)
      (if many then lit "end" else lit "middle")
      (if many then 60%Z else 30%Z) in
  renderChart (JObj props)
  = Return
      (ChartCard (lookup (lit "title") props)
         (if is_string kind (lit "pie") then PiePlan rows (JStr y) (JStr x)
          else if is_string kind (lit "line") || is_string kind (lit "area")
               then LinePlan rows axis (JStr y)
               else BarPlan rows axis (JStr y))).
Proof.
  intros Htype Hdata Hx Hy Hxne Hyne kind rows many axis.
  unfold renderChart; simpl; rewrite Htype, Hdata.
  cbn [truthy isArray negb orb elements List.length Nat.eqb].
  unfold deriveKeys; simpl get_prop; rewrite Hdata, Hx, Hy; simpl.
  unfold chooseKey; simpl.
  destruct x as [|cx x']; [discriminate|].
  destruct y as [|cy y']; [discriminate|].
  simpl.
  fold kind.
  destruct (is_string kind (lit "pie")); [reflexivity|].
  destruct (is_string kind (lit "line") || is_string kind (lit "area"));
    reflexivity.
Qed.

Lemma renderChart_plan_witness :
  renderChart monthlyChart
  = Return
      (ChartCard (JStr (lit "Revenue"))
         (BarPlan
            [obj [("month", JStr (lit "Jan")); ("revenue", JNum (Dec 100 0))]]
            (mkAxis (JStr (lit "month")) 0 (lit "middle") 30)
            (JStr (lit "revenue")))).
Proof.
  apply (renderChart_plan
           [(lit "title", JStr (lit "Revenue"));
            (lit "chart_type", JStr (lit "bar"));
            (lit "data", JArr [obj [("month", JStr (lit "Jan"));
                                    ("revenue", JNum (Dec 100 0))]])]
           [] [] (lit "month") (lit "revenue")
           (JStr (lit "Jan")) (JNum (Dec 100 0)));
    reflexivity.
Defined.

(* ------------------------------------------------------------------------- *)
(** ** The grouping of the chat messages: invariants *)

Section GroupingInvariants.

Variable toDateString : jsval -> jsstring.
Variable toLocaleDateString : jsval -> jsstring.
Variable today : jsstring.

Let label (m : Message) : jsstring :=
  formatDate toDateString toLocaleDateString today (timestamp m).
Let grouped := chatGroupedMessages toDateString toLocaleDateString today.

Lemma grouped_step (msgs : list Message) (m : Message) :
  grouped (msgs ++ [m]) =
    grouped msgs
    ++ (if negb (is_empty (label m))
           && differs (label m) (lastDated (map label msgs))
        then [Divider (label m) (List.length msgs)] else [])
    ++ [MessageItem m (List.length msgs)].
Proof. apply grouped_snoc. Qed.

Lemma attached_app_bounded (n : nat) :
  forall a b, List.length a <= n ->
    attached label a -> attached label b -> attached label (a ++ b).
Proof.
  induction n as [|n IH]; intros a b Hlen Ha Hb.
  - destruct a; [assumption | simpl in Hlen; lia].
  - destruct a as [|[l i | m i] a]; simpl in *; [assumption | |].
    + destruct a as [|[l' i' | m j] a]; simpl in *; try contradiction.
      destruct Ha as (H1 & H2 & H3 & Ha).
      repeat split; try assumption.
      apply IH; [lia | assumption | assumption].
    + apply IH; [lia | assumption | assumption].
Qed.

Lemma attached_app (a b : list GroupItem) :
  attached label a -> attached label b -> attached label (a ++ b).
Proof. apply (attached_app_bounded (List.length a)); lia. Qed.

(** Every divider of the grouping stands directly before the message it
    belongs to, under the same index, and carries that message's non-empty
    formatted date: a divider is never the last element and two dividers
    never follow each other. *)
Theorem chatGroupedMessages_attached (msgs : list Message) :
  attached label (grouped msgs).
Proof.
  induction msgs as [|m msgs IH] using rev_ind; [exact I|].
  rewrite grouped_step.
  apply attached_app; [exact IH|].
  destruct (negb (is_empty (label m))
            && differs (label m) (lastDated (map label msgs))) eqn:E;
    simpl; [|exact I].
  apply andb_true_iff in E as [E _].
  repeat split.
  intros H; rewrite H in E; discriminate.
Qed.

Lemma labelsIn_app (a b : list GroupItem) :
  labelsIn (a ++ b) = labelsIn a ++ labelsIn b.
Proof.
  induction a as [|[l i | m i] a IH]; simpl; rewrite ?IH; reflexivity.
Qed.

Lemma lastDated_app1 (labels : list jsstring) (l : jsstring) :
  lastDated (labels ++ [l])
  = if is_empty l then lastDated labels else Some l.
Proof.
  induction labels as [|x labels IH]; simpl.
  - destruct (is_empty l); reflexivity.
  - rewrite IH; destruct (is_empty l); reflexivity.
Qed.

Lemma lastLabel_snoc (labels : list jsstring) (l : jsstring) :
  lastLabel (labels ++ [l]) = Some l.
Proof. unfold lastLabel; rewrite rev_app_distr; reflexivity. Qed.

(** The label of the last divider is the value of [lastDate]. *)
Lemma lastLabel_grouped (msgs : list Message) :
  lastLabel (labelsIn (grouped msgs)) = lastDated (map label msgs).
Proof.
  induction msgs as [|m msgs IH] using rev_ind; [reflexivity|].
  rewrite grouped_step, !labelsIn_app, map_app.
  cbn [map]; rewrite lastDated_app1.
  simpl (labelsIn [MessageItem _ _]); rewrite app_nil_r.
  destruct (is_empty (label m)) eqn:Em; simpl.
  - rewrite app_nil_r; exact IH.
  - destruct (differs (label m) (lastDated (map label msgs))) eqn:Ed; simpl.
    + apply lastLabel_snoc.
    + rewrite app_nil_r, IH.
      destruct (lastDated (map label msgs)) as [d|]; [|discriminate].
      simpl in Ed; apply negb_false_iff, jsstring_eqb_eq in Ed.
      rewrite Ed; reflexivity.
Qed.

Lemma alternating_snoc (labels : list jsstring) (l : jsstring) :
  alternating labels ->
  (forall d, lastLabel labels = Some d -> d <> l) ->
  alternating (labels ++ [l]).
Proof.
  induction labels as [|a labels IH]; intros Halt Hlast; [exact I|].
  destruct labels as [|b labels].
  - simpl; split; [|exact I].
    apply Hlast; reflexivity.
  - destruct Halt as [Hab Halt].
    change ((a :: b :: labels) ++ [l]) with (a :: (b :: labels) ++ [l]).
    change (a <> b /\ alternating ((b :: labels) ++ [l])).
    split; [exact Hab|].
    apply IH; [exact Halt|].
    intros d Hd; apply Hlast.
    unfold lastLabel in *; simpl in *.
    destruct (rev labels ++ [b]) eqn:E;
      [destruct (rev labels); discriminate|].
    simpl in *; exact Hd.
Qed.

(** Two successive dividers of the grouping never carry the same label,
    however many messages without a timestamp lie between them. *)
Theorem chatGroupedMessages_alternating (msgs : list Message) :
  alternating (labelsIn (grouped msgs)).
Proof.
  induction msgs as [|m msgs IH] using rev_ind; [exact I|].
  rewrite grouped_step, !labelsIn_app.
  simpl (labelsIn [MessageItem _ _]); rewrite app_nil_r.
  destruct (negb (is_empty (label m))
            && differs (label m) (lastDated (map label msgs))) eqn:E;
    simpl; [|rewrite app_nil_r; exact IH].
  apply alternating_snoc; [exact IH|].
  intros d Hd Heq.
  rewrite lastLabel_grouped in Hd.
  apply andb_true_iff in E as [_ E].
  rewrite Hd in E; simpl in E.
  apply negb_true_iff in E.
  rewrite Heq, jsstring_eqb_refl in E; discriminate.
Qed.

Lemma itemsFrom_app (a b : list Message) :
  forall idx,
    itemsFrom idx (a ++ b) = itemsFrom idx a ++ itemsFrom (idx + List.length a) b.
Proof.
  induction a as [|m a IH]; intros idx; simpl.
  - rewrite Nat.add_0_r; reflexivity.
  - rewrite IH. replace (S idx + List.length a) with (idx + S (List.length a))
      by lia.
    reflexivity.
Qed.

Lemma lastDated_all (l : jsstring) (labels : list jsstring) :
  is_empty l = false -> labels <> [] ->
  Forall (fun x => x = l) labels -> lastDated labels = Some l.
Proof.
  intros Hl Hne Hall.
  induction Hall as [|x labels Hx Hall IH]; [contradiction|].
  simpl; destruct labels as [|y labels].
  - simpl; rewrite Hx, Hl; reflexivity.
  - rewrite IH; [reflexivity | discriminate].
Qed.

Lemma lastDated_none (labels : list jsstring) :
  Forall (fun x => x = []) labels -> lastDated labels = None.
Proof.
  intros Hall; induction Hall as [|x labels Hx Hall IH]; [reflexivity|].
  simpl; rewrite IH, Hx; reflexivity.
Qed.

(** A conversation whose messages all fall on one day shows a single
    divider, before the first message; a conversation whose messages all
    lack a timestamp shows none. *)
Theorem chatGroupedMessages_one_day (msgs : list Message) (day : jsstring) :
  (is_empty day = false -> msgs <> [] ->
   Forall (fun m => label m = day) msgs ->
   grouped msgs = Divider day 0 :: itemsFrom 0 msgs)
  /\ (Forall (fun m => label m = []) msgs ->
      grouped msgs = itemsFrom 0 msgs).
Proof.
  split.
  - intros Hday Hne Hall.
    induction msgs as [|m msgs IH] using rev_ind; [contradiction|].
    apply Forall_app in Hall as [Hall Hm].
    inversion Hm as [|? ? Hlabel _]; subst.
    rewrite grouped_step, itemsFrom_app, Hday; simpl.
    destruct msgs as [|m0 msgs]; [reflexivity|].
    rewrite (lastDated_all (label m)); try assumption; try discriminate.
    + simpl; rewrite jsstring_eqb_refl; simpl.
      rewrite IH; [reflexivity | discriminate | assumption].
    + apply Forall_map; exact Hall.
  - intros Hall.
    induction msgs as [|m msgs IH] using rev_ind; [reflexivity|].
    apply Forall_app in Hall as [Hall Hm].
    inversion Hm as [|? ? Hlabel _]; subst.
    rewrite grouped_step, itemsFrom_app, Hlabel; simpl.
    rewrite (IH Hall); reflexivity.
Qed.

End GroupingInvariants.

Lemma chatGroupedMessages_one_day_witness :
  chatGroupedMessages sampleToDateString sampleToLocaleDateString sampleToday
    [datedQuestion; datedFollowUp]
  = [Divider (lit "Today") 0; MessageItem datedQuestion 0;
     MessageItem datedFollowUp 1].
Proof.
  apply (proj1 (chatGroupedMessages_one_day
                  sampleToDateString sampleToLocaleDateString sampleToday
                  [datedQuestion; datedFollowUp] (lit "Today")));
    [reflexivity | discriminate | repeat constructor].
Defined.

(* ------------------------------------------------------------------------- *)
(** ** The currency formatter *)

(** [formatCurrency] goes by the value, not the magnitude: a number of at
    least 1,000,000 is shown in millions with one decimal, a number from
    1,000 up to 1,000,000 in thousands with one decimal, and every smaller
    number, every negative amount included, in full with two decimals.
    NaN is shown in full, and a value that is not a number and that
    [parseFloat] cannot read, or reads as 0, is shown as the amount 0. *)
Theorem formatCurrency_by_value (parseFloat : jsval -> number)
    (m : Z) (e : nat) :
  let n := Dec m e in
  let unit := (10 ^ Z.of_nat e)%Z in
  ((1000000 * unit <= m)%Z ->
     formatCurrency parseFloat (JNum n) = MoneyFixed1 n 1000000 (lit "M"))
  /\ ((1000 * unit <= m < 1000000 * unit)%Z ->
        formatCurrency parseFloat (JNum n) = MoneyFixed1 n 1000 (lit "K"))
  /\ ((m < 1000 * unit)%Z ->
        formatCurrency parseFloat (JNum n) = MoneyFixed2 n)
  /\ formatCurrency parseFloat (JNum NaN) = MoneyFixed2 NaN
  /\ (forall v,
        (forall k, v <> JNum k) ->
        truthy (JNum (parseFloat v)) = false ->
        formatCurrency parseFloat v = MoneyFixed2 (Dec 0 0)).
Proof.
  cbv zeta; unfold formatCurrency; simpl toAmount; unfold num_ge.
  assert (Hu : (0 < 10 ^ Z.of_nat e)%Z) by (apply Z.pow_pos_nonneg; lia).
  repeat split; intros.
  - replace (1000000 * 10 ^ Z.of_nat e <=? m)%Z with true
      by (symmetry; apply Z.leb_le; lia).
    reflexivity.
  - replace (1000000 * 10 ^ Z.of_nat e <=? m)%Z with false
      by (symmetry; apply Z.leb_gt; lia).
    replace (1000 * 10 ^ Z.of_nat e <=? m)%Z with true
      by (symmetry; apply Z.leb_le; lia).
    reflexivity.
  - replace (1000000 * 10 ^ Z.of_nat e <=? m)%Z with false
      by (symmetry; apply Z.leb_gt; lia).
    replace (1000 * 10 ^ Z.of_nat e <=? m)%Z with false
      by (symmetry; apply Z.leb_gt; lia).
    reflexivity.
  - destruct v as [ | | b | k | s | items | o ];
      try (exfalso; eapply H; reflexivity);
      unfold toAmount; rewrite H0; reflexivity.
Qed.

Lemma formatCurrency_by_value_witness :
  formatCurrency (fun _ => NaN) (JNum (Dec 2500000 0))
  = MoneyFixed1 (Dec 2500000 0) 1000000 (lit "M")
  /\ formatCurrency (fun _ => NaN) (JNum (Dec (-2000000) 0))
     = MoneyFixed2 (Dec (-2000000) 0)
  /\ formatCurrency (fun _ => NaN) (JStr (lit "n/a")) = MoneyFixed2 (Dec 0 0).
Proof.
  split; [|split].
  - apply (proj1 (formatCurrency_by_value (fun _ => NaN) 2500000 0));
      simpl; lia.
  - apply (proj1 (proj2 (proj2
             (formatCurrency_by_value (fun _ => NaN) (-2000000) 0))));
      simpl; lia.
  - apply (proj2 (proj2 (proj2 (proj2
             (formatCurrency_by_value (fun _ => NaN) 0 0)))));
      [intros k; discriminate | reflexivity].
Defined.

(* ------------------------------------------------------------------------- *)
(** ** The dashboard page *)

Lemma fetchDashboardData_runs
    (base : jsstring) (network : Request -> FetchResult)
    (filters : Filters) (w : World) :
  exists data,
    fetchDashboardData base network filters w
    = (Return data,
       mkWorld (app w) (sent w ++ [GET (dashboardUrl base filters)])
         (ticks w)).
Proof.
  unfold fetchDashboardData; run_handler.
  destruct (network _) as [e | r]; [eexists; reflexivity|].
  destruct (ok r); cbn; [|eexists; reflexivity].
  destruct (body r) as [e | v]; cbn; [eexists; reflexivity|].
  destruct v as [ | | | | | [|first rest] | ]; eexists; reflexivity.
Qed.

(** The effect that fetches the dashboard data always ends with [loading]
    false, after exactly one request.  It ends in one of two states: the
    data is set to a truthy value and [error] is [null], or the data is
    [null] and [error] is "No data returned from API".  The message of the
    catch block is never shown: a failed request, a bad status and an empty
    answer all read "No data returned from API".  The selections, the lower
    bounds and the time filter are not touched. *)
Theorem fetchData_outcome
    (base : jsstring) (network : Request -> FetchResult)
    (filters : Filters) (s : Dash.State) (w : World) :
  exists s',
    Dash.fetchData base network filters s w
    = (s', mkWorld (app w) (sent w ++ [GET (dashboardUrl base filters)])
             (ticks w))
    /\ Dash.loading s' = false
    /\ ((Dash.error s' = JNull /\ truthy (Dash.aggregatedData s') = true)
        \/ (Dash.error s' = JStr (lit "No data returned from API")
            /\ Dash.aggregatedData s' = JNull
            /\ Dash.totalTransactionsMax s' = Dash.totalTransactionsMax s
            /\ Dash.discountMax s' = Dash.discountMax s))
    /\ Dash.selectedRegions s' = Dash.selectedRegions s
    /\ Dash.selectedCategories s' = Dash.selectedCategories s
    /\ Dash.selectedTenure s' = Dash.selectedTenure s
    /\ Dash.selectedRecency s' = Dash.selectedRecency s
    /\ Dash.totalTransactionsMin s' = Dash.totalTransactionsMin s
    /\ Dash.discountMin s' = Dash.discountMin s
    /\ Dash.timeFilter s' = Dash.timeFilter s.
Proof.
  unfold Dash.fetchData, Dash.fetchDataTry.
  destruct (fetchDashboardData_runs base network filters w) as [data Hrun].
  rewrite Hrun.
  destruct (truthy data) eqn:Hdata; simpl negb; cbv iota.
  - destruct (get_prop_truthy data (lit "filterLists") Hdata) as [fl Hfl].
    rewrite Hfl.
    destruct (truthy fl) eqn:Hfltruthy.
    + destruct (get_prop_truthy fl (lit "transactionsMax") Hfltruthy)
        as [tmax Htmax].
      destruct (get_prop_truthy fl (lit "discountMax") Hfltruthy)
        as [dmax Hdmax].
      rewrite Htmax, Hdmax.
      eexists; split; [reflexivity|]; cbn.
      split; [reflexivity|]; split; [left; auto|]; repeat split.
    + eexists; split; [reflexivity|]; cbn.
      split; [reflexivity|]; split; [left; auto|]; repeat split.
  - eexists; split; [reflexivity|]; cbn.
    split; [reflexivity|]; split; [right; repeat split|]; repeat split.
Qed.

(** "Clear all" empties the four selections, puts both lower bounds to 0
    and the time filter to "all", and never leaves an upper bound falsy:
    each is the one of the last data if that is truthy and 50 or 1
    otherwise.  Before any data has arrived it restores the initial filter
    values; and clearing twice is clearing once. *)
Theorem clearAllFilters_resets (s : Dash.State) :
  let c := Dash.clearAllFilters s in
  (Dash.selectedRegions c = JArr [] /\ Dash.selectedCategories c = JArr []
   /\ Dash.selectedTenure c = JArr [] /\ Dash.selectedRecency c = JArr []
   /\ Dash.totalTransactionsMin c = JNum (Dec 0 0)
   /\ Dash.discountMin c = JNum (Dec 0 0)
   /\ Dash.timeFilter c = JStr (lit "all"))
  /\ (truthy (Dash.totalTransactionsMax c) = true
      /\ truthy (Dash.discountMax c) = true)
  /\ (truthy (Dash.aggregatedData s) = false ->
      c = Dash.mkState (Dash.aggregatedData s) (Dash.loading s)
            (Dash.error s) (Dash.timeFilter Dash.initial)
            (Dash.selectedRegions Dash.initial)
            (Dash.selectedCategories Dash.initial)
            (Dash.selectedTenure Dash.initial)
            (Dash.selectedRecency Dash.initial)
            (Dash.totalTransactionsMin Dash.initial)
            (Dash.totalTransactionsMax Dash.initial)
            (Dash.discountMin Dash.initial)
            (Dash.discountMax Dash.initial))
  /\ Dash.clearAllFilters c = c.
Proof.
  cbv zeta; unfold Dash.clearAllFilters; cbn -[opt_prop js_or].
  split; [repeat split|].
  split; [split; apply js_or_truthy; reflexivity|].
  split; [|reflexivity].
  intros Hnone.
  destruct (Dash.aggregatedData s) as [ | | b | n | t | items | o ];
    simpl in Hnone; try discriminate; try reflexivity.
  all: try (subst; reflexivity).
  all: try (destruct t; [reflexivity | discriminate]).
Qed.

Lemma clearAllFilters_resets_witness :
  Dash.clearAllFilters
    (Dash.setSelectedRegions (JArr [JStr (lit "West")])
       (Dash.setTimeFilter (JStr (lit "3m")) Dash.initial))
  = Dash.initial.
Proof.
  apply (proj1 (proj2 (proj2
           (clearAllFilters_resets
              (Dash.setSelectedRegions (JArr [JStr (lit "West")])
                 (Dash.setTimeFilter (JStr (lit "3m")) Dash.initial)))))).
  reflexivity.
Defined.

(** "Select all" does nothing while there is no data or the data has no
    filter lists, and nothing for a filter it does not know; "Clear" after
    "Select all" of the same filter leaves the state that "Clear" alone
    gives, so the two buttons of a filter undo each other whatever the
    lists of the data are. *)
Theorem select_all_then_clear (filterType : jsstring) (s : Dash.State) :
  Dash.handleClearFilter filterType (Dash.handleSelectAll filterType s)
  = Dash.handleClearFilter filterType s
  /\ (truthy (opt_prop (Dash.aggregatedData s) "filterLists") = false ->
      Dash.handleSelectAll filterType s = s)
  /\ (filterType <> lit "regions" -> filterType <> lit "categories" ->
      filterType <> lit "tenure" -> filterType <> lit "recency" ->
      Dash.handleSelectAll filterType s = s
      /\ Dash.handleClearFilter filterType s = s).
Proof.
  unfold Dash.handleClearFilter, Dash.handleSelectAll.
  split; [|split].
  - destruct (truthy (opt_prop (Dash.aggregatedData s) "filterLists"));
      simpl negb; cbv iota; [|reflexivity].
    destruct (jsstring_eqb filterType (lit "regions")); [reflexivity|].
    destruct (jsstring_eqb filterType (lit "categories")); [reflexivity|].
    destruct (jsstring_eqb filterType (lit "tenure")); [reflexivity|].
    destruct (jsstring_eqb filterType (lit "recency")); reflexivity.
  - intros H; rewrite H; reflexivity.
  - intros H1 H2 H3 H4.
    destruct (jsstring_eqb filterType (lit "regions")) eqn:E1;
      [apply jsstring_eqb_eq in E1; contradiction|].
    destruct (jsstring_eqb filterType (lit "categories")) eqn:E2;
      [apply jsstring_eqb_eq in E2; contradiction|].
    destruct (jsstring_eqb filterType (lit "tenure")) eqn:E3;
      [apply jsstring_eqb_eq in E3; contradiction|].
    destruct (jsstring_eqb filterType (lit "recency")) eqn:E4;
      [apply jsstring_eqb_eq in E4; contradiction|].
    split; [|reflexivity].
    destruct (negb (truthy (opt_prop (Dash.aggregatedData s) "filterLists")));
      reflexivity.
Qed.

Lemma select_all_then_clear_witness :
  Dash.handleSelectAll (lit "regions") Dash.initial = Dash.initial
  /\ Dash.handleSelectAll (lit "region") Dash.initial = Dash.initial.
Proof.
  split.
  - apply (proj1 (proj2 (select_all_then_clear (lit "regions") Dash.initial))).
    reflexivity.
  - apply (proj2 (proj2 (select_all_then_clear (lit "region") Dash.initial)));
      discriminate.
Defined.

(* ------------------------------------------------------------------------- *)
(** ** The console helpers *)

(** [testTextAnalysis] returns the parsed body only when the body is not
    [null] and its [summary] is a string or missing; when the summary is
    anything else (a number, a list, an object) the call that shortens it
    for the log throws and the helper returns [null] although the server
    answered. *)
Theorem testTextAnalysis_result
    (network : Request -> FetchResult) (w : World) (r : Response)
    (data : jsval) :
  let req := POST (lit "http://localhost:5000/api/text/analyze")
               (obj [("user_message", JStr (lit "What are total sales?"))]) in
  network req = FetchResponse r ->
  body r = JsonOk data ->
  fst (DEBUG_API.testTextAnalysis network w)
  = Return
      match get_prop data (lit "summary") with
      | Return JUndefined | Return JNull | Return (JStr _) => data
      | _ => JNull
      end.
Proof.
  intros req Hnet Hbody; subst req.
  unfold DEBUG_API.testTextAnalysis; run_handler.
  rewrite Hnet, Hbody.
  destruct data as [ | | b | n | s | items | o ]; try reflexivity.
  cbn.
  match goal with
  | |- context [DEBUG_API.preview ?x] => destruct x
  end; reflexivity.
Qed.

Lemma testTextAnalysis_result_witness :
  fst (DEBUG_API.testTextAnalysis
         (respond 200 (obj [("success", JBool true);
                            ("summary", JNum (Dec 42 0))]))
         (world (emptyState "home")))
  = Return JNull.
Proof.
  apply (testTextAnalysis_result
           (respond 200 (obj [("success", JBool true);
                              ("summary", JNum (Dec 42 0))]))
           (world (emptyState "home"))
           (mkResponse 200 (lit "")
              (JsonOk (obj [("success", JBool true);
                            ("summary", JNum (Dec 42 0))])))
           (obj [("success", JBool true); ("summary", JNum (Dec 42 0))])
           eq_refl eq_refl).
Defined.

Lemma testTextAnalysis_world (network : Request -> FetchResult) (w : World) :
  exists v,
    DEBUG_API.testTextAnalysis network w
    = (Return v,
       mkWorld (app w)
         (sent w ++ [POST (lit "http://localhost:5000/api/text/analyze")
                       (obj [("user_message",
                              JStr (lit "What are total sales?"))])])
         (ticks w)).
Proof.
  unfold DEBUG_API.testTextAnalysis; run_handler.
  destruct (network _) as [e | r]; [eexists; reflexivity|].
  destruct (body r) as [e | data]; [eexists; reflexivity|].
  destruct (get_prop data (lit "success")); [|eexists; reflexivity].
  destruct (get_prop data (lit "summary")) as [s | e];
    [|eexists; reflexivity].
  destruct (DEBUG_API.preview s); eexists; reflexivity.
Qed.

Lemma testGraphGeneration_world (network : Request -> FetchResult)
    (StringToNumber : jsstring -> number) (w : World) :
  exists v,
    DEBUG_API.testGraphGeneration network StringToNumber w
    = (Return v,
       mkWorld (app w)
         (sent w ++ [POST (lit "http://localhost:5000/api/graphs/generate")
                       (obj [("user_message",
                              JStr (lit "Show me sales by category"))])])
         (ticks w)).
Proof.
  unfold DEBUG_API.testGraphGeneration; run_handler.
  destruct (network _) as [e | r]; [eexists; reflexivity|].
  destruct (body r) as [e | data]; [eexists; reflexivity|].
  destruct (get_prop data (lit "success")); [|eexists; reflexivity].
  destruct (get_prop data (lit "charts")) as [c | e];
    [|eexists; reflexivity].
  destruct (js_gt0 StringToNumber (DEBUG_API.opt_length c));
    [|eexists; reflexivity].
  destruct (DEBUG_API.first c) as [chart | e]; [|eexists; reflexivity].
  destruct (get_prop chart (lit "title")); eexists; reflexivity.
Qed.

Lemma testHealth_world (network : Request -> FetchResult) (w : World) :
  exists v,
    DEBUG_API.testHealth network w
    = (Return v,
       mkWorld (app w)
         (sent w ++ [GET (lit "http://localhost:5000/api/health")])
         (ticks w)).
Proof.
  unfold DEBUG_API.testHealth; run_handler.
  destruct (network _) as [e | r]; [eexists; reflexivity|].
  destruct (body r) as [e | data]; [eexists; reflexivity|].
  destruct (get_prop data (lit "database")); eexists; reflexivity.
Qed.

Lemma testDashboardData_world (network : Request -> FetchResult) (w : World) :
  exists v,
    DEBUG_API.testDashboardData network w
    = (Return v,
       mkWorld (app w)
         (sent w ++ [GET (lit "http://localhost:5000/api/data")])
         (ticks w)).
Proof.
  unfold DEBUG_API.testDashboardData; run_handler.
  destruct (network _) as [e | r]; [eexists; reflexivity|].
  destruct (body r) as [e | data]; eexists; reflexivity.
Qed.

(** [runAllTests] always runs all four tests: whatever the network answers
    to each, it ends without a throw after exactly four requests, to the
    health, data, text-analysis and graph-generation endpoints in that
    order, and leaves the component's state alone. *)
Theorem runAllTests_requests
    (network : Request -> FetchResult) (StringToNumber : jsstring -> number)
    (w : World) :
  DEBUG_API.runAllTests network StringToNumber w
  = (Return tt,
     mkWorld (app w)
       (sent w
        ++ [GET (lit "http://localhost:5000/api/health");
            GET (lit "http://localhost:5000/api/data");
            POST (lit "http://localhost:5000/api/text/analyze")
              (obj [("user_message", JStr (lit "What are total sales?"))]);
            POST (lit "http://localhost:5000/api/graphs/generate")
              (obj [("user_message",
                     JStr (lit "Show me sales by category"))])])
       (ticks w)).
Proof.
  unfold DEBUG_API.runAllTests, bind.
  destruct (testHealth_world network w) as [v1 ->].
  destruct (testDashboardData_world network
              (mkWorld (app w)
                 (sent w ++ [GET (lit "http://localhost:5000/api/health")])
                 (ticks w))) as [v2 ->].
  cbn [app sent ticks].
  match goal with
  | |- context [DEBUG_API.testTextAnalysis network ?w1] =>
      destruct (testTextAnalysis_world network w1) as [v3 ->]
  end.
  cbn [app sent ticks].
  match goal with
  | |- context [DEBUG_API.testGraphGeneration network StringToNumber ?w1] =>
      destruct (testGraphGeneration_world network StringToNumber w1)
        as [v4 ->]
  end.
  cbn [app sent ticks]; unfold ret.
  rewrite <- !app_assoc; reflexivity.
Qed.

(* ------------------------------------------------------------------------- *)
(** ** The send handlers: a success *)

(** When the analysis request is answered with a 2xx status and a body
    whose [success] is truthy, the assistant message carries the body's
    [summary] as it is (also when it is missing) and the body's [timestamp]
    as its time, or the client's clock when the body has no truthy
    timestamp. *)
Theorem handleSendMessage_success
    (base : jsstring) (network : Request -> FetchResult)
    (nowISO : nat -> jsstring) (w : World) (r : Response)
    (data : list (jsstring * jsval)) :
  let text := trim (chatInput (app w)) in
  is_empty text = false ->
  chatLoading (app w) = false ->
  network (POST (base ++ lit "/text/analyze")
             (obj [("user_message", JStr text)])) = FetchResponse r ->
  ok r = true ->
  body r = JsonOk (JObj data) ->
  truthy (lookup (lit "success") data) = true ->
  exists w',
    handleSendMessage base network nowISO w = (Return tt, w')
    /\ chatMessages (app w')
       = chatMessages (app w)
         ++ [mkMessage user (JStr text) (JStr (nowISO (ticks w))) JUndefined;
             mkMessage assistant (lookup (lit "summary") data)
               (if truthy (lookup (lit "timestamp") data)
                then lookup (lit "timestamp") data
                else JStr (nowISO (S (ticks w))))
               JUndefined]
    /\ chatLoading (app w') = false.
Proof.
  intros text Htext Hidle Hnet Hok Hbody Hsuccess.
  unfold handleSendMessage.
  unfold bind at 1; unfold getState at 1.
  fold text; rewrite Htext, Hidle; cbv [orb].
  unfold analyzeText; run_handler.
  cbn in Hsuccess.
  rewrite Hnet, Hok; cbn; rewrite Hbody; cbn; rewrite Hsuccess; cbn.
  match goal with
  | |- context [truthy (lookup ?k data)] =>
      change (truthy (lookup k data))
        with (truthy (lookup (lit "timestamp") data));
      destruct (truthy (lookup (lit "timestamp") data)) eqn:Hts
  end; cbn;
    (eexists; split; [reflexivity|]; cbn;
     rewrite <- app_assoc; split; reflexivity).
Qed.

Lemma handleSendMessage_success_witness :
  exists w',
    handleSendMessage localhost
      (respond 200 (obj [("success", JBool true);
                         ("summary", JStr (lit "Revenue is up."))]))
      sampleClock (world typingState)
    = (Return tt, w')
    /\ chatMessages (app w')
       = [mkMessage user (JStr (lit "total revenue?")) (JStr (lit "T0"))
            JUndefined;
          mkMessage assistant (JStr (lit "Revenue is up.")) (JStr (lit "T1"))
            JUndefined].
Proof.
  destruct (handleSendMessage_success localhost
              (respond 200 (obj [("success", JBool true);
                                 ("summary", JStr (lit "Revenue is up."))]))
              sampleClock (world typingState)
              (mkResponse 200 (lit "")
                 (JsonOk (obj [("success", JBool true);
                               ("summary", JStr (lit "Revenue is up."))])))
              [(lit "success", JBool true);
               (lit "summary", JStr (lit "Revenue is up."))]
              eq_refl eq_refl eq_refl eq_refl eq_refl eq_refl)
    as (w' & H & Hm & _).
  exists w'; split; [exact H | exact Hm].
Defined.

(** When the chart request is answered, with whatever status, by a body
    whose [success] is truthy, the assistant message reads
    [Here are your charts for: "..."] with the trimmed question between the
    quotes, carries the body's [charts], or the empty array when the body
    has none, and has the body's [timestamp] as its time, or the client's
    clock when the body has no truthy timestamp. *)
Theorem handleSendGraphMessage_success
    (base : jsstring) (network : Request -> FetchResult)
    (nowISO : nat -> jsstring) (w : World) (r : Response)
    (data : list (jsstring * jsval)) :
  let text := trim (graphChatInput (app w)) in
  is_empty text = false ->
  graphChatLoading (app w) = false ->
  network (graphRequest base text) = FetchResponse r ->
  body r = JsonOk (JObj data) ->
  truthy (lookup (lit "success") data) = true ->
  exists w',
    handleSendGraphMessage base network nowISO w = (Return tt, w')
    /\ graphChatMessages (app w')
       = graphChatMessages (app w)
         ++ [mkMessage user (JStr text) (JStr (nowISO (ticks w))) JUndefined;
             mkMessage assistant
               (JStr (lit "Here are your charts for: " ++ quote ++ text
                        ++ quote))
               (if truthy (lookup (lit "timestamp") data)
                then lookup (lit "timestamp") data
                else JStr (nowISO (S (ticks w))))
               (if truthy (lookup (lit "charts") data)
                then lookup (lit "charts") data
                else JArr [])]
    /\ graphChatLoading (app w') = false.
Proof.
  intros text Htext Hidle Hnet Hbody Hsuccess.
  unfold graphRequest in Hnet.
  unfold handleSendGraphMessage.
  unfold bind at 1; unfold getState at 1.
  fold text; rewrite Htext, Hidle; cbv [orb].
  run_handler.
  cbn in Hsuccess.
  destruct (truthy (lookup (lit "timestamp") data)) eqn:Hts; cbn in Hts;
    rewrite Hnet, Hbody; cbn; rewrite Hsuccess; cbn; rewrite Hts; cbn;
    unfold js_or;
    (eexists; split; [reflexivity|]; cbn;
     rewrite <- app_assoc; split; reflexivity).
Qed.

Lemma handleSendGraphMessage_success_witness :
  exists w',
    handleSendGraphMessage localhost
      (respond 500 (obj [("success", JBool true)]))
      sampleClock (world askingState)
    = (Return tt, w')
    /\ graphChatMessages (app w')
       = [mkMessage user (JStr (lit "revenue by month")) (JStr (lit "T0"))
            JUndefined;
          mkMessage assistant
            (JStr (lit "Here are your charts for: " ++ quote
                     ++ lit "revenue by month" ++ quote))
            (JStr (lit "T1")) (JArr [])].
Proof.
  destruct (handleSendGraphMessage_success localhost
              (respond 500 (obj [("success", JBool true)]))
              sampleClock (world askingState)
              (mkResponse 500 (lit "")
                 (JsonOk (obj [("success", JBool true)])))
              [(lit "success", JBool true)]
              eq_refl eq_refl eq_refl eq_refl eq_refl)
    as (w' & H & Hm & _).
  exists w'; split; [exact H | exact Hm].
Defined.

(* ------------------------------------------------------------------------- *)
(** ** The loaded history in the grouping *)

Section HistoryGrouping.

Variable toDateString : jsval -> jsstring.
Variable toLocaleDateString : jsval -> jsstring.
Variable today : jsstring.

Let label (m : Message) : jsstring :=
  formatDate toDateString toLocaleDateString today (timestamp m).
Let grouped := chatGroupedMessages toDateString toLocaleDateString today.

(** In the grouping of a loaded chat history no divider stands between a
    question and its answer: the two messages of a row share the row's
    time, so a divider can only stand before a question, that is, before a
    message of even index. *)
Theorem chat_history_pairs_stay_together
    (rows : list (list (jsstring * jsval))) :
  forall l i,
    In (Divider l i) (grouped (flat_map chatPair rows)) ->
    Nat.even i = true.
Proof.
  induction rows as [|row rows IH] using rev_ind; intros l i Hin.
  - contradiction.
  - pose (X := flat_map chatPair rows).
    pose (u := mkMessage user (lookup (lit "user_message") row)
                 (lookup (lit "created_at") row) JUndefined).
    pose (a := mkMessage assistant (lookup (lit "assistant_response") row)
                 (lookup (lit "created_at") row) JUndefined).
    replace (flat_map chatPair (rows ++ [row])) with ((X ++ [u]) ++ [a])
      in Hin
      by (rewrite flat_map_app; simpl; rewrite <- app_assoc; reflexivity).
    fold X in IH.
    unfold grouped in Hin.
    rewrite (grouped_snoc toDateString toLocaleDateString today
               (X ++ [u]) a) in Hin.
    rewrite (grouped_snoc toDateString toLocaleDateString today X u) in Hin.
    fold grouped in Hin.
    rewrite map_app in Hin; cbn [map] in Hin.
    rewrite lastDated_app1 in Hin.
    change (formatDate toDateString toLocaleDateString today (timestamp a))
      with (label u) in Hin.
    change (formatDate toDateString toLocaleDateString today (timestamp u))
      with (label u) in Hin.
    assert (Hnone :
              negb (is_empty (label u))
              && differs (label u)
                   (if is_empty (label u)
                    then lastDated
                           (map (fun m =>
                                   formatDate toDateString toLocaleDateString
                                     today (timestamp m)) X)
                    else Some (label u)) = false).
    { destruct (is_empty (label u)); [reflexivity|].
      simpl; rewrite jsstring_eqb_refl; reflexivity. }
    rewrite Hnone in Hin.
    assert (Heven : Nat.even (List.length X) = true).
    { subst X; rewrite chatPair_length.
      rewrite Nat.even_mul; reflexivity. }
    repeat (apply in_app_or in Hin; destruct Hin as [Hin | Hin]).
    + apply (IH l i Hin).
    + destruct (negb (is_empty (label u)) && _) in Hin; [|contradiction].
      destruct Hin as [Hin | []]; inversion Hin; subst; assumption.
    + destruct Hin as [Hin | []]; discriminate.
    + contradiction.
    + destruct Hin as [Hin | []]; discriminate.
Qed.

End HistoryGrouping.

Lemma chat_history_pairs_stay_together_witness :
  In (Divider (lit "Today") 0)
    (chatGroupedMessages sampleToDateString sampleToLocaleDateString
       sampleToday
       (flat_map chatPair
          [[(lit "user_message", JStr (lit "q1"));
            (lit "assistant_response", JStr (lit "a1"));
            (lit "created_at", JStr morningISO)]]))
  /\ Nat.even 0 = true.
Proof.
  assert (H : In (Divider (lit "Today") 0)
                (chatGroupedMessages sampleToDateString
                   sampleToLocaleDateString sampleToday
                   (flat_map chatPair
                      [[(lit "user_message", JStr (lit "q1"));
                        (lit "assistant_response", JStr (lit "a1"));
                        (lit "created_at", JStr morningISO)]])))
    by (left; reflexivity).
  split; [exact H|].
  exact (chat_history_pairs_stay_together
           sampleToDateString sampleToLocaleDateString sampleToday
           _ _ _ H).
Defined.
